(** * rgb-proxy-server: the artifact store and the acknowledgment rules

    A shallow embedding of [src/controllers/api.ts]: the JSON-RPC method
    table ([server.info], [consignment.get/post], [media.get/post],
    [ack.get/post]), the legacy REST routes, the NeDB datastore [ds] they
    share and the three working directories they read and write.

    Handlers are [async] functions in the source.  Here each one runs to
    completion on the server state it is given (no interleaving of two
    requests); exceptions are explicit and keep the effects performed
    before the [throw], as in JavaScript.  Request logging is left out. *)

From Stdlib Require Import ZArith NArith QArith Qabs List String Ascii Bool Lia.
From Stdlib.Strings Require Import Byte.
From stdpp Require Import base option list strings gmap.

Import ListNotations.
Set Warnings "-register-all".
Set Default Proof Using "Type".
Local Open Scope string_scope.
Local Open Scope list_scope.

(** ** Values *)

(** The content of a file or of a Node [Buffer]. *)
Abbreviation bytes := (list byte).

(** A parsed JSON value, as [req.body.params] is after [JSON.parse].  The
    handlers only test whether a parameter is a string, a boolean or
    falsy, so numbers are kept as integers. *)
Inductive JValue : Type :=
  | JNull
  | JBool (b : bool)
  | JNum (n : Z)
  | JStr (s : string)
  | JArr (l : list JValue)
  | JObj (o : list (string * JValue)).

(** [jsonRpcParams: Partial<JSONRPCParams> | undefined]. *)
Abbreviation JSONRPCParams := (option JValue).

(** The exception classes of [../errors] are tags here (each carries the
    request parameters in the source, which no handler reads back).
    [MethodNotFound] is the JSON-RPC library's own error, [ENOENT] is
    what [fs] throws on a path that does not exist, and [SyntaxError] is
    what [JSON.parse] throws on a text that is not JSON. *)
Inductive Error : Type :=
  | CannotChangeAck
  | CannotChangeUploadedFile
  | InvalidAck
  | InvalidAttachmentID
  | InvalidBlindedUTXO
  | MissingAck
  | MissingAttachmentID
  | MissingBlindedUTXO
  | MissingFile
  | NotFoundConsignment
  | NotFoundMedia
  | MethodNotFound
  | ENOENT
  | SyntaxError.

(** [interface Consignment] without [_id]; an optional field that is absent
    is [None]. *)
Record Consignment : Type := mkConsignment {
  filename : string;
  blindedutxo : string;
  ack : option bool;
  nack : option bool;
  responded : option bool
}.

(** [interface Media]. *)
Record Media : Type := mkMedia {
  media_filename : string;
  attachment_id : string
}.

(** Consignment and media documents live in the same datastore. *)
Inductive Doc : Type :=
  | DocConsignment (c : Consignment)
  | DocMedia (m : Media).

(** [interface ServerInfo]. *)
Record ServerInfo : Type := mkServerInfo {
  version : string;
  protocol_version : string;
  uptime : Z
}.

(** The three directories created at start-up. *)
Inductive Dir : Type := TempDir | ConsignmentDir | MediaDir.

(** The state the handlers act on: the documents of [ds], in the order the
    datastore enumerates them, and the files of each directory by name. *)
Record Server : Type := mkServer {
  ds : list Doc;
  tempDir : gmap string bytes;
  consignmentDir : gmap string bytes;
  mediaDir : gmap string bytes
}.

Definition files (d : Dir) (s : Server) : gmap string bytes :=
  match d with
  | TempDir => tempDir s
  | ConsignmentDir => consignmentDir s
  | MediaDir => mediaDir s
  end.

Definition set_files (d : Dir) (m : gmap string bytes) (s : Server) : Server :=
  match d with
  | TempDir => mkServer (ds s) m (consignmentDir s) (mediaDir s)
  | ConsignmentDir => mkServer (ds s) (tempDir s) m (mediaDir s)
  | MediaDir => mkServer (ds s) (tempDir s) (consignmentDir s) m
  end.

Definition set_ds (db : list Doc) (s : Server) : Server :=
  mkServer db (tempDir s) (consignmentDir s) (mediaDir s).

(** ** Exceptions and state *)

Inductive Outcome (A : Type) : Type :=
  | Return (a : A)
  | Throw (e : Error).
Arguments Return {A} a.
Arguments Throw {A} e.

Definition M (A : Type) : Type := Server -> Outcome A * Server.

Definition ret {A} (a : A) : M A := fun s => (Return a, s).

Definition throw {A} (e : Error) : M A := fun s => (Throw e, s).

Definition bind {A B} (m : M A) (k : A -> M B) : M B :=
  fun s =>
    match m s with
    | (Return a, s') => k a s'
    | (Throw e, s') => (Throw e, s')
    end.

(** [try { m } catch (e) { h e }]. *)
Definition try_catch {A} (m : M A) (h : Error -> M A) : M A :=
  fun s =>
    match m s with
    | (Return a, s') => (Return a, s')
    | (Throw e, s') => h e s'
    end.

(** A check that throws without touching the state. *)
Definition lift {A} (o : Outcome A) : M A := fun s => (o, s).

Definition modify (f : Server -> Server) : M unit := fun s => (Return tt, f s).

(** [x ← m; k] and [m;; k] below are stdpp's notations for [bind]. *)
#[export] Instance M_ret : MRet M := @ret.
#[export] Instance M_bind : MBind M := fun A B k m => bind m k.
#[export] Instance M_fmap : FMap M := fun A B f m => bind m (fun a => ret (f a)).

(** ** The datastore *)

(** [ds.findOne({ blindedutxo: k })]: the first document whose
    [blindedutxo] field is [k]; media documents have no such field. *)
Fixpoint findOne_blindedutxo (k : string) (db : list Doc) : option Consignment :=
  match db with
  | [] => None
  | DocConsignment c :: db' =>
      if String.eqb (blindedutxo c) k then Some c else findOne_blindedutxo k db'
  | DocMedia _ :: db' => findOne_blindedutxo k db'
  end.

(** [ds.findOne({ attachment_id: k })]. *)
Fixpoint findOne_attachment_id (k : string) (db : list Doc) : option Media :=
  match db with
  | [] => None
  | DocMedia m :: db' =>
      if String.eqb (attachment_id m) k then Some m else findOne_attachment_id k db'
  | DocConsignment _ :: db' => findOne_attachment_id k db'
  end.

(** [ds.update({ blindedutxo: k }, { $set: ... }, { multi: false })]: the
    first matching document is modified, the others are left alone. *)
Fixpoint update_blindedutxo (k : string) (f : Consignment -> Consignment)
    (db : list Doc) : list Doc :=
  match db with
  | [] => []
  | DocConsignment c :: db' =>
      if String.eqb (blindedutxo c) k then DocConsignment (f c) :: db'
      else DocConsignment c :: update_blindedutxo k f db'
  | DocMedia m :: db' => DocMedia m :: update_blindedutxo k f db'
  end.

(** [ds.insert(doc)].  No unique index is declared on the key fields, so
    the insertion always succeeds.  The new document is put last: every
    handler inserts only after a lookup of the same key found nothing, so
    its place among the others is never observed. *)
Definition insert_doc (d : Doc) (db : list Doc) : list Doc := db ++ [d].

Definition ds_findOne_blindedutxo (k : string) : M (option Consignment) :=
  fun s => (Return (findOne_blindedutxo k (ds s)), s).

Definition ds_findOne_attachment_id (k : string) : M (option Media) :=
  fun s => (Return (findOne_attachment_id k (ds s)), s).

Definition ds_update (k : string) (f : Consignment -> Consignment) : M unit :=
  modify (fun s => set_ds (update_blindedutxo k f (ds s)) s).

Definition ds_insert (d : Doc) : M unit :=
  modify (fun s => set_ds (insert_doc d (ds s)) s).

(** The number of consignment records stored under a key. *)
Definition count_blindedutxo (k : string) (db : list Doc) : nat :=
  length (List.filter
            (fun d => match d with
                      | DocConsignment c => String.eqb (blindedutxo c) k
                      | DocMedia _ => false
                      end) db).

Definition count_attachment_id (k : string) (db : list Doc) : nat :=
  length (List.filter
            (fun d => match d with
                      | DocMedia m => String.eqb (attachment_id m) k
                      | DocConsignment _ => false
                      end) db).

(** ** The file system

    A path is [path.join(dir, name)] with [dir] one of the three
    directories; names are the ones multer and the digest produce, without
    separators. *)

Definition existsSync (d : Dir) (name : string) : M bool :=
  fun s => (Return (bool_decide (is_Some (files d s !! name))), s).

Definition readFileSync (d : Dir) (name : string) : M bytes :=
  fun s =>
    match files d s !! name with
    | Some b => (Return b, s)
    | None => (Throw ENOENT, s)
    end.

Definition unlinkSync (d : Dir) (name : string) : M unit :=
  fun s =>
    match files d s !! name with
    | Some _ => (Return tt, set_files d (delete name (files d s)) s)
    | None => (Throw ENOENT, s)
    end.

(** [fs.renameSync(from, to)] replaces an existing destination. *)
Definition renameSync (d : Dir) (name : string) (d' : Dir) (name' : string) : M unit :=
  fun s =>
    match files d s !! name with
    | Some b =>
        let s1 := set_files d (delete name (files d s)) s in
        (Return tt, set_files d' (<[name' := b]> (files d' s1)) s1)
    | None => (Throw ENOENT, s)
    end.

(** ** Shape tests on loosely typed values

    A JavaScript value of type [unknown] is a JSON value or [undefined]
    ([None]). *)

Definition isBoolean (data : option JValue) : bool :=
  match data with
  | Some (JBool _) => true
  | _ => false
  end.

Definition isDictionary (data : option JValue) : bool :=
  match data with
  | Some (JObj _) => true
  | _ => false
  end.

Definition isString (data : option JValue) : bool :=
  match data with
  | Some (JStr _) => true
  | _ => false
  end.

(** JavaScript truthiness, the [!x] of the source being [negb (truthy x)]. *)
Definition truthy (data : option JValue) : bool :=
  match data with
  | None => false
  | Some JNull => false
  | Some (JBool b) => b
  | Some (JNum n) => negb (Z.eqb n 0)
  | Some (JStr s) => negb (String.eqb s "")
  | Some (JArr _) => true
  | Some (JObj _) => true
  end.

(** The value of an own property of an object. *)
Fixpoint property (key : string) (o : list (string * JValue)) : option JValue :=
  match o with
  | [] => None
  | (k, v) :: o' => if String.eqb k key then Some v else property key o'
  end.

(** [key in jsonRpcParams] and [jsonRpcParams[key]]. *)
Definition key_in (key : string) (jsonRpcParams : JSONRPCParams) : bool :=
  match jsonRpcParams with
  | Some (JObj o) => bool_decide (is_Some (property key o))
  | _ => false
  end.

Definition at_key (jsonRpcParams : JSONRPCParams) (key : string) : option JValue :=
  match jsonRpcParams with
  | Some (JObj o) => property key o
  | _ => None
  end.

(** ** Parameter validation *)

Definition getAckParam (jsonRpcParams : JSONRPCParams) : Outcome bool :=
  let ackKey := "ack" in
  if negb (isDictionary jsonRpcParams) || negb (key_in ackKey jsonRpcParams)
  then Throw MissingAck
  else
    match at_key jsonRpcParams ackKey with
    | Some (JBool b) => Return b
    | _ => Throw InvalidAck
    end.

Definition getAttachmentIDParam (jsonRpcParams : JSONRPCParams) : Outcome string :=
  let attachmentIDKey := "attachment_id" in
  if negb (isDictionary jsonRpcParams) || negb (key_in attachmentIDKey jsonRpcParams)
  then Throw MissingAttachmentID
  else
    let attachmentID := at_key jsonRpcParams attachmentIDKey in
    if negb (truthy attachmentID) || negb (isString attachmentID)
    then Throw InvalidAttachmentID
    else
      match attachmentID with
      | Some (JStr s) => Return s
      | _ => Throw InvalidAttachmentID
      end.

Definition getBlindedUTXOParam (jsonRpcParams : JSONRPCParams) : Outcome string :=
  let blindedUTXOKey := "blinded_utxo" in
  if negb (isDictionary jsonRpcParams) || negb (key_in blindedUTXOKey jsonRpcParams)
  then Throw MissingBlindedUTXO
  else
    let blindedUTXO := at_key jsonRpcParams blindedUTXOKey in
    if negb (truthy blindedUTXO) || negb (isString blindedUTXO)
    then Throw InvalidBlindedUTXO
    else
      match blindedUTXO with
      | Some (JStr s) => Return s
      | _ => Throw InvalidBlindedUTXO
      end.

Definition getConsignment (jsonRpcParams : JSONRPCParams) : M Consignment :=
  blindedUTXO ← lift (getBlindedUTXOParam jsonRpcParams);
  consignment ← ds_findOne_blindedutxo blindedUTXO;
  match consignment with
  | None => throw NotFoundConsignment
  | Some c => ret c
  end.

(** ** Transport encoding

    [Buffer.toString("base64")] is Node's: RFC 4648 with the standard
    alphabet and [=] padding.  [base64_decode] is what a client applies to
    the string it receives. *)

Definition base64_alphabet : list ascii :=
  list_ascii_of_string
    "ABCDEFGHIJKLMNOPQRSTUVWXYZabcdefghijklmnopqrstuvwxyz0123456789+/".

Definition base64_char (sextet : N) : ascii :=
  nth (N.to_nat sextet) base64_alphabet "A"%char.

Fixpoint index_of (c : ascii) (l : list ascii) (i : N) : option N :=
  match l with
  | [] => None
  | x :: l' => if Ascii.eqb x c then Some i else index_of c l' (N.succ i)
  end.

Definition base64_sextet (c : ascii) : option N := index_of c base64_alphabet 0%N.

Fixpoint base64_encode (buf : bytes) : string :=
  match buf with
  | [] => ""
  | [a] =>
      let n := Byte.to_N a in
      String (base64_char (n / 4))
        (String (base64_char ((n mod 4) * 16)) "==")
  | [a; b] =>
      let n := (Byte.to_N a * 256 + Byte.to_N b)%N in
      String (base64_char (n / 1024))
        (String (base64_char ((n / 16) mod 64))
           (String (base64_char ((n mod 16) * 4)) "="))
  | a :: b :: c :: rest =>
      let n := (Byte.to_N a * 65536 + Byte.to_N b * 256 + Byte.to_N c)%N in
      String (base64_char (n / 262144))
        (String (base64_char ((n / 4096) mod 64))
           (String (base64_char ((n / 64) mod 64))
              (String (base64_char (n mod 64)) (base64_encode rest))))
  end%N.

Definition pad : ascii := "="%char.

Fixpoint base64_decode (s : string) : option bytes :=
  match s with
  | "" => Some []
  | String c1 (String c2 (String c3 (String c4 rest))) =>
      if Ascii.eqb c4 pad then
        match rest with
        | "" =>
            if Ascii.eqb c3 pad then
              s1 ← base64_sextet c1;
              s2 ← base64_sextet c2;
              a ← Byte.of_N (s1 * 4 + s2 / 16);
              Some [a]
            else
              s1 ← base64_sextet c1;
              s2 ← base64_sextet c2;
              s3 ← base64_sextet c3;
              a ← Byte.of_N (s1 * 4 + s2 / 16);
              b ← Byte.of_N ((s2 mod 16) * 16 + s3 / 4);
              Some [a; b]
        | _ => None
        end
      else
        s1 ← base64_sextet c1;
        s2 ← base64_sextet c2;
        s3 ← base64_sextet c3;
        s4 ← base64_sextet c4;
        a ← Byte.of_N (s1 * 4 + s2 / 16);
        b ← Byte.of_N ((s2 mod 16) * 16 + s3 / 4);
        c ← Byte.of_N ((s3 mod 4) * 64 + s4);
        tl ← base64_decode rest;
        Some (a :: b :: c :: tl)
  | _ => None
  end%N.

(** [Math.trunc] on a rational reading of the clock: rounding towards
    zero. *)
Definition Math_trunc (x : Q) : Z := Z.quot (Qnum x) (Z.pos (Qden x)).

(** ** The request handlers *)

(** What multer hands over for an uploaded part: the random name it chose
    in [tempDir] and the bytes it wrote there. *)
Record Upload : Type := mkUpload {
  upload_filename : string;
  upload_content : bytes
}.

(** [upload.single(...)]: the part, if any, is written to [tempDir] before
    the handler runs, and the handler sees its name as [file.filename]. *)
Definition upload_single (part : option Upload) : M (option string) :=
  match part with
  | None => ret None
  | Some u =>
      modify (fun s => set_files TempDir
                         (<[upload_filename u := upload_content u]> (tempDir s)) s);;
      ret (Some (upload_filename u))
  end.

(** The result of a JSON-RPC method. *)
Inductive RpcResult : Type :=
  | ResInfo (i : ServerInfo)
  | ResString (s : string)
  | ResBool (b : bool)
  | ResUndefined.

(** What [jsonRpcServer.receive] resolves to: a result, or an error object
    ([isErrorResponse]).  The library turns every exception of a method
    into an error object and never rejects. *)
Inductive JSONRPCResponse : Type :=
  | RpcSuccess (result : RpcResult)
  | RpcError (error : Error).

Definition response_of (o : Outcome RpcResult) : JSONRPCResponse :=
  match o with
  | Return r => RpcSuccess r
  | Throw e => RpcError e
  end.

Definition receive (call : M RpcResult) : M JSONRPCResponse :=
  fun s => let (o, s') := call s in (Return (response_of o), s').

(** A REST reply: [res.status(code).send(body)], the body being an object
    literal. *)
Record Response : Type := mkResponse {
  status : Z;
  body : list (string * JValue)
}.

Definition PROTOCOL_VERSION : string := "0.1".

Section Handlers.

(** Modelled from the spec: [genHashFromFile] is defined in [../util],
    outside the sources at hand; by section 4.1 it is the deterministic
    content digest of the file's bytes.  [fingerprint] is that digest, and
    [genHashFromFile] below reads the file it is applied to. *)
Variable fingerprint : bytes -> string.

(** The constant of [../version]. *)
Variable APP_VERSION : string.

Definition genHashFromFile (d : Dir) (name : string) : M string :=
  fileBuffer ← readFileSync d name;
  ret (fingerprint fileBuffer).

(** [server.info]; [now] is the reading of [process.uptime()]. *)
Definition server_info (now : Q) : M ServerInfo :=
  ret {| protocol_version := PROTOCOL_VERSION;
         version := APP_VERSION;
         uptime := Math_trunc now |}.

(** [consignment.get] *)
Definition consignment_get (jsonRpcParams : JSONRPCParams) : M string :=
  consignment ← getConsignment jsonRpcParams;
  fileBuffer ← readFileSync ConsignmentDir (filename consignment);
  ret (base64_encode fileBuffer).

(** The [catch] block shared by the two upload methods. *)
Definition remove_unhandled (file : option string) : M unit :=
  match file with
  | Some unhandledFile =>
      there ← existsSync TempDir unhandledFile;
      if there : bool then unlinkSync TempDir unhandledFile else ret tt
  | None => ret tt
  end.
Arguments remove_unhandled : simpl never.

(** [consignment.post] *)
Definition consignment_post (jsonRpcParams : JSONRPCParams) (file : option string)
    : M bool :=
  try_catch
    (blindedUTXO ← lift (getBlindedUTXOParam jsonRpcParams);
     match file with
     | None => throw MissingFile
     | Some uploadedFile =>
         fileHash ← genHashFromFile TempDir uploadedFile;
         prevFile ← ds_findOne_blindedutxo blindedUTXO;
         match prevFile with
         | Some prev =>
             if String.eqb (filename prev) fileHash then
               unlinkSync TempDir uploadedFile;;
               ret false
             else throw CannotChangeUploadedFile
         | None =>
             renameSync TempDir uploadedFile ConsignmentDir fileHash;;
             ds_insert (DocConsignment
                          {| filename := fileHash;
                             blindedutxo := blindedUTXO;
                             ack := None; nack := None; responded := None |});;
             ret true
         end
     end)
    (fun e => remove_unhandled file;; throw e).

(** [media.get] *)
Definition media_get (jsonRpcParams : JSONRPCParams) : M string :=
  attachmentID ← lift (getAttachmentIDParam jsonRpcParams);
  media ← ds_findOne_attachment_id attachmentID;
  match media with
  | None => throw NotFoundMedia
  | Some m =>
      fileBuffer ← readFileSync MediaDir (media_filename m);
      ret (base64_encode fileBuffer)
  end.

(** [media.post] *)
Definition media_post (jsonRpcParams : JSONRPCParams) (file : option string)
    : M bool :=
  try_catch
    (attachmentID ← lift (getAttachmentIDParam jsonRpcParams);
     match file with
     | None => throw MissingFile
     | Some uploadedFile =>
         fileHash ← genHashFromFile TempDir uploadedFile;
         prevFile ← ds_findOne_attachment_id attachmentID;
         match prevFile with
         | Some prev =>
             if String.eqb (media_filename prev) fileHash then
               unlinkSync TempDir uploadedFile;;
               ret false
             else throw CannotChangeUploadedFile
         | None =>
             renameSync TempDir uploadedFile MediaDir fileHash;;
             ds_insert (DocMedia
                          {| media_filename := fileHash;
                             attachment_id := attachmentID |});;
             ret true
         end
     end)
    (fun e => remove_unhandled file;; throw e).

(** [ack.get] *)
Definition ack_get (jsonRpcParams : JSONRPCParams) : M (option bool) :=
  consignment ← getConsignment jsonRpcParams;
  ret (ack consignment).

(** [{ $set: { ack: ack } }] *)
Definition set_ack (v : bool) (c : Consignment) : Consignment :=
  {| filename := filename c; blindedutxo := blindedutxo c;
     ack := Some v; nack := nack c; responded := responded c |}.

(** [ack.post] *)
Definition ack_post (jsonRpcParams : JSONRPCParams) : M bool :=
  consignment ← getConsignment jsonRpcParams;
  ack_value ← lift (getAckParam jsonRpcParams);
  match ack consignment with
  | Some current =>
      if Bool.eqb current ack_value then ret false
      else throw CannotChangeAck
  | None =>
      ds_update (blindedutxo consignment) (set_ack ack_value);;
      ret true
  end.

(** The method table of [jsonRpcServer]; a name that was not registered is
    answered by the library with its method-not-found error. *)
Definition call_method (method : string) (jsonRpcParams : JSONRPCParams)
    (file : option string) (now : Q) : M RpcResult :=
  if String.eqb method "server.info" then ResInfo <$> server_info now
  else if String.eqb method "consignment.get" then
    ResString <$> consignment_get jsonRpcParams
  else if String.eqb method "consignment.post" then
    ResBool <$> consignment_post jsonRpcParams file
  else if String.eqb method "media.get" then
    ResString <$> media_get jsonRpcParams
  else if String.eqb method "media.post" then
    ResBool <$> media_post jsonRpcParams file
  else if String.eqb method "ack.get" then
    (fun r => match r with Some b => ResBool b | None => ResUndefined end)
      <$> ack_get jsonRpcParams
  else if String.eqb method "ack.post" then ResBool <$> ack_post jsonRpcParams
  else throw MethodNotFound.

(** [POST /json-rpc] on a request whose [params] are a value already, as
    in a JSON body: the part named [file] is staged, the method is called,
    its result or error is sent back, and a staged file the method left
    behind is deleted.  (A request without [id] runs the same way and is
    answered 204 without a body; the reply modelled here is the one of a
    request with an [id].) *)
Definition post_json_rpc (method : string) (jsonRpcParams : JSONRPCParams)
    (part : option Upload) (now : Q) : M JSONRPCResponse :=
  file ← upload_single part;
  jsonRPCResponse ← receive (call_method method jsonRpcParams file now);
  remove_unhandled file;;
  ret jsonRPCResponse.

(** The first lines of the handler: [params] that arrive as a text, as
    they do in a multipart request, are replaced by what [JSON.parse]
    makes of the text.  [JSON.parse] is the runtime's and is taken as
    [JSON_parse], which gives [None] where [JSON.parse] throws. *)
Definition parse_params (JSON_parse : string -> option JValue)
    (params : option JValue) : Outcome JSONRPCParams :=
  match params with
  | Some JNull => Return params
  | Some (JStr text) =>
      match JSON_parse text with
      | Some value => Return (Some value)
      | None => Throw SyntaxError
      end
  | _ => Return params
  end.

(** [POST /json-rpc] from the body as received.  The handler is an
    [async] function without a [try]: an exception of [JSON.parse] leaves
    it before [receive] is called, so the handler sends no reply and the
    clean-up that follows the reply is not reached. *)
Definition post_json_rpc_route (JSON_parse : string -> option JValue)
    (method : string) (params : option JValue) (part : option Upload)
    (now : Q) : M JSONRPCResponse :=
  file ← upload_single part;
  jsonRpcParams ← lift (parse_params JSON_parse params);
  jsonRPCResponse ← receive (call_method method jsonRpcParams file now);
  remove_unhandled file;;
  ret jsonRPCResponse.

(** *** The legacy REST routes

    [req.params.x] is a path segment and [req.body.x] a form field: a
    string, or absent.  (multer makes an array of a field that is sent
    twice and an object of a field name with brackets; the handlers test
    such a value for truth only and hand it to the datastore.  What the
    datastore does with it is not in these sources, and the routes are
    modelled on fields that are texts.) *)

(** The value of a field that passes the test [!!x]: present and not the
    empty string. *)
Definition given (x : option string) : option string :=
  match x with
  | Some k => if truthy (Some (JStr k)) then Some k else None
  | None => None
  end.

Definition send (code : Z) (b : list (string * JValue)) : M Response :=
  ret (mkResponse code b).

Definition failure (message : string) : list (string * JValue) :=
  [("success", JBool false); ("error", JStr message)].

(** [catch (error) { res.status(500).send({ success: false }) }] *)
Definition or_500 (handler : M Response) : M Response :=
  try_catch handler (fun _ => send 500 [("success", JBool false)]).

(** [GET /consignment/:blindedutxo] *)
Definition get_consignment_route (blindedutxo_param : option string) : M Response :=
  or_500
    match given blindedutxo_param with
    | Some k =>
        c ← ds_findOne_blindedutxo k;
        match c with
        | None => send 404 (failure "No consignment found!")
        | Some c =>
            file_buffer ← readFileSync ConsignmentDir (filename c);
            send 200 [("success", JBool true);
                      ("consignment", JStr (base64_encode file_buffer))]
        end
    | None => send 400 (failure "blindedutxo missing!")
    end.

(** [POST /consignment], after [upload.single("consignment")]. *)
Definition post_consignment_handler (blindedutxo_field : option string)
    (file : option string) : M Response :=
  or_500
    match given blindedutxo_field with
    | None => send 400 (failure "blindedutxo missing!")
    | Some k =>
        match file with
        | None => send 400 (failure "Consignment file is missing!")
        | Some uploaded =>
            fileHash ← genHashFromFile TempDir uploaded;
            prevConsignment ← ds_findOne_blindedutxo k;
            match prevConsignment with
            | Some prev =>
                if String.eqb (filename prev) fileHash
                then send 200 [("success", JBool true)]
                else send 403 (failure "Cannot change uploaded file!")
            | None =>
                renameSync TempDir uploaded ConsignmentDir fileHash;;
                ds_insert (DocConsignment
                             {| filename := fileHash;
                                blindedutxo := k;
                                ack := None; nack := None; responded := None |});;
                there ← existsSync TempDir uploaded;
                (if there : bool then unlinkSync TempDir uploaded else ret tt);;
                send 200 [("success", JBool true)]
            end
        end
    end.

Definition post_consignment_route (blindedutxo_field : option string)
    (part : option Upload) : M Response :=
  file ← upload_single part;
  post_consignment_handler blindedutxo_field file.

(** [GET /media/:attachment_id] *)
Definition get_media_route (attachment_id_param : option string) : M Response :=
  or_500
    match given attachment_id_param with
    | Some k =>
        media ← ds_findOne_attachment_id k;
        match media with
        | None => send 404 (failure "No media found!")
        | Some m =>
            file_buffer ← readFileSync MediaDir (media_filename m);
            send 200 [("success", JBool true);
                      ("media", JStr (base64_encode file_buffer))]
        end
    | None => send 400 (failure "attachment_id missing!")
    end.

(** [POST /media], after [upload.single("media")]. *)
Definition post_media_handler (attachment_id_field : option string)
    (file : option string) : M Response :=
  or_500
    match given attachment_id_field with
    | None => send 400 (failure "attachment_id missing!")
    | Some k =>
        match file with
        | None => send 400 (failure "Media file is missing!")
        | Some uploaded =>
            fileHash ← genHashFromFile TempDir uploaded;
            prevMedia ← ds_findOne_attachment_id k;
            match prevMedia with
            | Some prev =>
                if String.eqb (media_filename prev) fileHash
                then send 200 [("success", JBool true)]
                else send 403 (failure "Cannot change uploaded file!")
            | None =>
                renameSync TempDir uploaded MediaDir fileHash;;
                ds_insert (DocMedia
                             {| media_filename := fileHash;
                                attachment_id := k |});;
                there ← existsSync TempDir uploaded;
                (if there : bool then unlinkSync TempDir uploaded else ret tt);;
                send 200 [("success", JBool true)]
            end
        end
    end.

Definition post_media_route (attachment_id_field : option string)
    (part : option Upload) : M Response :=
  file ← upload_single part;
  post_media_handler attachment_id_field file.

(** [{ $set: { ack: a, nack: n, responded: true } }] *)
Definition set_responded (a n : bool) (c : Consignment) : Consignment :=
  {| filename := filename c; blindedutxo := blindedutxo c;
     ack := Some a; nack := Some n; responded := Some true |}.

(** [POST /ack] *)
Definition post_ack_route (blindedutxo_field : option string) : M Response :=
  or_500
    match given blindedutxo_field with
    | None => send 400 (failure "blindedutxo missing!")
    | Some k =>
        c ← ds_findOne_blindedutxo k;
        match c with
        | None => send 404 (failure "No consignment found!")
        | Some c =>
            if truthy (JBool <$> responded c)
            then send 403 (failure "Already responded!")
            else
              ds_update k (set_responded true false);;
              send 200 [("success", JBool true)]
        end
    end.

(** [POST /nack] *)
Definition post_nack_route (blindedutxo_field : option string) : M Response :=
  or_500
    match given blindedutxo_field with
    | None => send 400 (failure "blindedutxo missing!")
    | Some k =>
        c ← ds_findOne_blindedutxo k;
        match c with
        | None => send 404 [("success", JBool false)]
        | Some c =>
            if truthy (JBool <$> responded c)
            then send 403 (failure "Already responded!")
            else
              ds_update k (set_responded false true);;
              ds_findOne_blindedutxo k;;
              send 200 [("success", JBool true)]
        end
    end.

(** [GET /ack/:blindedutxo] *)
Definition get_ack_route (blindedutxo_param : option string) : M Response :=
  or_500
    match given blindedutxo_param with
    | None => send 400 (failure "blindedutxo missing!")
    | Some k =>
        c ← ds_findOne_blindedutxo k;
        match c with
        | None => send 404 (failure "No consignment found!")
        | Some c =>
            send 200 [("success", JBool true);
                      ("ack", JBool (truthy (JBool <$> ack c)));
                      ("nack", JBool (truthy (JBool <$> nack c)))]
        end
    end.

(** [GET /getinfo] *)
Definition getinfo_route (now : Q) : M Response :=
  send 200 [("version", JStr APP_VERSION);
            ("uptime", JNum (Math_trunc now))].


(** ** Sample data for the worked requests *)

(** A stand-in digest for running the handlers on concrete requests: the
    content itself, read as a name. *)
Definition sample_fingerprint (b : bytes) : string := string_of_list_byte b.

(** A stand-in for [JSON.parse] on the worked requests: it reads the
    texts of the empty object and of [null], and nothing else. *)
Definition sample_JSON_parse (text : string) : option JValue :=
  if String.eqb text "{}" then Some (JObj [])
  else if String.eqb text "null" then Some JNull
  else None.

Definition empty_server : Server := mkServer [] ∅ ∅ ∅.

Definition hello : bytes := list_byte_of_string "hello".

Definition world : bytes := list_byte_of_string "world".

(** [{ blinded_utxo: k }], [{ attachment_id: k }] and
    [{ blinded_utxo: k, ack: v }]. *)
Definition blinded_utxo_params (k : string) : JSONRPCParams :=
  Some (JObj [("blinded_utxo", JStr k)]).

Definition attachment_id_params (k : string) : JSONRPCParams :=
  Some (JObj [("attachment_id", JStr k)]).

Definition ack_params (k : string) (v : bool) : JSONRPCParams :=
  Some (JObj [("blinded_utxo", JStr k); ("ack", JBool v)]).

(** A consignment record as [consignment.post] creates it, and a server
    that stores [hello] under the key [k1]. *)
Definition undecided (k f : string) : Consignment :=
  {| filename := f; blindedutxo := k; ack := None; nack := None; responded := None |}.

Definition server_with_k1 : Server :=
  mkServer [DocConsignment (undecided "k1" "hello")] ∅ {["hello" := hello]} ∅.

(** ** States a request passes through *)

(** The state once multer has written the uploaded part, and the state
    once a staged file has been deleted (or was not there). *)
Definition staged (part : option Upload) (s : Server) : Server :=
  match part with
  | None => s
  | Some u =>
      set_files TempDir (<[upload_filename u := upload_content u]> (tempDir s)) s
  end.

Definition cleaned (file : option string) (s : Server) : Server :=
  match file with
  | None => s
  | Some f => set_files TempDir (delete f (tempDir s)) s
  end.

(** The state after a first upload of [b] from the staged file [f]: the
    file has moved to the directory under its digest and a record names
    it. *)
Definition with_consignment (digest : string) (k f : string) (b : bytes)
    (s : Server) : Server :=
  mkServer (insert_doc (DocConsignment (mkConsignment digest k None None None)) (ds s))
           (delete f (tempDir s))
           (<[digest := b]> (consignmentDir s))
           (mediaDir s).

Definition with_media (digest : string) (k f : string) (b : bytes)
    (s : Server) : Server :=
  mkServer (insert_doc (DocMedia (mkMedia digest k)) (ds s))
           (delete f (tempDir s))
           (consignmentDir s)
           (<[digest := b]> (mediaDir s)).

(** ** What the upload claims speak of *)

(** Exactly one record and one blob for the key [k]: the datastore holds a
    single record under [k], it names the digest, the directory has the
    content [b] under that name, and against the directory [before] the
    uploads that entry is the only change. *)
Definition stored_once_consignment (digest k : string) (b : bytes)
    (before : gmap string bytes) (s : Server) : Prop :=
  count_blindedutxo k (ds s) = 1 /\
  findOne_blindedutxo k (ds s) = Some (mkConsignment digest k None None None) /\
  consignmentDir s !! digest = Some b /\
  consignmentDir s = <[digest := b]> before.

Definition stored_once_media (digest k : string) (b : bytes)
    (before : gmap string bytes) (s : Server) : Prop :=
  count_attachment_id k (ds s) = 1 /\
  findOne_attachment_id k (ds s) = Some (mkMedia digest k) /\
  mediaDir s !! digest = Some b /\
  mediaDir s = <[digest := b]> before.

(** The record and the blobs are as they were. *)
Definition store_unchanged (s s' : Server) : Prop :=
  ds s' = ds s /\ consignmentDir s' = consignmentDir s /\ mediaDir s' = mediaDir s.

(** ** Parameter validation in the words of the specification

    A required parameter that is absent is reported as missing; one that
    is present but is not a non-empty string (or, for [ack], not a
    boolean) is reported as invalid. *)
Definition validate_string (key : string) (missing invalid : Error)
    (p : JSONRPCParams) : Outcome string :=
  match at_key p key with
  | None => Throw missing
  | Some (JStr k) => if String.eqb k "" then Throw invalid else Return k
  | Some _ => Throw invalid
  end.

Definition validate_boolean (key : string) (missing invalid : Error)
    (p : JSONRPCParams) : Outcome bool :=
  match at_key p key with
  | None => Throw missing
  | Some (JBool v) => Return v
  | Some _ => Throw invalid
  end.

(** The JSON-RPC methods that take [blinded_utxo], and those that take
    [attachment_id]. *)
Definition blinded_utxo_methods : list string :=
  ["consignment.get"; "consignment.post"; "ack.get"; "ack.post"].

Definition attachment_id_methods : list string := ["media.get"; "media.post"].

Definition sample_version : string := "0.1.0".

(** The legacy fields agree with [ack]: [responded] holds exactly when
    [ack] is set, and [nack] exactly when [ack] is [false].  The fields
    are read as the routes read them, [!!c.responded] and [!!c.nack]. *)
Definition legacy_consistent (c : Consignment) : bool :=
  Bool.eqb (truthy (JBool <$> responded c)) (bool_decide (is_Some (ack c))) &&
  Bool.eqb (truthy (JBool <$> nack c))
           (match ack c with Some false => true | _ => false end).

(** The server of the worked requests with, besides, a media record. *)
Definition server_with_k1_a1 : Server :=
  mkServer [DocConsignment (undecided "k1" "hello"); DocMedia (mkMedia "hello" "a1")]
           ∅ {["hello" := hello]} {["hello" := hello]}.

(** A server that stores [hello] as the media file [a1] and nothing
    else. *)
Definition server_with_a1 : Server :=
  mkServer [DocMedia (mkMedia "hello" "a1")] ∅ ∅ {["hello" := hello]}.

(** [server_with_k1] once [ack.post] has recorded [v] for [k1]. *)
Definition decided_by_rpc (v : bool) : Server :=
  mkServer [DocConsignment (mkConsignment "hello" "k1" (Some v) None None)]
           ∅ {["hello" := hello]} ∅.

(** [server_with_k1] once a legacy route has recorded [v] for [k1]. *)
Definition decided_by_rest (v : bool) : Server :=
  mkServer [DocConsignment
              (mkConsignment "hello" "k1" (Some v) (Some (negb v)) (Some true))]
           ∅ {["hello" := hello]} ∅.

(** [s] with a file left in [tempDir]. *)
Definition with_leftover (f : string) (b : bytes) (s : Server) : Server :=
  mkServer (ds s) (<[f := b]> (tempDir s)) (consignmentDir s) (mediaDir s).

(** ** What the JSON-RPC route writes to the log

    JavaScript strings are sequences of code units; [string] stands for
    them, one character per unit. *)

(** [truncateText(content, limit = 16)] *)
Definition truncateText (content : string) (limit : nat) : string :=
  if negb (truthy (Some (JStr content))) then ""
  else if Nat.leb (String.length content) limit then content
  else String.substring 0 limit content +:+ "...".

Definition default_limit : nat := 16.

(** The string a template literal makes of a value: [null], [true] and
    [false] by name, a string as it is, an array as its elements joined by
    commas (a [null] element giving nothing), any other object as
    [[object Object]].  The decimal form of a number is the runtime's and
    is taken as [render_number]. *)
Fixpoint ToString (render_number : Z -> string) (v : JValue) : string :=
  match v with
  | JNull => "null"
  | JBool b => if b then "true" else "false"
  | JNum n => render_number n
  | JStr s => s
  | JArr l =>
      String.concat ","
        (List.map (fun x => match x with
                            | JNull => ""
                            | _ => ToString render_number x
                            end) l)
  | JObj _ => "[object Object]"
  end.

(** The text of one value in [joinEntries]: a string is truncated, any
    other value is converted by the template literal. *)
Definition entry_value (render_number : Z -> string) (v : JValue) : string :=
  if isString (Some v) then
    match v with
    | JStr s => truncateText s default_limit
    | _ => ToString render_number v
    end
  else ToString render_number v.

(** One turn of the [forEach] of [joinEntries], on the pair of [joined] and
    [keysCount]. *)
Definition joinEntries_step (render_number : Z -> string)
    (acc : string * Z) (entry : string * JValue) : string * Z :=
  let '(joined, keysCount) := acc in
  let '(k, v) := entry in
  let joined := joined +:+ k +:+ ": " +:+ entry_value render_number v in
  let keysCount := (keysCount - 1)%Z in
  if (0 <? keysCount)%Z then (joined +:+ ", ", keysCount) else (joined, keysCount).

(** [joinEntries(entries)], the entries being the object's properties in
    enumeration order. *)
Definition joinEntries (render_number : Z -> string)
    (entries : list (string * JValue)) : string :=
  let '(joined, _) :=
    fold_left (joinEntries_step render_number) entries
      ("<", Z.of_nat (length entries)) in
  joined +:+ ">".

(** The request line of the log: [reqParams]. *)
Definition reqParams (render_number : Z -> string)
    (jsonRpcParams : JSONRPCParams) : string :=
  match jsonRpcParams with
  | Some (JObj o) => joinEntries render_number o
  | _ => ""
  end.

(** The value a method's result is in [jsonRPCResponse.result]; the
    library puts [null] there for a method that returned [undefined]. *)
Definition result_value (r : RpcResult) : JValue :=
  match r with
  | ResInfo i =>
      JObj [("protocol_version", JStr (protocol_version i));
            ("version", JStr (version i));
            ("uptime", JNum (uptime i))]
  | ResString s => JStr s
  | ResBool b => JBool b
  | ResUndefined => JNull
  end.

(** The response line of the log.  The code and the message of an error
    are those its class in [../errors] gives it, taken as [code] and
    [message]. *)
Definition response_log (render_number : Z -> string) (code : Error -> Z)
    (message : Error -> string) (jsonRPCResponse : JSONRPCResponse) : string :=
  match jsonRPCResponse with
  | RpcError e =>
      "err <code: " +:+ render_number (code e) +:+ ", " +:+
      "message: " +:+ message e +:+ ">"
  | RpcSuccess r =>
      let result := result_value r in
      "res " +:+
      match result with
      | JObj o => joinEntries render_number o
      | JStr s => "<" +:+ truncateText s default_limit +:+ ">"
      | v => "<" +:+ ToString render_number v +:+ ">"
      end
  end.

(** ** The server as a whole *)

(** A request to one of the routes [loadApiEndpoints] registers, with what
    the route reads of it ([now] being the clock reading it is served
    at).  [JsonRpc] carries the [params] as the method receives them, and
    the REST requests carry their key field as a text. *)
Inductive Request : Type :=
  | JsonRpc (method : string) (jsonRpcParams : JSONRPCParams)
      (part : option Upload) (now : Q)
  | GetConsignment (blindedutxo_param : option string)
  | PostConsignment (blindedutxo_field : option string) (part : option Upload)
  | GetMedia (attachment_id_param : option string)
  | PostMedia (attachment_id_field : option string) (part : option Upload)
  | PostAck (blindedutxo_field : option string)
  | PostNack (blindedutxo_field : option string)
  | GetAck (blindedutxo_param : option string)
  | GetInfo (now : Q).

(** The state a request leaves. *)
Definition serve (r : Request) (s : Server) : Server :=
  match r with
  | JsonRpc method p part now => snd (post_json_rpc method p part now s)
  | GetConsignment x => snd (get_consignment_route x s)
  | PostConsignment x part => snd (post_consignment_route x part s)
  | GetMedia x => snd (get_media_route x s)
  | PostMedia x part => snd (post_media_route x part s)
  | PostAck x => snd (post_ack_route x s)
  | PostNack x => snd (post_nack_route x s)
  | GetAck x => snd (get_ack_route x s)
  | GetInfo now => snd (getinfo_route now s)
  end.

(** Requests served one after the other. *)
Definition serve_all (rs : list Request) (s : Server) : Server :=
  fold_left (fun s r => serve r s) rs s.

(** The changes a request can make to the records and the blobs: none; a
    new record with its blob, under a key that had none; the [ack] of an
    undecided record; the three answer fields of a record no legacy route
    has answered. *)
Inductive store_step (s s' : Server) : Prop :=
  | step_none :
      store_unchanged s s' -> store_step s s'
  | step_new_consignment (k : string) (b : bytes) :
      k <> "" ->
      findOne_blindedutxo k (ds s) = None ->
      ds s' = insert_doc (DocConsignment (undecided k (fingerprint b))) (ds s) ->
      consignmentDir s' = <[fingerprint b := b]> (consignmentDir s) ->
      mediaDir s' = mediaDir s ->
      store_step s s'
  | step_new_media (k : string) (b : bytes) :
      k <> "" ->
      findOne_attachment_id k (ds s) = None ->
      ds s' = insert_doc (DocMedia (mkMedia (fingerprint b) k)) (ds s) ->
      consignmentDir s' = consignmentDir s ->
      mediaDir s' = <[fingerprint b := b]> (mediaDir s) ->
      store_step s s'
  | step_ack (k : string) (c : Consignment) (v : bool) :
      findOne_blindedutxo k (ds s) = Some c ->
      ack c = None ->
      ds s' = update_blindedutxo k (set_ack v) (ds s) ->
      consignmentDir s' = consignmentDir s ->
      mediaDir s' = mediaDir s ->
      store_step s s'
  | step_respond (k : string) (c : Consignment) (v : bool) :
      findOne_blindedutxo k (ds s) = Some c ->
      responded c <> Some true ->
      ds s' = update_blindedutxo k (set_responded v (negb v)) (ds s) ->
      consignmentDir s' = consignmentDir s ->
      mediaDir s' = mediaDir s ->
      store_step s s'.

(** Every record names a blob that is in its directory and whose digest is
    that name. *)
Definition blobs_in_place (s : Server) : Prop :=
  (forall c, In (DocConsignment c) (ds s) ->
     exists b, consignmentDir s !! filename c = Some b /\
               fingerprint b = filename c) /\
  (forall m, In (DocMedia m) (ds s) ->
     exists b, mediaDir s !! media_filename m = Some b /\
               fingerprint b = media_filename m).

(** No key has two records. *)
Definition keys_unique (s : Server) : Prop :=
  forall k, count_blindedutxo k (ds s) <= 1 /\ count_attachment_id k (ds s) <= 1.

(** The legacy fields of a record: either no legacy route has answered
    ([responded] and [nack] absent), or one has, and then [ack] is set and
    [nack] is its negation. *)
Definition legacy_fields_agree (c : Consignment) : bool :=
  match responded c with
  | None => bool_decide (nack c = None)
  | Some true =>
      match ack c, nack c with
      | Some a, Some n => Bool.eqb n (negb a)
      | _, _ => false
      end
  | Some false => false
  end.

Definition legacy_fields_kept (s : Server) : Prop :=
  forall c, In (DocConsignment c) (ds s) -> legacy_fields_agree c = true.

(** [ack.post] called for the key [k] with each value of [vs] in turn: the
    outcomes, and the state at the end. *)
Fixpoint ack_posts (k : string) (vs : list bool) (s : Server)
    : list (Outcome bool) * Server :=
  match vs with
  | [] => ([], s)
  | v :: vs' =>
      let (o, s1) := ack_post (ack_params k v) s in
      let (os, s2) := ack_posts k vs' s1 in
      (o :: os, s2)
  end.

(** A run of requests on both surfaces: a consignment is stored under
    [k1], a media file under [a1], the consignment is refused on the
    legacy route, and [ack.post] then tries to accept it. *)
Definition sample_requests : list Request :=
  [JsonRpc "consignment.post" (blinded_utxo_params "k1")
     (Some (mkUpload "tmp1" hello)) 0;
   PostMedia (Some "a1") (Some (mkUpload "tmp2" world));
   PostNack (Some "k1");
   JsonRpc "ack.post" (ack_params "k1" true) None 0].

(** The upload of one consignment, and the upload of one media file. *)
Definition only_consignment : list Request :=
  [JsonRpc "consignment.post" (blinded_utxo_params "k1")
     (Some (mkUpload "tmp1" hello)) 0].

Definition only_media : list Request :=
  [PostMedia (Some "a1") (Some (mkUpload "tmp2" world))].

(** A server whose media file is in place while the file of its
    consignment is not. *)
Definition consignment_file_gone : Server :=
  mkServer [DocConsignment (undecided "k1" "hello"); DocMedia (mkMedia "hello" "a1")]
           ∅ ∅ {["hello" := hello]}.

(** A server whose records name files that are not there. *)
Definition server_without_files : Server :=
  mkServer [DocConsignment (undecided "k1" "hello"); DocMedia (mkMedia "hello" "a1")]
           ∅ ∅ ∅.

(** The requests to [POST /json-rpc]. *)
Definition is_json_rpc (r : Request) : bool :=
  match r with
  | JsonRpc _ _ _ _ => true
  | _ => false
  end.

(** * Properties *)

(** ** The transport encoding can be undone *)

Lemma base64_sextet_char (n : N) :
  (n < 64)%N -> base64_sextet (base64_char n) = Some n.
Proof.
  intros Hn.
  assert (Hall : forallb
            (fun m => match base64_sextet (base64_char m) with
                      | Some m' => N.eqb m' m
                      | None => false
                      end) (List.map N.of_nat (seq 0 64)) = true)
    by (vm_compute; reflexivity).
  rewrite forallb_forall in Hall.
  specialize (Hall n).
  destruct (base64_sextet (base64_char n)) as [m|].
  - f_equal. apply N.eqb_eq, Hall.
    rewrite <- (N2Nat.id n). apply in_map, in_seq. lia.
  - discriminate Hall.
    rewrite <- (N2Nat.id n). apply in_map, in_seq. lia.
Qed.

Lemma base64_char_not_pad (n : N) :
  (n < 64)%N -> Ascii.eqb (base64_char n) pad = false.
Proof.
  intros Hn.
  assert (Hall : forallb (fun m => negb (Ascii.eqb (base64_char m) pad))
                   (List.map N.of_nat (seq 0 64)) = true)
    by (vm_compute; reflexivity).
  rewrite forallb_forall in Hall.
  apply negb_true_iff, Hall.
  rewrite <- (N2Nat.id n). apply in_map, in_seq. lia.
Qed.

Lemma byte_of_N_eq (a : byte) (n : N) : n = Byte.to_N a -> Byte.of_N n = Some a.
Proof. intros ->. apply Byte.of_to_N. Qed.

Lemma byte_lt_256 (a : byte) : (Byte.to_N a < 256)%N.
Proof. pose proof (Byte.to_N_bounded a). lia. Qed.

Ltac div_mod_lia := zify; Z.to_euclidean_division_equations; lia.

Lemma sextets_of_three (x y z : N) :
  (x < 256 -> y < 256 -> z < 256 ->
   let n := x * 65536 + y * 256 + z in
   let s1 := n / 262144 in
   let s2 := (n / 4096) mod 64 in
   let s3 := (n / 64) mod 64 in
   let s4 := n mod 64 in
   (s1 < 64 /\ s2 < 64 /\ s3 < 64 /\ s4 < 64) /\
   s1 * 4 + s2 / 16 = x /\
   (s2 mod 16) * 16 + s3 / 4 = y /\
   (s3 mod 4) * 64 + s4 = z)%N.
Proof. intros Hx Hy Hz n s1 s2 s3 s4. subst n s1 s2 s3 s4. repeat split; div_mod_lia. Qed.

Lemma sextets_of_two (x y : N) :
  (x < 256 -> y < 256 ->
   let n := x * 256 + y in
   let s1 := n / 1024 in
   let s2 := (n / 16) mod 64 in
   let s3 := (n mod 16) * 4 in
   (s1 < 64 /\ s2 < 64 /\ s3 < 64) /\
   s1 * 4 + s2 / 16 = x /\
   (s2 mod 16) * 16 + s3 / 4 = y)%N.
Proof. intros Hx Hy n s1 s2 s3. subst n s1 s2 s3. repeat split; div_mod_lia. Qed.

Lemma sextets_of_one (x : N) :
  (x < 256 ->
   let s1 := x / 4 in
   let s2 := (x mod 4) * 16 in
   (s1 < 64 /\ s2 < 64) /\ s1 * 4 + s2 / 16 = x)%N.
Proof. intros Hx s1 s2. subst s1 s2. repeat split; div_mod_lia. Qed.

Lemma base64_decode_encode_upto (n : nat) (buf : bytes) :
  length buf <= n -> base64_decode (base64_encode buf) = Some buf.
Proof.
  revert buf. induction n as [|n IH]; intros buf Hlen.
  { destruct buf; [reflexivity | simpl in Hlen; lia]. }
  destruct buf as [|a [|b [|c rest]]]; [reflexivity | | | ].
  - destruct (sextets_of_one _ (byte_lt_256 a)) as [[H1 H2] Ha].
    cbn [base64_encode base64_decode].
    change (Ascii.eqb "=" pad) with true. cbv iota.
    rewrite !base64_sextet_char by assumption.
    cbn [mbind option_bind].
    rewrite (byte_of_N_eq a _ Ha). reflexivity.
  - destruct (sextets_of_two _ _ (byte_lt_256 a) (byte_lt_256 b))
      as [[H1 [H2 H3]] [Ha Hb]].
    cbn [base64_encode base64_decode].
    change (Ascii.eqb "=" pad) with true. cbv iota.
    rewrite (base64_char_not_pad _ H3).
    rewrite !base64_sextet_char by assumption.
    cbn [mbind option_bind].
    rewrite (byte_of_N_eq a _ Ha). cbn [mbind option_bind].
    rewrite (byte_of_N_eq b _ Hb). reflexivity.
  - destruct (sextets_of_three _ _ _ (byte_lt_256 a) (byte_lt_256 b) (byte_lt_256 c))
      as [[H1 [H2 [H3 H4]]] [Ha [Hb Hc]]].
    cbn [base64_encode base64_decode].
    rewrite (base64_char_not_pad _ H4).
    rewrite !base64_sextet_char by assumption.
    cbn [mbind option_bind].
    rewrite (byte_of_N_eq a _ Ha). cbn [mbind option_bind].
    rewrite (byte_of_N_eq b _ Hb). cbn [mbind option_bind].
    rewrite (byte_of_N_eq c _ Hc). cbn [mbind option_bind].
    rewrite IH by (simpl in Hlen; lia). reflexivity.
Qed.

Example base64_encode_hello : base64_encode hello = "aGVsbG8=".
Proof. reflexivity. Qed.

(** Decoding what [Buffer.toString("base64")] produced gives the buffer
    back. *)
Lemma base64_decode_encode (buf : bytes) :
  base64_decode (base64_encode buf) = Some buf.
Proof. apply (base64_decode_encode_upto (length buf)). lia. Qed.

(** ** The datastore operations *)

Lemma findOne_blindedutxo_key (k : string) (db : list Doc) (c : Consignment) :
  findOne_blindedutxo k db = Some c -> blindedutxo c = k.
Proof.
  induction db as [|[c'|m] db IH]; simpl; [discriminate | | exact IH].
  destruct (String.eqb_spec (blindedutxo c') k) as [Heq|_]; [|exact IH].
  intros [= <-]. exact Heq.
Qed.

Lemma findOne_attachment_id_key (k : string) (db : list Doc) (m : Media) :
  findOne_attachment_id k db = Some m -> attachment_id m = k.
Proof.
  induction db as [|[c|m'] db IH]; simpl; [discriminate | exact IH | ].
  destruct (String.eqb_spec (attachment_id m') k) as [Heq|_]; [|exact IH].
  intros [= <-]. exact Heq.
Qed.

Section Update.

Variable f : Consignment -> Consignment.
Hypothesis f_key : forall c, blindedutxo (f c) = blindedutxo c.

Lemma findOne_update_same (k : string) (db : list Doc) :
  findOne_blindedutxo k (update_blindedutxo k f db) = f <$> findOne_blindedutxo k db.
Proof using f_key.
  induction db as [|[c|m] db IH]; simpl; [reflexivity | | exact IH].
  destruct (String.eqb (blindedutxo c) k) eqn:E; simpl.
  - rewrite f_key, E. reflexivity.
  - rewrite E. exact IH.
Qed.

Lemma findOne_update_other (k k' : string) (db : list Doc) :
  k' <> k ->
  findOne_blindedutxo k' (update_blindedutxo k f db) = findOne_blindedutxo k' db.
Proof using f_key.
  intros Hne.
  induction db as [|[c|m] db IH]; simpl; [reflexivity | | exact IH].
  destruct (String.eqb_spec (blindedutxo c) k) as [Heq|Hk]; simpl.
  - rewrite f_key.
    destruct (String.eqb_spec (blindedutxo c) k') as [Heq'|_]; [congruence | reflexivity].
  - rewrite IH. reflexivity.
Qed.

Lemma findOne_attachment_id_update (k k' : string) (db : list Doc) :
  findOne_attachment_id k' (update_blindedutxo k f db) = findOne_attachment_id k' db.
Proof.
  induction db as [|[c|m] db IH]; simpl; [reflexivity | | ].
  - destruct (String.eqb (blindedutxo c) k); simpl; [reflexivity | exact IH].
  - rewrite IH. reflexivity.
Qed.

Lemma count_blindedutxo_update (k k' : string) (db : list Doc) :
  count_blindedutxo k' (update_blindedutxo k f db) = count_blindedutxo k' db.
Proof using f_key.
  unfold count_blindedutxo.
  induction db as [|[c|m] db IH]; simpl; [reflexivity | | exact IH].
  destruct (String.eqb (blindedutxo c) k); simpl.
  - rewrite f_key. destruct (String.eqb (blindedutxo c) k'); reflexivity.
  - destruct (String.eqb (blindedutxo c) k'); simpl; rewrite IH; reflexivity.
Qed.

End Update.

Lemma set_ack_key (v : bool) (c : Consignment) :
  blindedutxo (set_ack v c) = blindedutxo c.
Proof. reflexivity. Qed.

Lemma set_responded_key (a n : bool) (c : Consignment) :
  blindedutxo (set_responded a n c) = blindedutxo c.
Proof. reflexivity. Qed.

Lemma findOne_blindedutxo_insert (k : string) (db : list Doc) (d : Doc) :
  findOne_blindedutxo k (insert_doc d db) =
  match findOne_blindedutxo k db with
  | Some c => Some c
  | None => findOne_blindedutxo k [d]
  end.
Proof.
  unfold insert_doc.
  induction db as [|[c|m] db IH]; simpl; [reflexivity | | exact IH].
  destruct (String.eqb (blindedutxo c) k); [reflexivity | exact IH].
Qed.

Lemma findOne_attachment_id_insert (k : string) (db : list Doc) (d : Doc) :
  findOne_attachment_id k (insert_doc d db) =
  match findOne_attachment_id k db with
  | Some m => Some m
  | None => findOne_attachment_id k [d]
  end.
Proof.
  unfold insert_doc.
  induction db as [|[c|m] db IH]; simpl; [reflexivity | exact IH | ].
  destruct (String.eqb (attachment_id m) k); [reflexivity | exact IH].
Qed.

Lemma count_blindedutxo_none (k : string) (db : list Doc) :
  findOne_blindedutxo k db = None -> count_blindedutxo k db = 0.
Proof.
  unfold count_blindedutxo.
  induction db as [|[c|m] db IH]; simpl; [reflexivity | | exact IH].
  destruct (String.eqb (blindedutxo c) k); [discriminate | exact IH].
Qed.

Lemma count_attachment_id_none (k : string) (db : list Doc) :
  findOne_attachment_id k db = None -> count_attachment_id k db = 0.
Proof.
  unfold count_attachment_id.
  induction db as [|[c|m] db IH]; simpl; [reflexivity | exact IH | ].
  destruct (String.eqb (attachment_id m) k); [discriminate | exact IH].
Qed.

Lemma count_blindedutxo_insert (k : string) (db : list Doc) (d : Doc) :
  count_blindedutxo k (insert_doc d db) =
  count_blindedutxo k db + count_blindedutxo k [d].
Proof.
  unfold count_blindedutxo, insert_doc.
  rewrite List.filter_app, length_app. reflexivity.
Qed.

Lemma count_attachment_id_insert (k : string) (db : list Doc) (d : Doc) :
  count_attachment_id k (insert_doc d db) =
  count_attachment_id k db + count_attachment_id k [d].
Proof.
  unfold count_attachment_id, insert_doc.
  rewrite List.filter_app, length_app. reflexivity.
Qed.

(** ** Running the handlers *)

Ltac unfold_monad :=
  unfold mbind, M_bind, bind, mret, M_ret, ret, fmap, M_fmap, throw, lift,
    try_catch, modify, receive, send, ds_findOne_blindedutxo,
    ds_findOne_attachment_id, ds_update, ds_insert.

Lemma getConsignment_found (jsonRpcParams : JSONRPCParams) (s : Server)
    (k : string) (c : Consignment) :
  getBlindedUTXOParam jsonRpcParams = Return k ->
  findOne_blindedutxo k (ds s) = Some c ->
  getConsignment jsonRpcParams s = (Return c, s).
Proof.
  intros Hk Hc. unfold getConsignment. unfold_monad.
  rewrite Hk; simpl. rewrite Hc. reflexivity.
Qed.

Lemma getConsignment_not_found (jsonRpcParams : JSONRPCParams) (s : Server)
    (k : string) :
  getBlindedUTXOParam jsonRpcParams = Return k ->
  findOne_blindedutxo k (ds s) = None ->
  getConsignment jsonRpcParams s = (Throw NotFoundConsignment, s).
Proof.
  intros Hk Hc. unfold getConsignment. unfold_monad.
  rewrite Hk; simpl. rewrite Hc. reflexivity.
Qed.

Lemma getConsignment_invalid (jsonRpcParams : JSONRPCParams) (s : Server)
    (e : Error) :
  getBlindedUTXOParam jsonRpcParams = Throw e ->
  getConsignment jsonRpcParams s = (Throw e, s).
Proof.
  intros Hk. unfold getConsignment. unfold_monad. rewrite Hk. reflexivity.
Qed.

(** ** The generic setter *)

(** C5.  [ack.post] on a stored consignment, with well-formed parameters:
    when [ack] is unset the requested boolean is stored and the result is
    [true]; when [ack] already has the requested value the result is
    [false] and nothing changes; when it has the opposite value the call
    fails with [CannotChangeAck] and nothing changes. *)
Theorem ack_post_state_machine (jsonRpcParams : JSONRPCParams) (s : Server)
    (k : string) (v : bool) (c : Consignment) :
  getBlindedUTXOParam jsonRpcParams = Return k ->
  getAckParam jsonRpcParams = Return v ->
  findOne_blindedutxo k (ds s) = Some c ->
  (ack c = None ->
   let s' := set_ds (update_blindedutxo k (set_ack v) (ds s)) s in
   ack_post jsonRpcParams s = (Return true, s') /\
   findOne_blindedutxo k (ds s') = Some (set_ack v c) /\
   ack (set_ack v c) = Some v) /\
  (ack c = Some v -> ack_post jsonRpcParams s = (Return false, s)) /\
  (ack c = Some (negb v) ->
   ack_post jsonRpcParams s = (Throw CannotChangeAck, s)).
Proof.
  intros Hk Hv Hc.
  pose proof (findOne_blindedutxo_key _ _ _ Hc) as Hkey.
  pose proof (getConsignment_found _ _ _ _ Hk Hc) as Hget.
  split; [|split].
  - intros Hack s'. subst s'. split; [|split].
    + unfold ack_post. unfold_monad. rewrite Hget, Hv, Hack, Hkey. reflexivity.
    + simpl. rewrite (findOne_update_same _ (set_ack_key v)), Hc. reflexivity.
    + reflexivity.
  - intros Hack. unfold ack_post. unfold_monad.
    rewrite Hget, Hv, Hack, Bool.eqb_reflx. reflexivity.
  - intros Hack. unfold ack_post. unfold_monad.
    rewrite Hget, Hv, Hack. destruct v; reflexivity.
Qed.

Lemma ack_post_state_machine_witness :
  (ack (undecided "k1" "hello") = None ->
   let s' := set_ds (update_blindedutxo "k1" (set_ack true) (ds server_with_k1))
               server_with_k1 in
   ack_post (ack_params "k1" true) server_with_k1 = (Return true, s') /\
   findOne_blindedutxo "k1" (ds s') = Some (set_ack true (undecided "k1" "hello")) /\
   ack (set_ack true (undecided "k1" "hello")) = Some true) /\
  (ack (undecided "k1" "hello") = Some true ->
   ack_post (ack_params "k1" true) server_with_k1 = (Return false, server_with_k1)) /\
  (ack (undecided "k1" "hello") = Some (negb true) ->
   ack_post (ack_params "k1" true) server_with_k1 =
   (Throw CannotChangeAck, server_with_k1)).
Proof.
  apply (ack_post_state_machine (ack_params "k1" true) server_with_k1 "k1" true
           (undecided "k1" "hello")); reflexivity.
Defined.

(** ** Staging and clean-up *)

Lemma set_files_same (d : Dir) (s : Server) : set_files d (files d s) s = s.
Proof. destruct s, d; reflexivity. Qed.

Lemma upload_single_run (part : option Upload) (s : Server) :
  upload_single part s = (Return (upload_filename <$> part), staged part s).
Proof. destruct part; reflexivity. Qed.

Lemma remove_unhandled_run (file : option string) (s : Server) :
  remove_unhandled file s = (Return tt, cleaned file s).
Proof.
  destruct file as [f|]; [|reflexivity].
  unfold remove_unhandled, existsSync, unlinkSync. unfold_monad. simpl.
  destruct (tempDir s !! f) as [b|] eqn:E; simpl.
  - rewrite E. reflexivity.
  - rewrite delete_id by assumption.
    f_equal. symmetry. apply (set_files_same TempDir).
Qed.

Lemma cleaned_staged (part : option Upload) (s : Server) :
  cleaned (upload_filename <$> part) (staged part s) =
  cleaned (upload_filename <$> part) s.
Proof.
  destruct part as [u|]; [|reflexivity]. simpl.
  unfold set_files. simpl. rewrite delete_insert_eq. reflexivity.
Qed.

Lemma cleaned_twice (file : option string) (s : Server) :
  cleaned file (cleaned file s) = cleaned file s.
Proof.
  destruct file as [f|]; [|reflexivity]. simpl.
  unfold set_files. simpl. rewrite delete_delete_eq. reflexivity.
Qed.

Lemma cleaned_absent (f : string) (s : Server) :
  tempDir (cleaned (Some f) s) !! f = None.
Proof. simpl. apply lookup_delete_eq. Qed.

(** *** [consignment.post] and [media.post], case by case *)

Ltac run_upload H :=
  unfold consignment_post, media_post, genHashFromFile, readFileSync,
    renameSync, unlinkSync;
  unfold_monad; simpl;
  repeat first [ rewrite H; simpl | rewrite remove_unhandled_run; simpl ].

Lemma consignment_post_invalid (jsonRpcParams : JSONRPCParams)
    (file : option string) (s : Server) (e : Error) :
  getBlindedUTXOParam jsonRpcParams = Throw e ->
  consignment_post jsonRpcParams file s = (Throw e, cleaned file s).
Proof. intros Hk. run_upload Hk. reflexivity. Qed.

Lemma consignment_post_no_file (jsonRpcParams : JSONRPCParams) (s : Server)
    (k : string) :
  getBlindedUTXOParam jsonRpcParams = Return k ->
  consignment_post jsonRpcParams None s = (Throw MissingFile, s).
Proof. intros Hk. run_upload Hk. reflexivity. Qed.

Lemma consignment_post_created (jsonRpcParams : JSONRPCParams) (s : Server)
    (k f : string) (b : bytes) :
  getBlindedUTXOParam jsonRpcParams = Return k ->
  tempDir s !! f = Some b ->
  findOne_blindedutxo k (ds s) = None ->
  consignment_post jsonRpcParams (Some f) s =
  (Return true, with_consignment (fingerprint b) k f b s).
Proof.
  intros Hk Hf Hnone. run_upload Hk. rewrite Hf; simpl.
  rewrite Hnone, Hf. reflexivity.
Qed.

Lemma consignment_post_same (jsonRpcParams : JSONRPCParams) (s : Server)
    (k f : string) (b : bytes) (c : Consignment) :
  getBlindedUTXOParam jsonRpcParams = Return k ->
  tempDir s !! f = Some b ->
  findOne_blindedutxo k (ds s) = Some c ->
  filename c = fingerprint b ->
  consignment_post jsonRpcParams (Some f) s = (Return false, cleaned (Some f) s).
Proof.
  intros Hk Hf Hc Hsame. run_upload Hk. rewrite Hf; simpl.
  rewrite Hc, Hsame, String.eqb_refl, Hf. reflexivity.
Qed.

Lemma consignment_post_conflict (jsonRpcParams : JSONRPCParams) (s : Server)
    (k f : string) (b : bytes) (c : Consignment) :
  getBlindedUTXOParam jsonRpcParams = Return k ->
  tempDir s !! f = Some b ->
  findOne_blindedutxo k (ds s) = Some c ->
  filename c <> fingerprint b ->
  consignment_post jsonRpcParams (Some f) s =
  (Throw CannotChangeUploadedFile, cleaned (Some f) s).
Proof.
  intros Hk Hf Hc Hdiff. run_upload Hk. rewrite Hf; simpl. rewrite Hc.
  destruct (String.eqb_spec (filename c) (fingerprint b)) as [Heq|_]; [congruence|].
  rewrite remove_unhandled_run. reflexivity.
Qed.

Lemma media_post_invalid (jsonRpcParams : JSONRPCParams)
    (file : option string) (s : Server) (e : Error) :
  getAttachmentIDParam jsonRpcParams = Throw e ->
  media_post jsonRpcParams file s = (Throw e, cleaned file s).
Proof. intros Hk. run_upload Hk. reflexivity. Qed.

Lemma media_post_no_file (jsonRpcParams : JSONRPCParams) (s : Server)
    (k : string) :
  getAttachmentIDParam jsonRpcParams = Return k ->
  media_post jsonRpcParams None s = (Throw MissingFile, s).
Proof. intros Hk. run_upload Hk. reflexivity. Qed.

Lemma media_post_created (jsonRpcParams : JSONRPCParams) (s : Server)
    (k f : string) (b : bytes) :
  getAttachmentIDParam jsonRpcParams = Return k ->
  tempDir s !! f = Some b ->
  findOne_attachment_id k (ds s) = None ->
  media_post jsonRpcParams (Some f) s =
  (Return true, with_media (fingerprint b) k f b s).
Proof.
  intros Hk Hf Hnone. run_upload Hk. rewrite Hf; simpl.
  rewrite Hnone, Hf. reflexivity.
Qed.

Lemma media_post_same (jsonRpcParams : JSONRPCParams) (s : Server)
    (k f : string) (b : bytes) (m : Media) :
  getAttachmentIDParam jsonRpcParams = Return k ->
  tempDir s !! f = Some b ->
  findOne_attachment_id k (ds s) = Some m ->
  media_filename m = fingerprint b ->
  media_post jsonRpcParams (Some f) s =
  (Return false, cleaned (Some f) s).
Proof.
  intros Hk Hf Hm Hsame. run_upload Hk. rewrite Hf; simpl.
  rewrite Hm, Hsame, String.eqb_refl, Hf. reflexivity.
Qed.

Lemma media_post_conflict (jsonRpcParams : JSONRPCParams) (s : Server)
    (k f : string) (b : bytes) (m : Media) :
  getAttachmentIDParam jsonRpcParams = Return k ->
  tempDir s !! f = Some b ->
  findOne_attachment_id k (ds s) = Some m ->
  media_filename m <> fingerprint b ->
  media_post jsonRpcParams (Some f) s =
  (Throw CannotChangeUploadedFile, cleaned (Some f) s).
Proof.
  intros Hk Hf Hm Hdiff. run_upload Hk. rewrite Hf; simpl. rewrite Hm.
  destruct (String.eqb_spec (media_filename m) (fingerprint b)) as [Heq|_];
    [congruence|].
  rewrite remove_unhandled_run. reflexivity.
Qed.

(** *** The JSON-RPC route around a method *)

Lemma post_json_rpc_run (method : string) (jsonRpcParams : JSONRPCParams)
    (part : option Upload) (now : Q) (s s' : Server) (o : Outcome RpcResult) :
  call_method method jsonRpcParams
    (upload_filename <$> part) now (staged part s) = (o, s') ->
  post_json_rpc method jsonRpcParams part now s =
  (Return (response_of o), cleaned (upload_filename <$> part) s').
Proof.
  intros Hcall. unfold post_json_rpc. unfold_monad.
  rewrite upload_single_run. cbv beta iota.
  rewrite Hcall. cbv beta iota.
  rewrite remove_unhandled_run. reflexivity.
Qed.

Lemma fmap_run {A B} (g : A -> B) (m : M A) (s : Server) :
  (g <$> m) s =
  match m s with
  | (Return a, s') => (Return (g a), s')
  | (Throw e, s') => (Throw e, s')
  end.
Proof. reflexivity. Qed.

Lemma staged_lookup (u : Upload) (s : Server) :
  tempDir (staged (Some u) s) !! upload_filename u = Some (upload_content u).
Proof. simpl. apply lookup_insert_eq. Qed.

(** *** The REST upload routes, case by case *)

Lemma given_nonempty (k : string) : k <> "" -> given (Some k) = Some k.
Proof.
  intros Hk. unfold given, truthy.
  destruct (String.eqb_spec k "") as [Heq|_]; [contradiction | reflexivity].
Qed.

Lemma with_consignment_staged (digest k : string) (u : Upload) (s : Server) :
  with_consignment digest k (upload_filename u) (upload_content u)
    (staged (Some u) s) =
  with_consignment digest k (upload_filename u) (upload_content u) s.
Proof.
  unfold with_consignment, staged, set_files. simpl.
  rewrite delete_insert_eq. reflexivity.
Qed.

Lemma with_media_staged (digest k : string) (u : Upload) (s : Server) :
  with_media digest k (upload_filename u) (upload_content u)
    (staged (Some u) s) =
  with_media digest k (upload_filename u) (upload_content u) s.
Proof.
  unfold with_media, staged, set_files. simpl.
  rewrite delete_insert_eq. reflexivity.
Qed.

Ltac run_rest Hk :=
  unfold post_consignment_route, post_media_route, post_consignment_handler,
    post_media_handler, or_500, genHashFromFile, readFileSync, renameSync,
    unlinkSync, existsSync;
  unfold_monad; rewrite upload_single_run; cbv beta iota;
  rewrite (given_nonempty _ Hk); simpl.

Lemma post_consignment_route_created (s : Server) (k : string) (u : Upload) :
  k <> "" ->
  findOne_blindedutxo k (ds s) = None ->
  post_consignment_route (Some k) (Some u) s =
  (Return (mkResponse 200 [("success", JBool true)]),
   with_consignment (fingerprint (upload_content u)) k
     (upload_filename u) (upload_content u) s).
Proof.
  intros Hk Hnone. run_rest Hk.
  rewrite lookup_insert_eq; simpl. rewrite Hnone; simpl.
  rewrite lookup_insert_eq; simpl. rewrite lookup_delete_eq; simpl.
  rewrite <- (with_consignment_staged _ k u s). reflexivity.
Qed.

Lemma post_consignment_route_same (s : Server) (k : string) (u : Upload)
    (c : Consignment) :
  k <> "" ->
  findOne_blindedutxo k (ds s) = Some c ->
  filename c = fingerprint (upload_content u) ->
  post_consignment_route (Some k) (Some u) s =
  (Return (mkResponse 200 [("success", JBool true)]), staged (Some u) s).
Proof.
  intros Hk Hc Hsame. run_rest Hk.
  rewrite lookup_insert_eq; simpl. rewrite Hc, Hsame, String.eqb_refl.
  reflexivity.
Qed.

Lemma post_consignment_route_conflict (s : Server) (k : string) (u : Upload)
    (c : Consignment) :
  k <> "" ->
  findOne_blindedutxo k (ds s) = Some c ->
  filename c <> fingerprint (upload_content u) ->
  post_consignment_route (Some k) (Some u) s =
  (Return (mkResponse 403 (failure "Cannot change uploaded file!")),
   staged (Some u) s).
Proof.
  intros Hk Hc Hdiff. run_rest Hk.
  rewrite lookup_insert_eq; simpl. rewrite Hc.
  destruct (String.eqb_spec (filename c) (fingerprint (upload_content u)))
    as [Heq|_]; [congruence | reflexivity].
Qed.

Lemma post_media_route_created (s : Server) (k : string) (u : Upload) :
  k <> "" ->
  findOne_attachment_id k (ds s) = None ->
  post_media_route (Some k) (Some u) s =
  (Return (mkResponse 200 [("success", JBool true)]),
   with_media (fingerprint (upload_content u)) k
     (upload_filename u) (upload_content u) s).
Proof.
  intros Hk Hnone. run_rest Hk.
  rewrite lookup_insert_eq; simpl. rewrite Hnone; simpl.
  rewrite lookup_insert_eq; simpl. rewrite lookup_delete_eq; simpl.
  rewrite <- (with_media_staged _ k u s). reflexivity.
Qed.

Lemma post_media_route_same (s : Server) (k : string) (u : Upload) (m : Media) :
  k <> "" ->
  findOne_attachment_id k (ds s) = Some m ->
  media_filename m = fingerprint (upload_content u) ->
  post_media_route (Some k) (Some u) s =
  (Return (mkResponse 200 [("success", JBool true)]), staged (Some u) s).
Proof.
  intros Hk Hm Hsame. run_rest Hk.
  rewrite lookup_insert_eq; simpl. rewrite Hm, Hsame, String.eqb_refl.
  reflexivity.
Qed.

Lemma post_media_route_conflict (s : Server) (k : string) (u : Upload)
    (m : Media) :
  k <> "" ->
  findOne_attachment_id k (ds s) = Some m ->
  media_filename m <> fingerprint (upload_content u) ->
  post_media_route (Some k) (Some u) s =
  (Return (mkResponse 403 (failure "Cannot change uploaded file!")),
   staged (Some u) s).
Proof.
  intros Hk Hm Hdiff. run_rest Hk.
  rewrite lookup_insert_eq; simpl. rewrite Hm.
  destruct (String.eqb_spec (media_filename m) (fingerprint (upload_content u)))
    as [Heq|_]; [congruence | reflexivity].
Qed.

(** *** The JSON-RPC upload methods through the route *)

Lemma call_consignment_post (p : JSONRPCParams) (f : option string) (now : Q) :
  call_method "consignment.post" p f now = ResBool <$> consignment_post p f.
Proof. reflexivity. Qed.

Lemma call_media_post (p : JSONRPCParams) (f : option string) (now : Q) :
  call_method "media.post" p f now = ResBool <$> media_post p f.
Proof. reflexivity. Qed.

Lemma call_consignment_get (p : JSONRPCParams) (f : option string) (now : Q) :
  call_method "consignment.get" p f now = ResString <$> consignment_get p.
Proof. reflexivity. Qed.

Lemma call_media_get (p : JSONRPCParams) (f : option string) (now : Q) :
  call_method "media.get" p f now = ResString <$> media_get p.
Proof. reflexivity. Qed.

Lemma call_ack_post (p : JSONRPCParams) (f : option string) (now : Q) :
  call_method "ack.post" p f now = ResBool <$> ack_post p.
Proof. reflexivity. Qed.

Lemma call_ack_get (p : JSONRPCParams) (f : option string) (now : Q) :
  call_method "ack.get" p f now =
  (fun r => match r with Some b => ResBool b | None => ResUndefined end)
    <$> ack_get p.
Proof. reflexivity. Qed.

Lemma cleaned_with_consignment (digest k f : string) (b : bytes) (s : Server) :
  cleaned (Some f) (with_consignment digest k f b s) =
  with_consignment digest k f b s.
Proof.
  unfold cleaned, with_consignment, set_files. simpl.
  rewrite delete_delete_eq. reflexivity.
Qed.

Lemma cleaned_with_media (digest k f : string) (b : bytes) (s : Server) :
  cleaned (Some f) (with_media digest k f b s) = with_media digest k f b s.
Proof.
  unfold cleaned, with_media, set_files. simpl.
  rewrite delete_delete_eq. reflexivity.
Qed.

Lemma rpc_consignment_post_created (p : JSONRPCParams) (s : Server)
    (k : string) (u : Upload) (now : Q) :
  getBlindedUTXOParam p = Return k ->
  findOne_blindedutxo k (ds s) = None ->
  post_json_rpc "consignment.post" p (Some u) now s =
  (Return (RpcSuccess (ResBool true)),
   with_consignment (fingerprint (upload_content u)) k
     (upload_filename u) (upload_content u) s).
Proof.
  intros Hk Hnone.
  erewrite post_json_rpc_run.
  2:{ change (upload_filename <$> Some u) with (Some (upload_filename u)).
      rewrite call_consignment_post, fmap_run.
      erewrite consignment_post_created;
        [reflexivity | exact Hk | apply staged_lookup | exact Hnone]. }
  change (upload_filename <$> Some u) with (Some (upload_filename u)).
  simpl response_of.
  rewrite cleaned_with_consignment, with_consignment_staged. reflexivity.
Qed.

Lemma rpc_consignment_post_same (p : JSONRPCParams) (s : Server)
    (k : string) (u : Upload) (c : Consignment) (now : Q) :
  getBlindedUTXOParam p = Return k ->
  findOne_blindedutxo k (ds s) = Some c ->
  filename c = fingerprint (upload_content u) ->
  post_json_rpc "consignment.post" p (Some u) now s =
  (Return (RpcSuccess (ResBool false)), cleaned (Some (upload_filename u)) s).
Proof.
  intros Hk Hc Hsame.
  erewrite post_json_rpc_run.
  2:{ change (upload_filename <$> Some u) with (Some (upload_filename u)).
      rewrite call_consignment_post, fmap_run.
      erewrite consignment_post_same;
        [reflexivity | exact Hk | apply staged_lookup | exact Hc | exact Hsame]. }
  change (upload_filename <$> Some u) with (Some (upload_filename u)).
  simpl response_of.
  rewrite cleaned_twice. apply f_equal, (cleaned_staged (Some u)).
Qed.

Lemma rpc_consignment_post_conflict (p : JSONRPCParams) (s : Server)
    (k : string) (u : Upload) (c : Consignment) (now : Q) :
  getBlindedUTXOParam p = Return k ->
  findOne_blindedutxo k (ds s) = Some c ->
  filename c <> fingerprint (upload_content u) ->
  post_json_rpc "consignment.post" p (Some u) now s =
  (Return (RpcError CannotChangeUploadedFile),
   cleaned (Some (upload_filename u)) s).
Proof.
  intros Hk Hc Hdiff.
  erewrite post_json_rpc_run.
  2:{ change (upload_filename <$> Some u) with (Some (upload_filename u)).
      rewrite call_consignment_post, fmap_run.
      erewrite consignment_post_conflict;
        [reflexivity | exact Hk | apply staged_lookup | exact Hc | exact Hdiff]. }
  change (upload_filename <$> Some u) with (Some (upload_filename u)).
  simpl response_of.
  rewrite cleaned_twice. apply f_equal, (cleaned_staged (Some u)).
Qed.

Lemma rpc_media_post_created (p : JSONRPCParams) (s : Server)
    (k : string) (u : Upload) (now : Q) :
  getAttachmentIDParam p = Return k ->
  findOne_attachment_id k (ds s) = None ->
  post_json_rpc "media.post" p (Some u) now s =
  (Return (RpcSuccess (ResBool true)),
   with_media (fingerprint (upload_content u)) k
     (upload_filename u) (upload_content u) s).
Proof.
  intros Hk Hnone.
  erewrite post_json_rpc_run.
  2:{ change (upload_filename <$> Some u) with (Some (upload_filename u)).
      rewrite call_media_post, fmap_run.
      erewrite media_post_created;
        [reflexivity | exact Hk | apply staged_lookup | exact Hnone]. }
  change (upload_filename <$> Some u) with (Some (upload_filename u)).
  simpl response_of.
  rewrite cleaned_with_media, with_media_staged. reflexivity.
Qed.

Lemma rpc_media_post_same (p : JSONRPCParams) (s : Server)
    (k : string) (u : Upload) (m : Media) (now : Q) :
  getAttachmentIDParam p = Return k ->
  findOne_attachment_id k (ds s) = Some m ->
  media_filename m = fingerprint (upload_content u) ->
  post_json_rpc "media.post" p (Some u) now s =
  (Return (RpcSuccess (ResBool false)), cleaned (Some (upload_filename u)) s).
Proof.
  intros Hk Hm Hsame.
  erewrite post_json_rpc_run.
  2:{ change (upload_filename <$> Some u) with (Some (upload_filename u)).
      rewrite call_media_post, fmap_run.
      erewrite media_post_same;
        [reflexivity | exact Hk | apply staged_lookup | exact Hm | exact Hsame]. }
  change (upload_filename <$> Some u) with (Some (upload_filename u)).
  simpl response_of.
  rewrite cleaned_twice. apply f_equal, (cleaned_staged (Some u)).
Qed.

Lemma rpc_media_post_conflict (p : JSONRPCParams) (s : Server)
    (k : string) (u : Upload) (m : Media) (now : Q) :
  getAttachmentIDParam p = Return k ->
  findOne_attachment_id k (ds s) = Some m ->
  media_filename m <> fingerprint (upload_content u) ->
  post_json_rpc "media.post" p (Some u) now s =
  (Return (RpcError CannotChangeUploadedFile),
   cleaned (Some (upload_filename u)) s).
Proof.
  intros Hk Hm Hdiff.
  erewrite post_json_rpc_run.
  2:{ change (upload_filename <$> Some u) with (Some (upload_filename u)).
      rewrite call_media_post, fmap_run.
      erewrite media_post_conflict;
        [reflexivity | exact Hk | apply staged_lookup | exact Hm | exact Hdiff]. }
  change (upload_filename <$> Some u) with (Some (upload_filename u)).
  simpl response_of.
  rewrite cleaned_twice. apply f_equal, (cleaned_staged (Some u)).
Qed.

(** ** Uploading the same content twice *)

Lemma getBlindedUTXOParam_nonempty (p : JSONRPCParams) (k : string) :
  getBlindedUTXOParam p = Return k -> k <> "".
Proof.
  unfold getBlindedUTXOParam.
  destruct (negb (isDictionary p) || negb (key_in "blinded_utxo" p));
    [discriminate|].
  destruct (at_key p "blinded_utxo") as [[| | |x| |]|] eqn:E; simpl;
    try discriminate; try (rewrite orb_true_r; discriminate).
  destruct (String.eqb_spec x "") as [->|Hx]; simpl; [discriminate|].
  intros [= <-]. exact Hx.
Qed.

Lemma getAttachmentIDParam_nonempty (p : JSONRPCParams) (k : string) :
  getAttachmentIDParam p = Return k -> k <> "".
Proof.
  unfold getAttachmentIDParam.
  destruct (negb (isDictionary p) || negb (key_in "attachment_id" p));
    [discriminate|].
  destruct (at_key p "attachment_id") as [[| | |x| |]|] eqn:E; simpl;
    try discriminate; try (rewrite orb_true_r; discriminate).
  destruct (String.eqb_spec x "") as [->|Hx]; simpl; [discriminate|].
  intros [= <-]. exact Hx.
Qed.

Lemma with_consignment_stored_once (digest k f : string) (b : bytes) (s : Server) :
  findOne_blindedutxo k (ds s) = None ->
  stored_once_consignment digest k b (consignmentDir s)
    (with_consignment digest k f b s).
Proof.
  intros Hnone. unfold stored_once_consignment, with_consignment. simpl.
  repeat split.
  - rewrite count_blindedutxo_insert, (count_blindedutxo_none _ _ Hnone).
    unfold count_blindedutxo. simpl. rewrite String.eqb_refl. reflexivity.
  - rewrite findOne_blindedutxo_insert, Hnone. simpl.
    rewrite String.eqb_refl. reflexivity.
  - apply lookup_insert_eq.
Qed.

Lemma with_media_stored_once (digest k f : string) (b : bytes) (s : Server) :
  findOne_attachment_id k (ds s) = None ->
  stored_once_media digest k b (mediaDir s) (with_media digest k f b s).
Proof.
  intros Hnone. unfold stored_once_media, with_media. simpl.
  repeat split.
  - rewrite count_attachment_id_insert, (count_attachment_id_none _ _ Hnone).
    unfold count_attachment_id. simpl. rewrite String.eqb_refl. reflexivity.
  - rewrite findOne_attachment_id_insert, Hnone. simpl.
    rewrite String.eqb_refl. reflexivity.
  - apply lookup_insert_eq.
Qed.

Lemma store_unchanged_cleaned (file : option string) (s : Server) :
  store_unchanged s (cleaned file s).
Proof. destruct file; repeat split. Qed.

Lemma store_unchanged_staged (part : option Upload) (s : Server) :
  store_unchanged s (staged part s).
Proof. destruct part; repeat split. Qed.

(** C3.  The same content [b] uploaded twice under a key that had no
    record, by [consignment.post], by [media.post] and by the two REST
    upload routes: the first call reports the creation ([true], or 200
    with [success: true]), the second reports success without creating
    anything ([false], or 200 with [success: true]), and afterwards the
    key has exactly one record and one blob. *)
Theorem upload_twice_created_then_noop (s : Server) (k a : string) (b : bytes)
    (t1 t2 : string) (pc pm : JSONRPCParams) (now1 now2 : Q) :
  getBlindedUTXOParam pc = Return k ->
  getAttachmentIDParam pm = Return a ->
  findOne_blindedutxo k (ds s) = None ->
  findOne_attachment_id a (ds s) = None ->
  let u1 := Some (mkUpload t1 b) in
  let u2 := Some (mkUpload t2 b) in
  let ok := mkResponse 200 [("success", JBool true)] in
  (exists s1 s2,
     post_json_rpc "consignment.post" pc u1 now1 s =
       (Return (RpcSuccess (ResBool true)), s1) /\
     post_json_rpc "consignment.post" pc u2 now2 s1 =
       (Return (RpcSuccess (ResBool false)), s2) /\
     store_unchanged s1 s2 /\
     stored_once_consignment (fingerprint b) k b (consignmentDir s) s2) /\
  (exists s1 s2,
     post_json_rpc "media.post" pm u1 now1 s =
       (Return (RpcSuccess (ResBool true)), s1) /\
     post_json_rpc "media.post" pm u2 now2 s1 =
       (Return (RpcSuccess (ResBool false)), s2) /\
     store_unchanged s1 s2 /\
     stored_once_media (fingerprint b) a b (mediaDir s) s2) /\
  (exists s1 s2,
     post_consignment_route (Some k) u1 s = (Return ok, s1) /\
     post_consignment_route (Some k) u2 s1 = (Return ok, s2) /\
     store_unchanged s1 s2 /\
     stored_once_consignment (fingerprint b) k b (consignmentDir s) s2) /\
  (exists s1 s2,
     post_media_route (Some a) u1 s = (Return ok, s1) /\
     post_media_route (Some a) u2 s1 = (Return ok, s2) /\
     store_unchanged s1 s2 /\
     stored_once_media (fingerprint b) a b (mediaDir s) s2).
Proof.
  intros Hk Ha Hfresh_k Hfresh_a u1 u2 ok.
  pose proof (getBlindedUTXOParam_nonempty _ _ Hk) as Hk0.
  pose proof (getAttachmentIDParam_nonempty _ _ Ha) as Ha0.
  pose proof (with_consignment_stored_once (fingerprint b) k t1 b s Hfresh_k)
    as Hc.
  pose proof (with_media_stored_once (fingerprint b) a t1 b s Hfresh_a) as Hm.
  pose proof Hc as (_ & Hc_rec & _).
  pose proof Hm as (_ & Hm_rec & _).
  repeat split.
  - eexists _, _. split; [|split; [|split]].
    + apply (rpc_consignment_post_created pc s k (mkUpload t1 b) now1 Hk Hfresh_k).
    + eapply (rpc_consignment_post_same pc _ k (mkUpload t2 b) _ now2 Hk);
        [exact Hc_rec | reflexivity].
    + apply store_unchanged_cleaned.
    + exact Hc.
  - eexists _, _. split; [|split; [|split]].
    + apply (rpc_media_post_created pm s a (mkUpload t1 b) now1 Ha Hfresh_a).
    + eapply (rpc_media_post_same pm _ a (mkUpload t2 b) _ now2 Ha);
        [exact Hm_rec | reflexivity].
    + apply store_unchanged_cleaned.
    + exact Hm.
  - eexists _, _. split; [|split; [|split]].
    + apply (post_consignment_route_created s k (mkUpload t1 b) Hk0 Hfresh_k).
    + eapply (post_consignment_route_same _ k (mkUpload t2 b) _ Hk0);
        [exact Hc_rec | reflexivity].
    + apply (store_unchanged_staged (Some (mkUpload t2 b))).
    + exact Hc.
  - eexists _, _. split; [|split; [|split]].
    + apply (post_media_route_created s a (mkUpload t1 b) Ha0 Hfresh_a).
    + eapply (post_media_route_same _ a (mkUpload t2 b) _ Ha0);
        [exact Hm_rec | reflexivity].
    + apply (store_unchanged_staged (Some (mkUpload t2 b))).
    + exact Hm.
Qed.

(** ** Uploading other content under a used key *)

(** C4.  An upload under a key that already has a record, of content whose
    digest is not the one the record names, in any state of the server.
    For a consignment key: [consignment.post] fails with
    [CannotChangeUploadedFile] and [POST /consignment] answers 403; for a
    media key: [media.post] fails with [CannotChangeUploadedFile] and
    [POST /media] answers 403.  Each of the four calls leaves the
    datastore and both blob directories as they were, so the record is
    still the one found under the key and the blob it names is still in
    place. *)
Theorem conflicting_upload_rejected (s : Server) (u : Upload) (now : Q) :
  let forbidden := mkResponse 403 (failure "Cannot change uploaded file!") in
  (forall (pc : JSONRPCParams) (k : string) (c : Consignment),
     getBlindedUTXOParam pc = Return k ->
     findOne_blindedutxo k (ds s) = Some c ->
     filename c <> fingerprint (upload_content u) ->
     (exists s',
        post_json_rpc "consignment.post" pc (Some u) now s =
          (Return (RpcError CannotChangeUploadedFile), s') /\
        store_unchanged s s' /\
        findOne_blindedutxo k (ds s') = Some c /\
        consignmentDir s' !! filename c = consignmentDir s !! filename c) /\
     (exists s',
        post_consignment_route (Some k) (Some u) s = (Return forbidden, s') /\
        store_unchanged s s' /\
        findOne_blindedutxo k (ds s') = Some c /\
        consignmentDir s' !! filename c = consignmentDir s !! filename c)) /\
  (forall (pm : JSONRPCParams) (a : string) (m : Media),
     getAttachmentIDParam pm = Return a ->
     findOne_attachment_id a (ds s) = Some m ->
     media_filename m <> fingerprint (upload_content u) ->
     (exists s',
        post_json_rpc "media.post" pm (Some u) now s =
          (Return (RpcError CannotChangeUploadedFile), s') /\
        store_unchanged s s' /\
        findOne_attachment_id a (ds s') = Some m /\
        mediaDir s' !! media_filename m = mediaDir s !! media_filename m) /\
     (exists s',
        post_media_route (Some a) (Some u) s = (Return forbidden, s') /\
        store_unchanged s s' /\
        findOne_attachment_id a (ds s') = Some m /\
        mediaDir s' !! media_filename m = mediaDir s !! media_filename m)).
Proof.
  intros forbidden.
  assert (Hkept_c : forall s' k c,
             store_unchanged s s' ->
             findOne_blindedutxo k (ds s) = Some c ->
             store_unchanged s s' /\
             findOne_blindedutxo k (ds s') = Some c /\
             consignmentDir s' !! filename c = consignmentDir s !! filename c).
  { intros s' k c Hs Hc. pose proof Hs as (Hd & Hcd & _).
    rewrite Hd, Hcd. auto. }
  assert (Hkept_m : forall s' a m,
             store_unchanged s s' ->
             findOne_attachment_id a (ds s) = Some m ->
             store_unchanged s s' /\
             findOne_attachment_id a (ds s') = Some m /\
             mediaDir s' !! media_filename m = mediaDir s !! media_filename m).
  { intros s' a m Hs Hm. pose proof Hs as (Hd & _ & Hmd).
    rewrite Hd, Hmd. auto. }
  split.
  - intros pc k c Hk Hc Hdiff.
    pose proof (getBlindedUTXOParam_nonempty _ _ Hk) as Hk0.
    split; eexists; (split; [|apply Hkept_c; [|exact Hc]]).
    + exact (rpc_consignment_post_conflict pc s k u c now Hk Hc Hdiff).
    + apply store_unchanged_cleaned.
    + exact (post_consignment_route_conflict s k u c Hk0 Hc Hdiff).
    + apply (store_unchanged_staged (Some u)).
  - intros pm a m Ha Hm Hdiff.
    pose proof (getAttachmentIDParam_nonempty _ _ Ha) as Ha0.
    split; eexists; (split; [|apply Hkept_m; [|exact Hm]]).
    + exact (rpc_media_post_conflict pm s a u m now Ha Hm Hdiff).
    + apply store_unchanged_cleaned.
    + exact (post_media_route_conflict s a u m Ha0 Hm Hdiff).
    + apply (store_unchanged_staged (Some u)).
Qed.

(** A digest without collisions names different content differently, so
    for a record created from [b0] the hypothesis of C4 on digests is the
    one on contents. *)
Lemma different_content_different_digest (c : Consignment) (b0 b : bytes) :
  (forall x y, fingerprint x = fingerprint y -> x = y) ->
  filename c = fingerprint b0 ->
  b <> b0 ->
  filename c <> fingerprint b.
Proof. intros Hinj Hname Hneq Heq. apply Hneq, Hinj. congruence. Qed.

(** ** Fetching what was uploaded *)

Lemma consignment_get_found (p : JSONRPCParams) (s : Server) (k : string)
    (c : Consignment) (b : bytes) :
  getBlindedUTXOParam p = Return k ->
  findOne_blindedutxo k (ds s) = Some c ->
  consignmentDir s !! filename c = Some b ->
  consignment_get p s = (Return (base64_encode b), s).
Proof.
  intros Hk Hc Hb. unfold consignment_get, readFileSync. unfold_monad.
  rewrite (getConsignment_found _ _ _ _ Hk Hc). simpl. rewrite Hb. reflexivity.
Qed.

Lemma consignment_get_not_found (p : JSONRPCParams) (s : Server) (k : string) :
  getBlindedUTXOParam p = Return k ->
  findOne_blindedutxo k (ds s) = None ->
  consignment_get p s = (Throw NotFoundConsignment, s).
Proof.
  intros Hk Hc. unfold consignment_get. unfold_monad.
  rewrite (getConsignment_not_found _ _ _ Hk Hc). reflexivity.
Qed.

Lemma media_get_found (p : JSONRPCParams) (s : Server) (k : string)
    (m : Media) (b : bytes) :
  getAttachmentIDParam p = Return k ->
  findOne_attachment_id k (ds s) = Some m ->
  mediaDir s !! media_filename m = Some b ->
  media_get p s = (Return (base64_encode b), s).
Proof.
  intros Hk Hm Hb. unfold media_get, readFileSync. unfold_monad.
  rewrite Hk. simpl. rewrite Hm. simpl. rewrite Hb. reflexivity.
Qed.

Lemma media_get_not_found (p : JSONRPCParams) (s : Server) (k : string) :
  getAttachmentIDParam p = Return k ->
  findOne_attachment_id k (ds s) = None ->
  media_get p s = (Throw NotFoundMedia, s).
Proof.
  intros Hk Hm. unfold media_get. unfold_monad.
  rewrite Hk. simpl. rewrite Hm. reflexivity.
Qed.

Lemma with_consignment_other (digest k k' f : string) (b : bytes) (s : Server) :
  k' <> k ->
  findOne_blindedutxo k' (ds (with_consignment digest k f b s)) =
  findOne_blindedutxo k' (ds s).
Proof.
  intros Hne. simpl. rewrite findOne_blindedutxo_insert.
  destruct (findOne_blindedutxo k' (ds s)); [reflexivity|]. simpl.
  destruct (String.eqb_spec k k') as [Heq|_]; [congruence | reflexivity].
Qed.

Lemma with_media_other (digest k k' f : string) (b : bytes) (s : Server) :
  k' <> k ->
  findOne_attachment_id k' (ds (with_media digest k f b s)) =
  findOne_attachment_id k' (ds s).
Proof.
  intros Hne. simpl. rewrite findOne_attachment_id_insert.
  destruct (findOne_attachment_id k' (ds s)); [reflexivity|]. simpl.
  destruct (String.eqb_spec k k') as [Heq|_]; [congruence | reflexivity].
Qed.

Lemma get_consignment_route_found (s : Server) (k : string) (c : Consignment)
    (b : bytes) :
  k <> "" ->
  findOne_blindedutxo k (ds s) = Some c ->
  consignmentDir s !! filename c = Some b ->
  get_consignment_route (Some k) s =
  (Return (mkResponse 200 [("success", JBool true);
                           ("consignment", JStr (base64_encode b))]), s).
Proof.
  intros Hk Hc Hb. unfold get_consignment_route, or_500, readFileSync.
  unfold_monad. rewrite (given_nonempty _ Hk), Hc. simpl. rewrite Hb.
  reflexivity.
Qed.

Lemma get_consignment_route_not_found (s : Server) (k : string) :
  k <> "" ->
  findOne_blindedutxo k (ds s) = None ->
  get_consignment_route (Some k) s =
  (Return (mkResponse 404 (failure "No consignment found!")), s).
Proof.
  intros Hk Hnone. unfold get_consignment_route, or_500. unfold_monad.
  rewrite (given_nonempty _ Hk), Hnone. reflexivity.
Qed.

Lemma get_media_route_found (s : Server) (k : string) (m : Media) (b : bytes) :
  k <> "" ->
  findOne_attachment_id k (ds s) = Some m ->
  mediaDir s !! media_filename m = Some b ->
  get_media_route (Some k) s =
  (Return (mkResponse 200 [("success", JBool true);
                           ("media", JStr (base64_encode b))]), s).
Proof.
  intros Hk Hm Hb. unfold get_media_route, or_500, readFileSync.
  unfold_monad. rewrite (given_nonempty _ Hk), Hm. simpl. rewrite Hb.
  reflexivity.
Qed.

Lemma get_media_route_not_found (s : Server) (k : string) :
  k <> "" ->
  findOne_attachment_id k (ds s) = None ->
  get_media_route (Some k) s =
  (Return (mkResponse 404 (failure "No media found!")), s).
Proof.
  intros Hk Hnone. unfold get_media_route, or_500. unfold_monad.
  rewrite (given_nonempty _ Hk), Hnone. reflexivity.
Qed.

(** C9.  After an upload has stored the bytes [b] under a key without a
    record ([consignment.post] or [POST /consignment], which leave the same
    state; likewise for media), a get with that key returns a string whose
    base64 decoding is [b], as the result of [consignment.get] and in the
    body of [GET /consignment/:blindedutxo]; a get with another well-formed
    key that has no record fails with [NotFoundConsignment], or 404 (with
    [NotFoundMedia], or 404, for media). *)
Theorem upload_then_get_round_trip (s : Server) (k a : string) (b : bytes)
    (t : string) (pc pm : JSONRPCParams) (now : Q) :
  getBlindedUTXOParam pc = Return k ->
  getAttachmentIDParam pm = Return a ->
  findOne_blindedutxo k (ds s) = None ->
  findOne_attachment_id a (ds s) = None ->
  let ok := mkResponse 200 [("success", JBool true)] in
  (exists s1 encoded,
     post_json_rpc "consignment.post" pc (Some (mkUpload t b)) now s =
       (Return (RpcSuccess (ResBool true)), s1) /\
     post_consignment_route (Some k) (Some (mkUpload t b)) s = (Return ok, s1) /\
     base64_decode encoded = Some b /\
     post_json_rpc "consignment.get" pc None now s1 =
       (Return (RpcSuccess (ResString encoded)), s1) /\
     get_consignment_route (Some k) s1 =
       (Return (mkResponse 200 [("success", JBool true);
                                ("consignment", JStr encoded)]), s1) /\
     forall p' k',
       getBlindedUTXOParam p' = Return k' ->
       k' <> k ->
       findOne_blindedutxo k' (ds s) = None ->
       post_json_rpc "consignment.get" p' None now s1 =
         (Return (RpcError NotFoundConsignment), s1) /\
       get_consignment_route (Some k') s1 =
         (Return (mkResponse 404 (failure "No consignment found!")), s1)) /\
  (exists s1 encoded,
     post_json_rpc "media.post" pm (Some (mkUpload t b)) now s =
       (Return (RpcSuccess (ResBool true)), s1) /\
     post_media_route (Some a) (Some (mkUpload t b)) s = (Return ok, s1) /\
     base64_decode encoded = Some b /\
     post_json_rpc "media.get" pm None now s1 =
       (Return (RpcSuccess (ResString encoded)), s1) /\
     get_media_route (Some a) s1 =
       (Return (mkResponse 200 [("success", JBool true);
                                ("media", JStr encoded)]), s1) /\
     forall p' a',
       getAttachmentIDParam p' = Return a' ->
       a' <> a ->
       findOne_attachment_id a' (ds s) = None ->
       post_json_rpc "media.get" p' None now s1 =
         (Return (RpcError NotFoundMedia), s1) /\
       get_media_route (Some a') s1 =
         (Return (mkResponse 404 (failure "No media found!")), s1)).
Proof.
  intros Hk Ha Hfresh_k Hfresh_a ok.
  pose proof (getBlindedUTXOParam_nonempty _ _ Hk) as Hk0.
  pose proof (getAttachmentIDParam_nonempty _ _ Ha) as Ha0.
  pose proof (with_consignment_stored_once (fingerprint b) k t b s Hfresh_k)
    as (_ & Hc_rec & Hc_blob & _).
  pose proof (with_media_stored_once (fingerprint b) a t b s Hfresh_a)
    as (_ & Hm_rec & Hm_blob & _).
  split.
  - eexists _, (base64_encode b). repeat apply conj.
    + apply (rpc_consignment_post_created pc s k (mkUpload t b) now Hk Hfresh_k).
    + apply (post_consignment_route_created s k (mkUpload t b) Hk0 Hfresh_k).
    + apply base64_decode_encode.
    + erewrite post_json_rpc_run.
      2:{ rewrite call_consignment_get, fmap_run.
          erewrite consignment_get_found;
            [reflexivity | exact Hk | exact Hc_rec | exact Hc_blob]. }
      reflexivity.
    + exact (get_consignment_route_found _ k _ b Hk0 Hc_rec Hc_blob).
    + intros p' k' Hk' Hne Hnone'.
      assert (Hnone1 : findOne_blindedutxo k'
                (ds (with_consignment (fingerprint b) k t b s)) = None)
        by (rewrite with_consignment_other by exact Hne; exact Hnone').
      split.
      * erewrite post_json_rpc_run.
        2:{ rewrite call_consignment_get, fmap_run.
            erewrite consignment_get_not_found;
              [reflexivity | exact Hk' | exact Hnone1]. }
        reflexivity.
      * apply get_consignment_route_not_found;
          [exact (getBlindedUTXOParam_nonempty _ _ Hk') | exact Hnone1].
  - eexists _, (base64_encode b). repeat apply conj.
    + apply (rpc_media_post_created pm s a (mkUpload t b) now Ha Hfresh_a).
    + apply (post_media_route_created s a (mkUpload t b) Ha0 Hfresh_a).
    + apply base64_decode_encode.
    + erewrite post_json_rpc_run.
      2:{ rewrite call_media_get, fmap_run.
          erewrite media_get_found;
            [reflexivity | exact Ha | exact Hm_rec | exact Hm_blob]. }
      reflexivity.
    + exact (get_media_route_found _ a _ b Ha0 Hm_rec Hm_blob).
    + intros p' a' Ha' Hne Hnone'.
      assert (Hnone1 : findOne_attachment_id a'
                (ds (with_media (fingerprint b) a t b s)) = None)
        by (rewrite with_media_other by exact Hne; exact Hnone').
      split.
      * erewrite post_json_rpc_run.
        2:{ rewrite call_media_get, fmap_run.
            erewrite media_get_not_found;
              [reflexivity | exact Ha' | exact Hnone1]. }
        reflexivity.
      * apply get_media_route_not_found;
          [exact (getAttachmentIDParam_nonempty _ _ Ha') | exact Hnone1].
Qed.

(** ** Server information *)

Lemma call_server_info (p : JSONRPCParams) (f : option string) (now : Q) :
  call_method "server.info" p f now = ResInfo <$> server_info now.
Proof. reflexivity. Qed.

(** [Math.trunc] drops the fraction of a reading: the size of the result
    is the whole part of the size of the reading, and the result is not of
    the opposite sign. *)
Lemma Math_trunc_towards_zero (x : Q) :
  (inject_Z (Z.abs (Math_trunc x)) <= Qabs x)%Q /\
  (Qabs x < inject_Z (Z.abs (Math_trunc x) + 1))%Q /\
  (0 <= inject_Z (Math_trunc x) * x)%Q.
Proof.
  destruct x as [n d]. unfold Qle, Qlt, Math_trunc. simpl.
  assert (Hq : (Z.abs (n ÷ Z.pos d) = Z.abs n / Z.pos d)%Z).
  { rewrite <- Z.quot_abs by lia. rewrite Z.quot_div_nonneg by lia.
    reflexivity. }
  rewrite Hq.
  repeat split.
  - Z.to_euclidean_division_equations; nia.
  - Z.to_euclidean_division_equations; nia.
  - destruct (Z.le_gt_cases 0 n) as [Hn|Hn].
    + pose proof (Z.quot_pos n (Z.pos d) Hn ltac:(lia)). nia.
    + assert (n ÷ Z.pos d <= 0)%Z.
      { replace n with (- (- n))%Z by lia. rewrite Z.quot_opp_l by lia.
        pose proof (Z.quot_pos (- n) (Z.pos d) ltac:(lia) ltac:(lia)). lia. }
      nia.
Qed.

(** C10.  [GET /getinfo] answers 200 in every state, which it leaves as it
    is, with a body of exactly two fields, [version] and [uptime].  The
    uptime is the whole number [u] the clock reading is truncated to: its
    size is the whole part of the size of the reading
    ([|u| <= |now| < |u| + 1]) and it is not of the opposite sign.  The
    body has no [protocol_version] and no [success] field, while the
    result of [server.info] at the same reading carries [protocol_version]
    beside the same version and uptime. *)
Theorem getinfo_version_and_uptime (now : Q) (s : Server) :
  exists u : Z,
    let reply := mkResponse 200 [("version", JStr APP_VERSION);
                                 ("uptime", JNum u)] in
    ((inject_Z (Z.abs u) <= Qabs now)%Q /\
     (Qabs now < inject_Z (Z.abs u + 1))%Q /\
     (0 <= inject_Z u * now)%Q) /\
    getinfo_route now s = (Return reply, s) /\
    status reply = 200%Z /\
    List.map fst (body reply) = ["version"; "uptime"] /\
    property "uptime" (body reply) = Some (JNum u) /\
    property "protocol_version" (body reply) = None /\
    property "success" (body reply) = None /\
    post_json_rpc "server.info" None None now s =
      (Return (RpcSuccess (ResInfo {| version := APP_VERSION;
                                      protocol_version := "0.1";
                                      uptime := u |})), s).
Proof.
  exists (Math_trunc now). split.
  - apply Math_trunc_towards_zero.
  - repeat split.
Qed.

(** [Math.trunc] of a reading that is not negative is its integer part. *)
Lemma Math_trunc_nonneg (x : Q) :
  (0 <= x)%Q ->
  (inject_Z (Math_trunc x) <= x)%Q /\ (x < inject_Z (Math_trunc x + 1))%Q.
Proof.
  destruct x as [n d]. unfold Qle, Qlt, Math_trunc. simpl. intros Hn.
  rewrite Z.quot_div_nonneg by lia.
  split; Z.to_euclidean_division_equations; nia.
Qed.

(** ** Parameter validation *)

Lemma getBlindedUTXOParam_validate (p : JSONRPCParams) :
  getBlindedUTXOParam p =
  validate_string "blinded_utxo" MissingBlindedUTXO InvalidBlindedUTXO p.
Proof.
  unfold getBlindedUTXOParam, validate_string.
  destruct p as [[| | | | |o]|]; try reflexivity. simpl.
  destruct (property "blinded_utxo" o) as [[| | |x| |]|]; simpl;
    try reflexivity; try (rewrite orb_true_r; reflexivity).
  destruct (String.eqb x ""); reflexivity.
Qed.

Lemma getAttachmentIDParam_validate (p : JSONRPCParams) :
  getAttachmentIDParam p =
  validate_string "attachment_id" MissingAttachmentID InvalidAttachmentID p.
Proof.
  unfold getAttachmentIDParam, validate_string.
  destruct p as [[| | | | |o]|]; try reflexivity. simpl.
  destruct (property "attachment_id" o) as [[| | |x| |]|]; simpl;
    try reflexivity; try (rewrite orb_true_r; reflexivity).
  destruct (String.eqb x ""); reflexivity.
Qed.

Lemma getAckParam_validate (p : JSONRPCParams) :
  getAckParam p = validate_boolean "ack" MissingAck InvalidAck p.
Proof.
  unfold getAckParam, validate_boolean.
  destruct p as [[| | | | |o]|]; try reflexivity. simpl.
  destruct (property "ack" o) as [[]|]; reflexivity.
Qed.

Lemma rpc_invalid_blinded_utxo (method : string) (p : JSONRPCParams)
    (part : option Upload) (now : Q) (s : Server) (e : Error) :
  In method blinded_utxo_methods ->
  getBlindedUTXOParam p = Throw e ->
  post_json_rpc method p part now s =
  (Return (RpcError e), cleaned (upload_filename <$> part) s).
Proof.
  intros Hin He.
  destruct Hin as [<-|[<-|[<-|[<-|[]]]]].
  - erewrite post_json_rpc_run.
    2:{ rewrite call_consignment_get, fmap_run.
        unfold consignment_get. unfold_monad.
        rewrite (getConsignment_invalid _ _ _ He). reflexivity. }
    rewrite cleaned_staged. reflexivity.
  - erewrite post_json_rpc_run.
    2:{ rewrite call_consignment_post, fmap_run,
          (consignment_post_invalid _ _ _ _ He). reflexivity. }
    rewrite cleaned_twice, cleaned_staged. reflexivity.
  - erewrite post_json_rpc_run.
    2:{ rewrite call_ack_get, fmap_run. unfold ack_get. unfold_monad.
        rewrite (getConsignment_invalid _ _ _ He). reflexivity. }
    rewrite cleaned_staged. reflexivity.
  - erewrite post_json_rpc_run.
    2:{ rewrite call_ack_post, fmap_run. unfold ack_post. unfold_monad.
        rewrite (getConsignment_invalid _ _ _ He). reflexivity. }
    rewrite cleaned_staged. reflexivity.
Qed.

Lemma rpc_invalid_attachment_id (method : string) (p : JSONRPCParams)
    (part : option Upload) (now : Q) (s : Server) (e : Error) :
  In method attachment_id_methods ->
  getAttachmentIDParam p = Throw e ->
  post_json_rpc method p part now s =
  (Return (RpcError e), cleaned (upload_filename <$> part) s).
Proof.
  intros Hin He.
  destruct Hin as [<-|[<-|[]]].
  - erewrite post_json_rpc_run.
    2:{ rewrite call_media_get, fmap_run. unfold media_get. unfold_monad.
        rewrite He. reflexivity. }
    rewrite cleaned_staged. reflexivity.
  - erewrite post_json_rpc_run.
    2:{ rewrite call_media_post, fmap_run, (media_post_invalid _ _ _ _ He).
        reflexivity. }
    rewrite cleaned_twice, cleaned_staged. reflexivity.
Qed.

Lemma rpc_ack_post_invalid_ack (p : JSONRPCParams) (part : option Upload)
    (now : Q) (s : Server) (k : string) (c : Consignment) (e : Error) :
  getBlindedUTXOParam p = Return k ->
  findOne_blindedutxo k (ds s) = Some c ->
  getAckParam p = Throw e ->
  post_json_rpc "ack.post" p part now s =
  (Return (RpcError e), cleaned (upload_filename <$> part) s).
Proof.
  intros Hk Hc He.
  erewrite post_json_rpc_run.
  2:{ rewrite call_ack_post, fmap_run. unfold ack_post. unfold_monad.
      rewrite (getConsignment_found p (staged part s) k c Hk), He;
        [reflexivity | destruct part; exact Hc]. }
  rewrite cleaned_staged. reflexivity.
Qed.

Lemma rpc_ack_post_not_found (p : JSONRPCParams) (part : option Upload)
    (now : Q) (s : Server) (k : string) :
  getBlindedUTXOParam p = Return k ->
  findOne_blindedutxo k (ds s) = None ->
  post_json_rpc "ack.post" p part now s =
  (Return (RpcError NotFoundConsignment), cleaned (upload_filename <$> part) s).
Proof.
  intros Hk Hnone.
  erewrite post_json_rpc_run.
  2:{ rewrite call_ack_post, fmap_run. unfold ack_post. unfold_monad.
      rewrite (getConsignment_not_found p (staged part s) k Hk);
        [reflexivity | destruct part; exact Hnone]. }
  rewrite cleaned_staged. reflexivity.
Qed.


(** ** The acknowledgment, surface by surface *)

(** Within JSON-RPC a decided acknowledgment stays: no [ack.post] call,
    whatever its parameters, changes the [ack] of a record that has one. *)
Lemma ack_post_keeps_decided (p : JSONRPCParams) (s : Server) (k : string)
    (c : Consignment) (v : bool) :
  findOne_blindedutxo k (ds s) = Some c ->
  ack c = Some v ->
  ack <$> findOne_blindedutxo k (ds (snd (ack_post p s))) = Some (Some v).
Proof.
  intros Hc Hv.
  assert (Hsame : ack <$> findOne_blindedutxo k (ds s) = Some (Some v))
    by (rewrite Hc; simpl; congruence).
  unfold ack_post, getConsignment. unfold_monad.
  destruct (getBlindedUTXOParam p) as [k'|e]; simpl; [|exact Hsame].
  destruct (findOne_blindedutxo k' (ds s)) as [c'|] eqn:Hc'; simpl; [|exact Hsame].
  destruct (getAckParam p) as [v'|e]; simpl; [|exact Hsame].
  destruct (ack c') as [current|] eqn:Hack; simpl.
  - destruct (Bool.eqb current v'); exact Hsame.
  - rewrite (findOne_blindedutxo_key _ _ _ Hc').
    rewrite (findOne_update_other _ (set_ack_key v')); [exact Hsame|].
    intros ->. congruence.
Qed.

(** The legacy routes refuse a record whose [responded] flag is set, in
    either direction and whatever its [ack], and leave it alone. *)
Lemma legacy_routes_already_responded (s : Server) (k : string) (c : Consignment) :
  k <> "" ->
  findOne_blindedutxo k (ds s) = Some c ->
  responded c = Some true ->
  post_ack_route (Some k) s =
    (Return (mkResponse 403 (failure "Already responded!")), s) /\
  post_nack_route (Some k) s =
    (Return (mkResponse 403 (failure "Already responded!")), s).
Proof.
  intros Hk Hc Hr.
  unfold post_ack_route, post_nack_route, or_500. unfold_monad.
  rewrite (given_nonempty _ Hk), Hc, Hr. split; reflexivity.
Qed.

(** They accept a record whose [responded] flag is not set, whatever its
    [ack], and overwrite the three fields. *)
Lemma legacy_routes_not_responded (s : Server) (k : string) (c : Consignment) :
  k <> "" ->
  findOne_blindedutxo k (ds s) = Some c ->
  responded c <> Some true ->
  post_ack_route (Some k) s =
    (Return (mkResponse 200 [("success", JBool true)]),
     set_ds (update_blindedutxo k (set_responded true false) (ds s)) s) /\
  post_nack_route (Some k) s =
    (Return (mkResponse 200 [("success", JBool true)]),
     set_ds (update_blindedutxo k (set_responded false true) (ds s)) s).
Proof.
  intros Hk Hc Hr.
  unfold post_ack_route, post_nack_route, or_500. unfold_monad.
  rewrite (given_nonempty _ Hk), Hc.
  destruct (responded c) as [[|]|]; [contradiction | | ]; split; reflexivity.
Qed.

(** What [ack.post] records does not reach the legacy routes: on any
    server, for any stored consignment that no legacy route has answered,
    [ack.post] with [v] followed by [POST /ack] ends with [ack] set to
    [true], and followed by [POST /nack] with [ack] set to [false],
    whatever [v] was. *)
Lemma legacy_routes_override_ack_post (p : JSONRPCParams) (s : Server)
    (k : string) (v : bool) (c : Consignment) :
  getBlindedUTXOParam p = Return k ->
  getAckParam p = Return v ->
  findOne_blindedutxo k (ds s) = Some c ->
  ack c = None ->
  responded c <> Some true ->
  exists s1 s2 s3,
    ack_post p s = (Return true, s1) /\
    ack <$> findOne_blindedutxo k (ds s1) = Some (Some v) /\
    post_ack_route (Some k) s1 =
      (Return (mkResponse 200 [("success", JBool true)]), s2) /\
    ack <$> findOne_blindedutxo k (ds s2) = Some (Some true) /\
    post_nack_route (Some k) s1 =
      (Return (mkResponse 200 [("success", JBool true)]), s3) /\
    ack <$> findOne_blindedutxo k (ds s3) = Some (Some false).
Proof.
  intros Hk Hv Hc Hack Hr.
  pose proof (getBlindedUTXOParam_nonempty _ _ Hk) as Hk0.
  pose proof (findOne_blindedutxo_key _ _ _ Hc) as Hkey.
  pose proof (getConsignment_found _ _ _ _ Hk Hc) as Hget.
  set (s1 := set_ds (update_blindedutxo k (set_ack v) (ds s)) s).
  assert (Hc1 : findOne_blindedutxo k (ds s1) = Some (set_ack v c))
    by (simpl; rewrite (findOne_update_same _ (set_ack_key v)), Hc; reflexivity).
  destruct (legacy_routes_not_responded s1 k (set_ack v c) Hk0 Hc1 Hr)
    as [Hpost_ack Hpost_nack].
  eexists s1, _, _. repeat apply conj.
  - unfold ack_post. unfold_monad. rewrite Hget, Hv, Hack, Hkey. reflexivity.
  - rewrite Hc1. reflexivity.
  - exact Hpost_ack.
  - simpl. rewrite (findOne_update_same _ (set_responded_key true false)).
    rewrite (findOne_update_same _ (set_ack_key v)), Hc. reflexivity.
  - exact Hpost_nack.
  - simpl. rewrite (findOne_update_same _ (set_responded_key false true)).
    rewrite (findOne_update_same _ (set_ack_key v)), Hc. reflexivity.
Qed.

(** ** Staged files, surface by surface *)

(** Whatever the method does, the JSON-RPC route leaves no staged file
    once the method has been called. *)
Lemma post_json_rpc_no_staged_file (method : string) (p : JSONRPCParams)
    (u : Upload) (now : Q) (s : Server) :
  tempDir (snd (post_json_rpc method p (Some u) now s)) !! upload_filename u
  = None.
Proof.
  destruct (call_method method p (upload_filename <$> Some u) now
              (staged (Some u) s)) as [o s'] eqn:Hcall.
  rewrite (post_json_rpc_run _ _ _ _ _ _ _ Hcall). apply cleaned_absent.
Qed.

(** * The rest of the server

    The functions the claims leave aside, and the server taken as a whole:
    what any request may change, and what holds after any sequence of
    requests. *)

(** ** What one request may change *)

Lemma store_unchanged_refl (s : Server) : store_unchanged s s.
Proof. repeat split. Qed.

Lemma store_unchanged_sym (s t : Server) :
  store_unchanged s t -> store_unchanged t s.
Proof. intros (H1 & H2 & H3). repeat split; congruence. Qed.

Lemma store_step_transfer (s s' t t' : Server) :
  store_unchanged s t -> store_unchanged s' t' ->
  store_step s s' -> store_step t t'.
Proof.
  intros (Hd & Hc & Hm) (Hd' & Hc' & Hm') Hstep.
  destruct Hstep as [(H1 & H2 & H3) | k b Hk Hnone H1 H2 H3
                    | k b Hk Hnone H1 H2 H3 | k c v Hc0 Hack H1 H2 H3
                    | k c v Hc0 Hr H1 H2 H3].
  - apply step_none. repeat split; congruence.
  - apply (step_new_consignment _ _ k b); congruence.
  - apply (step_new_media _ _ k b); congruence.
  - apply (step_ack _ _ k c v); congruence.
  - apply (step_respond _ _ k c v); congruence.
Qed.

Lemma fmap_snd {A B} (g : A -> B) (m : M A) (s : Server) :
  snd ((g <$> m) s) = snd (m s).
Proof. rewrite fmap_run. destruct (m s) as [[a|e] s']; reflexivity. Qed.

Lemma consignment_post_enoent (p : JSONRPCParams) (s : Server) (k f : string) :
  getBlindedUTXOParam p = Return k ->
  tempDir s !! f = None ->
  consignment_post p (Some f) s = (Throw ENOENT, cleaned (Some f) s).
Proof.
  intros Hk Hf. run_upload Hk. rewrite Hf; simpl.
  rewrite remove_unhandled_run. reflexivity.
Qed.

Lemma media_post_enoent (p : JSONRPCParams) (s : Server) (k f : string) :
  getAttachmentIDParam p = Return k ->
  tempDir s !! f = None ->
  media_post p (Some f) s = (Throw ENOENT, cleaned (Some f) s).
Proof.
  intros Hk Hf. run_upload Hk. rewrite Hf; simpl.
  rewrite remove_unhandled_run. reflexivity.
Qed.

Lemma consignment_post_step (p : JSONRPCParams) (file : option string)
    (s : Server) :
  store_step s (snd (consignment_post p file s)).
Proof.
  destruct (getBlindedUTXOParam p) as [k|e] eqn:Hk.
  2:{ rewrite (consignment_post_invalid _ _ _ _ Hk).
      apply step_none, store_unchanged_cleaned. }
  destruct file as [f|].
  2:{ rewrite (consignment_post_no_file _ _ _ Hk).
      apply step_none, store_unchanged_refl. }
  destruct (tempDir s !! f) as [b|] eqn:Hf.
  2:{ rewrite (consignment_post_enoent _ _ _ _ Hk Hf).
      apply step_none, store_unchanged_cleaned. }
  destruct (findOne_blindedutxo k (ds s)) as [c|] eqn:Hc.
  - destruct (String.eqb_spec (filename c) (fingerprint b)) as [Heq|Hne].
    + rewrite (consignment_post_same _ _ _ _ _ _ Hk Hf Hc Heq).
      apply step_none, store_unchanged_cleaned.
    + rewrite (consignment_post_conflict _ _ _ _ _ _ Hk Hf Hc Hne).
      apply step_none, store_unchanged_cleaned.
  - rewrite (consignment_post_created _ _ _ _ _ Hk Hf Hc).
    apply (step_new_consignment _ _ k b);
      [exact (getBlindedUTXOParam_nonempty _ _ Hk) | exact Hc | reflexivity ..].
Qed.

Lemma media_post_step (p : JSONRPCParams) (file : option string) (s : Server) :
  store_step s (snd (media_post p file s)).
Proof.
  destruct (getAttachmentIDParam p) as [k|e] eqn:Hk.
  2:{ rewrite (media_post_invalid _ _ _ _ Hk).
      apply step_none, store_unchanged_cleaned. }
  destruct file as [f|].
  2:{ rewrite (media_post_no_file _ _ _ Hk).
      apply step_none, store_unchanged_refl. }
  destruct (tempDir s !! f) as [b|] eqn:Hf.
  2:{ rewrite (media_post_enoent _ _ _ _ Hk Hf).
      apply step_none, store_unchanged_cleaned. }
  destruct (findOne_attachment_id k (ds s)) as [m|] eqn:Hm.
  - destruct (String.eqb_spec (media_filename m) (fingerprint b)) as [Heq|Hne].
    + rewrite (media_post_same _ _ _ _ _ _ Hk Hf Hm Heq).
      apply step_none, store_unchanged_cleaned.
    + rewrite (media_post_conflict _ _ _ _ _ _ Hk Hf Hm Hne).
      apply step_none, store_unchanged_cleaned.
  - rewrite (media_post_created _ _ _ _ _ Hk Hf Hm).
    apply (step_new_media _ _ k b);
      [exact (getAttachmentIDParam_nonempty _ _ Hk) | exact Hm | reflexivity ..].
Qed.

(** The methods that only read. *)
Lemma getConsignment_state (p : JSONRPCParams) (s : Server) :
  snd (getConsignment p s) = s.
Proof.
  unfold getConsignment. unfold_monad.
  destruct (getBlindedUTXOParam p); simpl; [|reflexivity].
  destruct (findOne_blindedutxo _ _); reflexivity.
Qed.

Lemma consignment_get_state (p : JSONRPCParams) (s : Server) :
  snd (consignment_get p s) = s.
Proof.
  unfold consignment_get, readFileSync. unfold_monad.
  pose proof (getConsignment_state p s) as Hs.
  destruct (getConsignment p s) as [[c|e] s']; simpl in *; subst s';
    [|reflexivity].
  destruct (consignmentDir s !! filename c); reflexivity.
Qed.

Lemma media_get_state (p : JSONRPCParams) (s : Server) :
  snd (media_get p s) = s.
Proof.
  unfold media_get, readFileSync. unfold_monad.
  destruct (getAttachmentIDParam p); simpl; [|reflexivity].
  destruct (findOne_attachment_id _ _) as [m|]; simpl; [|reflexivity].
  destruct (mediaDir s !! media_filename m); reflexivity.
Qed.

Lemma ack_get_state (p : JSONRPCParams) (s : Server) :
  snd (ack_get p s) = s.
Proof.
  unfold ack_get. unfold_monad.
  pose proof (getConsignment_state p s) as Hs.
  destruct (getConsignment p s) as [[c|e] s']; simpl in *; subst s'; reflexivity.
Qed.

Lemma ack_post_step (p : JSONRPCParams) (s : Server) :
  store_step s (snd (ack_post p s)).
Proof.
  unfold ack_post, getConsignment. unfold_monad.
  destruct (getBlindedUTXOParam p) as [k|e]; simpl;
    [|apply step_none, store_unchanged_refl].
  destruct (findOne_blindedutxo k (ds s)) as [c|] eqn:Hc; simpl;
    [|apply step_none, store_unchanged_refl].
  destruct (getAckParam p) as [v|e]; simpl;
    [|apply step_none, store_unchanged_refl].
  destruct (ack c) as [current|] eqn:Hack; simpl.
  - destruct (Bool.eqb current v); apply step_none, store_unchanged_refl.
  - rewrite (findOne_blindedutxo_key _ _ _ Hc).
    apply (step_ack _ _ k c v); [exact Hc | exact Hack | reflexivity ..].
Qed.

Lemma call_method_step (method : string) (p : JSONRPCParams)
    (file : option string) (now : Q) (s : Server) :
  store_step s (snd (call_method method p file now s)).
Proof.
  unfold call_method.
  repeat match goal with
         | |- context [if String.eqb method ?m then _ else _] =>
             destruct (String.eqb method m)
         end;
    rewrite ?fmap_snd.
  - apply step_none, store_unchanged_refl.
  - rewrite consignment_get_state. apply step_none, store_unchanged_refl.
  - apply consignment_post_step.
  - rewrite media_get_state. apply step_none, store_unchanged_refl.
  - apply media_post_step.
  - rewrite ack_get_state. apply step_none, store_unchanged_refl.
  - apply ack_post_step.
  - apply step_none, store_unchanged_refl.
Qed.

Lemma post_json_rpc_step (method : string) (p : JSONRPCParams)
    (part : option Upload) (now : Q) (s : Server) :
  store_step s (snd (post_json_rpc method p part now s)).
Proof.
  pose proof (call_method_step method p (upload_filename <$> part) now
                (staged part s)) as Hstep.
  destruct (call_method method p (upload_filename <$> part) now (staged part s))
    as [o s'] eqn:Hcall.
  rewrite (post_json_rpc_run _ _ _ _ _ _ _ Hcall). simpl in *.
  apply (store_step_transfer (staged part s) s');
    [apply store_unchanged_sym, store_unchanged_staged
    | apply store_unchanged_cleaned | exact Hstep].
Qed.

(** *** The route from the body as received *)

Lemma post_json_rpc_route_parsed (JSON_parse : string -> option JValue)
    (method : string) (params : option JValue) (p : JSONRPCParams)
    (part : option Upload) (now : Q) (s : Server) :
  parse_params JSON_parse params = Return p ->
  post_json_rpc_route JSON_parse method params part now s =
  post_json_rpc method p part now s.
Proof.
  intros Hp. unfold post_json_rpc_route, post_json_rpc, lift. unfold_monad.
  rewrite upload_single_run. cbv beta iota. rewrite Hp. reflexivity.
Qed.

Lemma post_json_rpc_route_unparsed (JSON_parse : string -> option JValue)
    (method : string) (params : option JValue) (e : Error)
    (part : option Upload) (now : Q) (s : Server) :
  parse_params JSON_parse params = Throw e ->
  post_json_rpc_route JSON_parse method params part now s =
  (Throw e, staged part s).
Proof.
  intros Hp. unfold post_json_rpc_route, lift. unfold_monad.
  rewrite upload_single_run. cbv beta iota. rewrite Hp. reflexivity.
Qed.

Lemma parse_params_not_text (JSON_parse : string -> option JValue)
    (params : option JValue) :
  (forall text, params <> Some (JStr text)) ->
  parse_params JSON_parse params = Return params.
Proof.
  intros Hnot. destruct params as [[| | | text | |]|]; try reflexivity.
  destruct (Hnot text). reflexivity.
Qed.

Lemma post_json_rpc_route_step (JSON_parse : string -> option JValue)
    (method : string) (params : option JValue) (part : option Upload)
    (now : Q) (s : Server) :
  store_step s (snd (post_json_rpc_route JSON_parse method params part now s)).
Proof.
  destruct (parse_params JSON_parse params) as [p|e] eqn:Hp.
  - rewrite (post_json_rpc_route_parsed _ _ _ _ _ _ _ Hp).
    apply post_json_rpc_step.
  - rewrite (post_json_rpc_route_unparsed _ _ _ _ _ _ _ Hp).
    apply step_none, store_unchanged_staged.
Qed.

(** *** The REST routes *)

Lemma given_Some (x : option string) (k : string) :
  given x = Some k -> x = Some k /\ k <> "".
Proof.
  unfold given, truthy. destruct x as [k'|]; [|discriminate].
  destruct (String.eqb_spec k' "") as [Heq|Hne]; simpl; [discriminate|].
  intros [= <-]. split; [reflexivity | exact Hne].
Qed.

Lemma post_consignment_route_no_key (x : option string) (part : option Upload)
    (s : Server) :
  given x = None ->
  post_consignment_route x part s =
  (Return (mkResponse 400 (failure "blindedutxo missing!")), staged part s).
Proof.
  intros Hg. unfold post_consignment_route, post_consignment_handler, or_500.
  unfold_monad. rewrite upload_single_run. cbv beta iota. rewrite Hg.
  reflexivity.
Qed.

Lemma post_consignment_route_no_file (k : string) (s : Server) :
  k <> "" ->
  post_consignment_route (Some k) None s =
  (Return (mkResponse 400 (failure "Consignment file is missing!")), s).
Proof. intros Hk. run_rest Hk. reflexivity. Qed.

Lemma post_media_route_no_key (x : option string) (part : option Upload)
    (s : Server) :
  given x = None ->
  post_media_route x part s =
  (Return (mkResponse 400 (failure "attachment_id missing!")), staged part s).
Proof.
  intros Hg. unfold post_media_route, post_media_handler, or_500.
  unfold_monad. rewrite upload_single_run. cbv beta iota. rewrite Hg.
  reflexivity.
Qed.

Lemma post_media_route_no_file (k : string) (s : Server) :
  k <> "" ->
  post_media_route (Some k) None s =
  (Return (mkResponse 400 (failure "Media file is missing!")), s).
Proof. intros Hk. run_rest Hk. reflexivity. Qed.

Lemma post_consignment_route_step (x : option string) (part : option Upload)
    (s : Server) :
  store_step s (snd (post_consignment_route x part s)).
Proof.
  destruct (given x) as [k|] eqn:Hg.
  2:{ rewrite (post_consignment_route_no_key _ _ _ Hg).
      apply step_none, store_unchanged_staged. }
  apply given_Some in Hg as [-> Hk].
  destruct part as [u|].
  2:{ rewrite (post_consignment_route_no_file _ _ Hk).
      apply step_none, store_unchanged_refl. }
  destruct (findOne_blindedutxo k (ds s)) as [c|] eqn:Hc.
  - destruct (String.eqb_spec (filename c) (fingerprint (upload_content u)))
      as [Heq|Hne].
    + rewrite (post_consignment_route_same _ _ _ _ Hk Hc Heq).
      apply step_none, (store_unchanged_staged (Some u)).
    + rewrite (post_consignment_route_conflict _ _ _ _ Hk Hc Hne).
      apply step_none, (store_unchanged_staged (Some u)).
  - rewrite (post_consignment_route_created _ _ _ Hk Hc).
    apply (step_new_consignment _ _ k (upload_content u));
      [exact Hk | exact Hc | reflexivity ..].
Qed.

Lemma post_media_route_step (x : option string) (part : option Upload)
    (s : Server) :
  store_step s (snd (post_media_route x part s)).
Proof.
  destruct (given x) as [k|] eqn:Hg.
  2:{ rewrite (post_media_route_no_key _ _ _ Hg).
      apply step_none, store_unchanged_staged. }
  apply given_Some in Hg as [-> Hk].
  destruct part as [u|].
  2:{ rewrite (post_media_route_no_file _ _ Hk).
      apply step_none, store_unchanged_refl. }
  destruct (findOne_attachment_id k (ds s)) as [m|] eqn:Hm.
  - destruct (String.eqb_spec (media_filename m) (fingerprint (upload_content u)))
      as [Heq|Hne].
    + rewrite (post_media_route_same _ _ _ _ Hk Hm Heq).
      apply step_none, (store_unchanged_staged (Some u)).
    + rewrite (post_media_route_conflict _ _ _ _ Hk Hm Hne).
      apply step_none, (store_unchanged_staged (Some u)).
  - rewrite (post_media_route_created _ _ _ Hk Hm).
    apply (step_new_media _ _ k (upload_content u));
      [exact Hk | exact Hm | reflexivity ..].
Qed.

Lemma get_consignment_route_state (x : option string) (s : Server) :
  snd (get_consignment_route x s) = s.
Proof.
  unfold get_consignment_route, or_500, readFileSync. unfold_monad.
  destruct (given x) as [k|]; simpl; [|reflexivity].
  destruct (findOne_blindedutxo k (ds s)) as [c|]; simpl; [|reflexivity].
  destruct (consignmentDir s !! filename c); reflexivity.
Qed.

Lemma get_media_route_state (x : option string) (s : Server) :
  snd (get_media_route x s) = s.
Proof.
  unfold get_media_route, or_500, readFileSync. unfold_monad.
  destruct (given x) as [k|]; simpl; [|reflexivity].
  destruct (findOne_attachment_id k (ds s)) as [m|]; simpl; [|reflexivity].
  destruct (mediaDir s !! media_filename m); reflexivity.
Qed.

Lemma get_ack_route_state (x : option string) (s : Server) :
  snd (get_ack_route x s) = s.
Proof.
  unfold get_ack_route, or_500. unfold_monad.
  destruct (given x) as [k|]; simpl; [|reflexivity].
  destruct (findOne_blindedutxo k (ds s)); reflexivity.
Qed.

Lemma post_ack_route_step (x : option string) (s : Server) :
  store_step s (snd (post_ack_route x s)).
Proof.
  destruct (given x) as [k|] eqn:Hg.
  - destruct (findOne_blindedutxo k (ds s)) as [c|] eqn:Hc.
    + destruct (decide (responded c = Some true)) as [Hr|Hr].
      * unfold post_ack_route, or_500. unfold_monad. rewrite Hg, Hc, Hr.
        apply step_none, store_unchanged_refl.
      * apply given_Some in Hg as [-> Hk].
        destruct (legacy_routes_not_responded s k c Hk Hc Hr) as [-> _].
        apply (step_respond _ _ k c true); [exact Hc | exact Hr | reflexivity ..].
    + unfold post_ack_route, or_500. unfold_monad. rewrite Hg, Hc.
      apply step_none, store_unchanged_refl.
  - unfold post_ack_route, or_500. unfold_monad. rewrite Hg.
    apply step_none, store_unchanged_refl.
Qed.

Lemma post_nack_route_step (x : option string) (s : Server) :
  store_step s (snd (post_nack_route x s)).
Proof.
  destruct (given x) as [k|] eqn:Hg.
  - destruct (findOne_blindedutxo k (ds s)) as [c|] eqn:Hc.
    + destruct (decide (responded c = Some true)) as [Hr|Hr].
      * unfold post_nack_route, or_500. unfold_monad. rewrite Hg, Hc, Hr.
        apply step_none, store_unchanged_refl.
      * apply given_Some in Hg as [-> Hk].
        destruct (legacy_routes_not_responded s k c Hk Hc Hr) as [_ ->].
        apply (step_respond _ _ k c false); [exact Hc | exact Hr | reflexivity ..].
    + unfold post_nack_route, or_500. unfold_monad. rewrite Hg, Hc.
      apply step_none, store_unchanged_refl.
  - unfold post_nack_route, or_500. unfold_monad. rewrite Hg.
    apply step_none, store_unchanged_refl.
Qed.

Lemma serve_step (r : Request) (s : Server) : store_step s (serve r s).
Proof.
  destruct r; simpl.
  - apply post_json_rpc_step.
  - rewrite get_consignment_route_state. apply step_none, store_unchanged_refl.
  - apply post_consignment_route_step.
  - rewrite get_media_route_state. apply step_none, store_unchanged_refl.
  - apply post_media_route_step.
  - apply post_ack_route_step.
  - apply post_nack_route_step.
  - rewrite get_ack_route_state. apply step_none, store_unchanged_refl.
  - apply step_none, store_unchanged_refl.
Qed.

(** ** What every step keeps *)

Lemma In_insert_doc (d d' : Doc) (db : list Doc) :
  In d (insert_doc d' db) -> In d db \/ d = d'.
Proof.
  unfold insert_doc. intros H. apply in_app_or in H as [H|[H|[]]]; auto.
Qed.

Lemma findOne_blindedutxo_In (k : string) (db : list Doc) (c : Consignment) :
  findOne_blindedutxo k db = Some c -> In (DocConsignment c) db.
Proof.
  induction db as [|[c'|m] db IH]; simpl; [discriminate | | auto].
  destruct (String.eqb (blindedutxo c') k); [|auto].
  intros [= ->]. auto.
Qed.

Lemma findOne_attachment_id_In (k : string) (db : list Doc) (m : Media) :
  findOne_attachment_id k db = Some m -> In (DocMedia m) db.
Proof.
  induction db as [|[c|m'] db IH]; simpl; [discriminate | auto | ].
  destruct (String.eqb (attachment_id m') k); [|auto].
  intros [= ->]. auto.
Qed.

Lemma In_update_consignment (k : string) (f : Consignment -> Consignment)
    (db : list Doc) (c c' : Consignment) :
  findOne_blindedutxo k db = Some c ->
  In (DocConsignment c') (update_blindedutxo k f db) ->
  In (DocConsignment c') db \/ c' = f c.
Proof.
  induction db as [|[c0|m] db IH]; simpl; [discriminate | | ].
  - destruct (String.eqb (blindedutxo c0) k).
    + intros [= ->] [H|H]; [right; congruence | left; auto].
    + intros Hc [H|H]; [left; auto | destruct (IH Hc H); auto].
  - intros Hc [H|H]; [discriminate | destruct (IH Hc H); auto].
Qed.

Lemma In_update_media (k : string) (f : Consignment -> Consignment)
    (db : list Doc) (m : Media) :
  In (DocMedia m) (update_blindedutxo k f db) -> In (DocMedia m) db.
Proof.
  induction db as [|[c0|m0] db IH]; simpl; [auto | | ].
  - destruct (String.eqb (blindedutxo c0) k); intros [H|H];
      try discriminate; auto.
  - intros [H|H]; auto.
Qed.

Lemma count_attachment_id_update (k k' : string)
    (f : Consignment -> Consignment) (db : list Doc) :
  count_attachment_id k' (update_blindedutxo k f db) = count_attachment_id k' db.
Proof.
  unfold count_attachment_id.
  induction db as [|[c|m] db IH]; simpl; [reflexivity | | ].
  - destruct (String.eqb (blindedutxo c) k); simpl; [reflexivity | exact IH].
  - destruct (String.eqb (attachment_id m) k'); simpl; rewrite IH; reflexivity.
Qed.

Lemma blobs_in_place_step (s s' : Server) :
  store_step s s' -> blobs_in_place s -> blobs_in_place s'.
Proof.
  intros Hstep [Hcs Hms].
  destruct Hstep as [(H1 & H2 & H3) | k b Hk Hnone H1 H2 H3
                    | k b Hk Hnone H1 H2 H3 | k c v Hc0 Hack H1 H2 H3
                    | k c v Hc0 Hr H1 H2 H3];
    unfold blobs_in_place; rewrite H1, H2, H3.
  - split; assumption.
  - split.
    + intros c Hin. apply In_insert_doc in Hin as [Hin|Heq].
      * destruct (Hcs c Hin) as (b0 & Hb0 & Hfp).
        destruct (decide (fingerprint b = filename c)) as [Hsame|Hdiff].
        -- exists b. rewrite <- Hsame, lookup_insert_eq. auto.
        -- exists b0. rewrite lookup_insert_ne by exact Hdiff. auto.
      * injection Heq as ->. exists b. simpl. rewrite lookup_insert_eq. auto.
    + intros m Hin. apply In_insert_doc in Hin as [Hin|Heq];
        [auto | discriminate].
  - split.
    + intros c Hin. apply In_insert_doc in Hin as [Hin|Heq];
        [auto | discriminate].
    + intros m Hin. apply In_insert_doc in Hin as [Hin|Heq].
      * destruct (Hms m Hin) as (b0 & Hb0 & Hfp).
        destruct (decide (fingerprint b = media_filename m)) as [Hsame|Hdiff].
        -- exists b. rewrite <- Hsame, lookup_insert_eq. auto.
        -- exists b0. rewrite lookup_insert_ne by exact Hdiff. auto.
      * injection Heq as ->. exists b. simpl. rewrite lookup_insert_eq. auto.
  - split.
    + intros c' Hin. apply (In_update_consignment _ _ _ _ _ Hc0) in Hin as [Hin| ->];
        [auto|]. apply (Hcs c), (findOne_blindedutxo_In _ _ _ Hc0).
    + intros m Hin. apply In_update_media in Hin. auto.
  - split.
    + intros c' Hin. apply (In_update_consignment _ _ _ _ _ Hc0) in Hin as [Hin| ->];
        [auto|]. apply (Hcs c), (findOne_blindedutxo_In _ _ _ Hc0).
    + intros m Hin. apply In_update_media in Hin. auto.
Qed.

Lemma keys_unique_step (s s' : Server) :
  store_step s s' -> keys_unique s -> keys_unique s'.
Proof.
  intros Hstep Hu k'. destruct (Hu k') as [Hc Hm].
  destruct Hstep as [(H1 & H2 & H3) | k b Hk Hnone H1 H2 H3
                    | k b Hk Hnone H1 H2 H3 | k c v Hc0 Hack H1 H2 H3
                    | k c v Hc0 Hr H1 H2 H3];
    rewrite H1.
  - auto.
  - rewrite count_blindedutxo_insert, count_attachment_id_insert.
    unfold count_blindedutxo at 2, count_attachment_id at 2. simpl.
    destruct (String.eqb_spec k k') as [<-|Hne]; simpl; [|lia].
    rewrite (count_blindedutxo_none _ _ Hnone). lia.
  - rewrite count_blindedutxo_insert, count_attachment_id_insert.
    unfold count_blindedutxo at 2, count_attachment_id at 2. simpl.
    destruct (String.eqb_spec k k') as [<-|Hne]; simpl; [|lia].
    rewrite (count_attachment_id_none _ _ Hnone). lia.
  - rewrite (count_blindedutxo_update _ (set_ack_key v)),
      count_attachment_id_update. auto.
  - rewrite (count_blindedutxo_update _ (set_responded_key v (negb v))),
      count_attachment_id_update. auto.
Qed.

Lemma legacy_fields_kept_step (s s' : Server) :
  store_step s s' -> legacy_fields_kept s -> legacy_fields_kept s'.
Proof.
  intros Hstep Hl.
  destruct Hstep as [(H1 & H2 & H3) | k b Hk Hnone H1 H2 H3
                    | k b Hk Hnone H1 H2 H3 | k c v Hc0 Hack H1 H2 H3
                    | k c v Hc0 Hr H1 H2 H3];
    unfold legacy_fields_kept; rewrite H1.
  - exact Hl.
  - intros c Hin. apply In_insert_doc in Hin as [Hin|Heq]; [auto|].
    injection Heq as ->. reflexivity.
  - intros c Hin. apply In_insert_doc in Hin as [Hin|Heq];
      [auto | discriminate].
  - intros c' Hin.
    apply (In_update_consignment _ _ _ _ _ Hc0) in Hin as [Hin| ->]; [auto|].
    pose proof (Hl c (findOne_blindedutxo_In _ _ _ Hc0)) as Hc.
    unfold legacy_fields_agree in *. simpl.
    destruct (responded c) as [[|]|]; [|discriminate | exact Hc].
    rewrite Hack in Hc. discriminate.
  - intros c' Hin.
    apply (In_update_consignment _ _ _ _ _ Hc0) in Hin as [Hin| ->]; [auto|].
    unfold legacy_fields_agree. simpl. apply Bool.eqb_reflx.
Qed.

Lemma serve_all_keeps (P : Server -> Prop) :
  (forall s s', store_step s s' -> P s -> P s') ->
  forall rs s, P s -> P (serve_all rs s).
Proof.
  intros Hkeep rs. unfold serve_all.
  induction rs as [|r rs IH]; intros s Hs; simpl; [exact Hs|].
  apply IH, (Hkeep s); [apply serve_step | exact Hs].
Qed.

Lemma record_kept_step (s s' : Server) (k : string) (c : Consignment) :
  store_step s s' ->
  findOne_blindedutxo k (ds s) = Some c ->
  exists c', findOne_blindedutxo k (ds s') = Some c' /\
             filename c' = filename c /\ blindedutxo c' = blindedutxo c.
Proof.
  intros Hstep Hc.
  destruct Hstep as [(H1 & H2 & H3) | k0 b Hk Hnone H1 H2 H3
                    | k0 b Hk Hnone H1 H2 H3 | k0 c0 v Hc0 Hack H1 H2 H3
                    | k0 c0 v Hc0 Hr H1 H2 H3];
    rewrite H1.
  - exists c. rewrite Hc. auto.
  - exists c. rewrite findOne_blindedutxo_insert, Hc. auto.
  - exists c. rewrite findOne_blindedutxo_insert, Hc. auto.
  - destruct (decide (k = k0)) as [->|Hne].
    + exists (set_ack v c).
      rewrite (findOne_update_same _ (set_ack_key v)), Hc. auto.
    + exists c. rewrite (findOne_update_other _ (set_ack_key v)) by exact Hne. auto.
  - destruct (decide (k = k0)) as [->|Hne].
    + exists (set_responded v (negb v) c).
      rewrite (findOne_update_same _ (set_responded_key v (negb v))), Hc. auto.
    + exists c.
      rewrite (findOne_update_other _ (set_responded_key v (negb v))) by exact Hne.
      auto.
Qed.

Lemma media_kept_step (s s' : Server) (a : string) (m : Media) :
  store_step s s' ->
  findOne_attachment_id a (ds s) = Some m ->
  findOne_attachment_id a (ds s') = Some m.
Proof.
  intros Hstep Hm.
  destruct Hstep as [(H1 & H2 & H3) | k0 b Hk Hnone H1 H2 H3
                    | k0 b Hk Hnone H1 H2 H3 | k0 c0 v Hc0 Hack H1 H2 H3
                    | k0 c0 v Hc0 Hr H1 H2 H3];
    rewrite H1.
  - exact Hm.
  - rewrite findOne_attachment_id_insert, Hm. reflexivity.
  - rewrite findOne_attachment_id_insert, Hm. reflexivity.
  - rewrite findOne_attachment_id_update. exact Hm.
  - rewrite findOne_attachment_id_update. exact Hm.
Qed.

Lemma blob_kept_step (s s' : Server) :
  store_step s s' ->
  (forall n, is_Some (consignmentDir s !! n) -> is_Some (consignmentDir s' !! n)) /\
  (forall n, is_Some (mediaDir s !! n) -> is_Some (mediaDir s' !! n)).
Proof.
  intros Hstep.
  destruct Hstep as [(H1 & H2 & H3) | k0 b Hk Hnone H1 H2 H3
                    | k0 b Hk Hnone H1 H2 H3 | k0 c0 v Hc0 Hack H1 H2 H3
                    | k0 c0 v Hc0 Hr H1 H2 H3];
    rewrite H2, H3; split; intros n Hn; try exact Hn;
    rewrite lookup_insert_is_Some; destruct (decide (fingerprint b = n)); auto.
Qed.

(** ** The server after any sequence of requests *)

(** X1.  A request served in any state changes the records and the blobs
    in one of four ways or not at all: a record is added with its blob
    under a well-formed key that had none (consignment or media), the
    [ack] of an undecided record is set, or the three answer fields of a
    record no legacy route had answered are set.  This holds for every
    route on a request whose key field is a text or absent, and for
    [POST /json-rpc] on any [params], be they a value or a text, a text
    that is not JSON included. *)
Theorem request_changes_store_in_one_step (r : Request) (s : Server)
    (JSON_parse : string -> option JValue) (method : string)
    (params : option JValue) (part : option Upload) (now : Q) :
  store_step s (serve r s) /\
  store_step s (snd (post_json_rpc_route JSON_parse method params part now s)).
Proof. split; [apply serve_step | apply post_json_rpc_route_step]. Qed.

(** X2.  No sequence of requests removes a record or changes the blob it
    names, whatever else the server holds: a consignment record found
    under a key is still found under it afterwards, with the same
    [filename] and key; and a media record found under a key is found
    there unchanged. *)
Theorem records_never_removed (rs : list Request) (s : Server) :
  (forall (k : string) (c : Consignment),
     findOne_blindedutxo k (ds s) = Some c ->
     exists c', findOne_blindedutxo k (ds (serve_all rs s)) = Some c' /\
                filename c' = filename c /\ blindedutxo c' = blindedutxo c) /\
  (forall (a : string) (m : Media),
     findOne_attachment_id a (ds s) = Some m ->
     findOne_attachment_id a (ds (serve_all rs s)) = Some m).
Proof.
  split; [intros k c Hc | intros a m Hm].
  - apply (serve_all_keeps
             (fun s' => exists c', findOne_blindedutxo k (ds s') = Some c' /\
                          filename c' = filename c /\
                          blindedutxo c' = blindedutxo c)).
    + intros s1 s2 Hstep (c1 & Hc1 & Hf & Hb).
      destruct (record_kept_step _ _ _ _ Hstep Hc1) as (c2 & Hc2 & Hf2 & Hb2).
      exists c2. repeat split; congruence.
    + exists c. auto.
  - apply (serve_all_keeps
             (fun s' => findOne_attachment_id a (ds s') = Some m)); [|exact Hm].
    intros s1 s2 Hstep. apply media_kept_step, Hstep.
Qed.

(** X3.  No sequence of requests removes a file from the consignment or
    the media directory. *)
Theorem blobs_never_removed (rs : list Request) (s : Server) (d : Dir)
    (n : string) :
  d <> TempDir ->
  is_Some (files d s !! n) ->
  is_Some (files d (serve_all rs s) !! n).
Proof.
  intros Hd Hn. destruct d; [contradiction | | ]; simpl in *.
  - apply (serve_all_keeps (fun s' => is_Some (consignmentDir s' !! n)));
      [|exact Hn].
    intros s1 s2 Hstep. apply (blob_kept_step _ _ Hstep).
  - apply (serve_all_keeps (fun s' => is_Some (mediaDir s' !! n)));
      [|exact Hn].
    intros s1 s2 Hstep. apply (blob_kept_step _ _ Hstep).
Qed.

(** X4.  After any sequence of requests to a server that started empty, no
    key has two consignment records and no key has two media records. *)
Theorem reachable_keys_unique (rs : list Request) :
  keys_unique (serve_all rs empty_server).
Proof.
  apply (serve_all_keeps keys_unique); [exact keys_unique_step|].
  intros k. split; apply Nat.le_0_l.
Qed.

(** X5.  After any sequence of requests to a server that started empty,
    every record names a file that is in its directory, and the digest of
    that file is the name. *)
Theorem reachable_blobs_in_place (rs : list Request) :
  blobs_in_place (serve_all rs empty_server).
Proof.
  apply (serve_all_keeps blobs_in_place); [exact blobs_in_place_step|].
  split; intros x [].
Qed.

(** X6.  After any sequence of requests to a server that started empty,
    the legacy fields of every consignment record agree as far as the
    legacy routes go: [responded] is either absent, and then [nack] is
    absent too, or [true], and then [ack] is set and [nack] is its
    negation. *)
Theorem reachable_legacy_fields_kept (rs : list Request) :
  legacy_fields_kept (serve_all rs empty_server).
Proof.
  apply (serve_all_keeps legacy_fields_kept); [exact legacy_fields_kept_step|].
  intros c [].
Qed.

(** X7.  After any sequence of requests to a server that started empty, a
    get of a key that has a record succeeds: for a consignment record,
    [consignment.get] returns, and [GET /consignment/:blindedutxo]
    answers 200 with, the base64 text of a file whose digest is the
    record's [filename]; for a media record, [media.get] and
    [GET /media/:attachment_id] do the same.  The state is left as it
    is. *)
Theorem stored_artifact_can_be_fetched (rs : list Request) :
  let s := serve_all rs empty_server in
  (forall (pc : JSONRPCParams) (k : string) (c : Consignment),
     getBlindedUTXOParam pc = Return k ->
     findOne_blindedutxo k (ds s) = Some c ->
     exists b,
       fingerprint b = filename c /\
       consignment_get pc s = (Return (base64_encode b), s) /\
       get_consignment_route (Some k) s =
         (Return (mkResponse 200 [("success", JBool true);
                                  ("consignment", JStr (base64_encode b))]),
          s)) /\
  (forall (pm : JSONRPCParams) (a : string) (m : Media),
     getAttachmentIDParam pm = Return a ->
     findOne_attachment_id a (ds s) = Some m ->
     exists b,
       fingerprint b = media_filename m /\
       media_get pm s = (Return (base64_encode b), s) /\
       get_media_route (Some a) s =
         (Return (mkResponse 200 [("success", JBool true);
                                  ("media", JStr (base64_encode b))]), s)).
Proof.
  intros s.
  destruct (serve_all_keeps blobs_in_place blobs_in_place_step rs empty_server)
    as [Hcs Hms]; [split; intros x []|].
  split; [intros pc k c Hk Hc | intros pm a m Ha Hm].
  - destruct (Hcs c (findOne_blindedutxo_In _ _ _ Hc)) as (b & Hb & Hfp).
    exists b. repeat apply conj.
    + exact Hfp.
    + exact (consignment_get_found pc s k c b Hk Hc Hb).
    + exact (get_consignment_route_found s k c b
               (getBlindedUTXOParam_nonempty _ _ Hk) Hc Hb).
  - destruct (Hms m (findOne_attachment_id_In _ _ _ Hm)) as (b & Hb & Hfp).
    exists b. repeat apply conj.
    + exact Hfp.
    + exact (media_get_found pm s a m b Ha Hm Hb).
    + exact (get_media_route_found s a m b
               (getAttachmentIDParam_nonempty _ _ Ha) Hm Hb).
Qed.

(** ** Reading *)


(** ** The acknowledgment, set and read back *)

Lemma ack_get_found (p : JSONRPCParams) (s : Server) (k : string)
    (c : Consignment) :
  getBlindedUTXOParam p = Return k ->
  findOne_blindedutxo k (ds s) = Some c ->
  ack_get p s = (Return (ack c), s).
Proof.
  intros Hk Hc. unfold ack_get. unfold_monad.
  rewrite (getConsignment_found _ _ _ _ Hk Hc). reflexivity.
Qed.

Lemma ack_post_undecided (p : JSONRPCParams) (s : Server) (k : string)
    (v : bool) (c : Consignment) :
  getBlindedUTXOParam p = Return k ->
  getAckParam p = Return v ->
  findOne_blindedutxo k (ds s) = Some c ->
  ack c = None ->
  ack_post p s =
  (Return true, set_ds (update_blindedutxo k (set_ack v) (ds s)) s).
Proof.
  intros Hk Hv Hc Hack. unfold ack_post. unfold_monad.
  rewrite (getConsignment_found _ _ _ _ Hk Hc), Hv, Hack,
    (findOne_blindedutxo_key _ _ _ Hc). reflexivity.
Qed.

Lemma ack_post_decided (p : JSONRPCParams) (s : Server) (k : string)
    (v current : bool) (c : Consignment) :
  getBlindedUTXOParam p = Return k ->
  getAckParam p = Return v ->
  findOne_blindedutxo k (ds s) = Some c ->
  ack c = Some current ->
  ack_post p s =
  (if Bool.eqb current v then Return false else Throw CannotChangeAck, s).
Proof.
  intros Hk Hv Hc Hack. unfold ack_post. unfold_monad.
  rewrite (getConsignment_found _ _ _ _ Hk Hc), Hv, Hack.
  destruct (Bool.eqb current v); reflexivity.
Qed.

Lemma rpc_without_part (method : string) (p : JSONRPCParams) (now : Q)
    (s s' : Server) (o : Outcome RpcResult) :
  call_method method p None now s = (o, s') ->
  post_json_rpc method p None now s = (Return (response_of o), s').
Proof. intros Hcall. apply (post_json_rpc_run method p None now s s' o Hcall). Qed.

(** X9.  For a stored consignment without an acknowledgment, [ack.get]
    returns no value; once [ack.post] has recorded [v], [ack.get] returns
    [v], and [ack.post] with [v] again returns [false] and changes
    nothing. *)
Theorem ack_post_then_ack_get (p : JSONRPCParams) (s : Server) (k : string)
    (v : bool) (c : Consignment) (now : Q) :
  getBlindedUTXOParam p = Return k ->
  getAckParam p = Return v ->
  findOne_blindedutxo k (ds s) = Some c ->
  ack c = None ->
  post_json_rpc "ack.get" p None now s = (Return (RpcSuccess ResUndefined), s) /\
  exists s1,
    post_json_rpc "ack.post" p None now s =
      (Return (RpcSuccess (ResBool true)), s1) /\
    post_json_rpc "ack.get" p None now s1 =
      (Return (RpcSuccess (ResBool v)), s1) /\
    post_json_rpc "ack.post" p None now s1 =
      (Return (RpcSuccess (ResBool false)), s1).
Proof.
  intros Hk Hv Hc Hack.
  set (s1 := set_ds (update_blindedutxo k (set_ack v) (ds s)) s).
  assert (Hc1 : findOne_blindedutxo k (ds s1) = Some (set_ack v c))
    by (simpl; rewrite (findOne_update_same _ (set_ack_key v)), Hc; reflexivity).
  split; [|exists s1; repeat apply conj].
  - erewrite rpc_without_part;
      [|rewrite call_ack_get, fmap_run, (ack_get_found _ _ _ _ Hk Hc);
        reflexivity].
    rewrite Hack. reflexivity.
  - erewrite rpc_without_part;
      [|rewrite call_ack_post, fmap_run,
          (ack_post_undecided _ _ _ _ _ Hk Hv Hc Hack); reflexivity].
    reflexivity.
  - erewrite rpc_without_part;
      [|rewrite call_ack_get, fmap_run, (ack_get_found _ _ _ _ Hk Hc1);
        reflexivity].
    reflexivity.
  - erewrite rpc_without_part;
      [|rewrite call_ack_post, fmap_run,
          (ack_post_decided _ _ _ v v _ Hk Hv Hc1 eq_refl), Bool.eqb_reflx;
        reflexivity].
    reflexivity.
Qed.

Lemma ack_params_key (k : string) (v : bool) :
  k <> "" -> getBlindedUTXOParam (ack_params k v) = Return k.
Proof.
  intros Hk. unfold getBlindedUTXOParam, ack_params. simpl.
  destruct (String.eqb_spec k "") as [Heq|_]; [contradiction | reflexivity].
Qed.

Lemma ack_params_ack (k : string) (v : bool) :
  getAckParam (ack_params k v) = Return v.
Proof. reflexivity. Qed.

Lemma blinded_utxo_params_key (k : string) :
  k <> "" -> getBlindedUTXOParam (blinded_utxo_params k) = Return k.
Proof.
  intros Hk. unfold getBlindedUTXOParam, blinded_utxo_params. simpl.
  destruct (String.eqb_spec k "") as [Heq|_]; [contradiction | reflexivity].
Qed.

Lemma get_ack_route_found (s : Server) (k : string) (c : Consignment) :
  k <> "" ->
  findOne_blindedutxo k (ds s) = Some c ->
  get_ack_route (Some k) s =
  (Return (mkResponse 200 [("success", JBool true);
                           ("ack", JBool (truthy (JBool <$> ack c)));
                           ("nack", JBool (truthy (JBool <$> nack c)))]), s).
Proof.
  intros Hk Hc. unfold get_ack_route, or_500. unfold_monad.
  rewrite (given_nonempty _ Hk), Hc. reflexivity.
Qed.

(** X10.  Once a legacy route has answered a consignment, the answer
    stands on both surfaces.  For a stored consignment that no legacy
    route has answered, [POST /ack] answers 200; after it
    [GET /ack/:blindedutxo] shows [ack: true, nack: false] and [ack.get]
    returns [true]; [POST /ack] and [POST /nack] answer 403, [ack.post]
    with [false] fails with [CannotChangeAck], [ack.post] with [true]
    returns [false], and none of them changes the state.  The same holds
    after [POST /nack], with the values exchanged. *)
Theorem legacy_answer_is_final (s : Server) (k : string) (c : Consignment)
    (v : bool) :
  k <> "" ->
  findOne_blindedutxo k (ds s) = Some c ->
  responded c <> Some true ->
  let answer := if v then post_ack_route else post_nack_route in
  let refused := mkResponse 403 (failure "Already responded!") in
  exists s1,
    answer (Some k) s = (Return (mkResponse 200 [("success", JBool true)]), s1) /\
    get_ack_route (Some k) s1 =
      (Return (mkResponse 200 [("success", JBool true); ("ack", JBool v);
                               ("nack", JBool (negb v))]), s1) /\
    ack_get (blinded_utxo_params k) s1 = (Return (Some v), s1) /\
    post_ack_route (Some k) s1 = (Return refused, s1) /\
    post_nack_route (Some k) s1 = (Return refused, s1) /\
    ack_post (ack_params k v) s1 = (Return false, s1) /\
    ack_post (ack_params k (negb v)) s1 = (Throw CannotChangeAck, s1).
Proof.
  intros Hk Hc Hr answer refused.
  set (s1 := set_ds (update_blindedutxo k (set_responded v (negb v)) (ds s)) s).
  assert (Hc1 : findOne_blindedutxo k (ds s1) =
                Some (set_responded v (negb v) c)).
  { simpl. rewrite (findOne_update_same _ (set_responded_key v (negb v))), Hc.
    reflexivity. }
  destruct (legacy_routes_not_responded s k c Hk Hc Hr) as [Hack Hnack].
  destruct (legacy_routes_already_responded s1 k _ Hk Hc1 eq_refl)
    as [Hack1 Hnack1].
  exists s1. repeat apply conj.
  - subst answer s1. destruct v; [exact Hack | exact Hnack].
  - rewrite (get_ack_route_found _ _ _ Hk Hc1). simpl.
    destruct v; reflexivity.
  - exact (ack_get_found _ _ _ _ (blinded_utxo_params_key k Hk) Hc1).
  - exact Hack1.
  - exact Hnack1.
  - rewrite (ack_post_decided _ _ _ v v _ (ack_params_key k v Hk)
               (ack_params_ack k v) Hc1 eq_refl), Bool.eqb_reflx.
    reflexivity.
  - rewrite (ack_post_decided _ _ _ (negb v) v _ (ack_params_key k (negb v) Hk)
               (ack_params_ack k (negb v)) Hc1 eq_refl).
    destruct v; reflexivity.
Qed.

(** X11.  A sequence of [ack.post] calls for one stored, undecided
    consignment: the first call returns [true] and its value is the one
    stored at the end; every later call returns [false] if it submits that
    value and fails with [CannotChangeAck] if it submits the other. *)
Theorem first_ack_post_wins (s : Server) (k : string) (c : Consignment)
    (v : bool) (vs : list bool) :
  k <> "" ->
  findOne_blindedutxo k (ds s) = Some c ->
  ack c = None ->
  let s1 := set_ds (update_blindedutxo k (set_ack v) (ds s)) s in
  ack_posts k (v :: vs) s =
    (Return true ::
     List.map (fun v' => if Bool.eqb v v' then Return false
                         else Throw CannotChangeAck) vs,
     s1) /\
  findOne_blindedutxo k (ds s1) = Some (set_ack v c).
Proof.
  intros Hk Hc Hack s1.
  assert (Hc1 : findOne_blindedutxo k (ds s1) = Some (set_ack v c))
    by (simpl; rewrite (findOne_update_same _ (set_ack_key v)), Hc; reflexivity).
  split; [|exact Hc1].
  cbn [ack_posts].
  rewrite (ack_post_undecided _ _ _ _ _ (ack_params_key k v Hk)
             (ack_params_ack k v) Hc Hack).
  fold s1.
  assert (Hrest : ack_posts k vs s1 =
            (List.map (fun v' => if Bool.eqb v v' then Return false
                                 else Throw CannotChangeAck) vs, s1)).
  { induction vs as [|v' vs IH]; [reflexivity|].
    cbn [ack_posts List.map].
    rewrite (ack_post_decided _ _ _ v' v _ (ack_params_key k v' Hk)
               (ack_params_ack k v') Hc1 eq_refl), IH.
    reflexivity. }
  rewrite Hrest. reflexivity.
Qed.

(** ** Uploads *)

(** X12.  An upload request with a well-formed key and no file fails
    before the datastore is looked at and changes nothing: [MissingFile]
    from [consignment.post] and [media.post], 400 from the REST routes,
    whether or not the key already has a record. *)
Theorem upload_without_file (pc pm : JSONRPCParams) (k a : string) (now : Q)
    (s : Server) :
  getBlindedUTXOParam pc = Return k ->
  getAttachmentIDParam pm = Return a ->
  post_json_rpc "consignment.post" pc None now s =
    (Return (RpcError MissingFile), s) /\
  post_json_rpc "media.post" pm None now s =
    (Return (RpcError MissingFile), s) /\
  post_consignment_route (Some k) None s =
    (Return (mkResponse 400 (failure "Consignment file is missing!")), s) /\
  post_media_route (Some a) None s =
    (Return (mkResponse 400 (failure "Media file is missing!")), s).
Proof.
  intros Hk Ha. repeat apply conj.
  - erewrite rpc_without_part;
      [|rewrite call_consignment_post, fmap_run,
          (consignment_post_no_file _ _ _ Hk); reflexivity].
    reflexivity.
  - erewrite rpc_without_part;
      [|rewrite call_media_post, fmap_run, (media_post_no_file _ _ _ Ha);
        reflexivity].
    reflexivity.
  - apply post_consignment_route_no_file,
      (getBlindedUTXOParam_nonempty _ _ Hk).
  - apply post_media_route_no_file, (getAttachmentIDParam_nonempty _ _ Ha).
Qed.

(** X13.  The two surfaces decide an upload alike.  For the same key and
    file, [consignment.post] and [POST /consignment] leave the same
    records and the same blobs, and the REST status follows the JSON-RPC
    outcome: 200 when the method returns a boolean, 403 when it fails with
    [CannotChangeUploadedFile]; likewise for media. *)
Theorem upload_surfaces_agree (pc pm : JSONRPCParams) (k a : string)
    (u : Upload) (now : Q) (s : Server) :
  getBlindedUTXOParam pc = Return k ->
  getAttachmentIDParam pm = Return a ->
  let agree (rpc : Outcome JSONRPCResponse * Server)
            (rest : Outcome Response * Server) :=
    store_unchanged (snd rpc) (snd rest) /\
    ((exists created, fst rpc = Return (RpcSuccess (ResBool created)) /\
                      fst rest = Return (mkResponse 200 [("success", JBool true)])) \/
     (fst rpc = Return (RpcError CannotChangeUploadedFile) /\
      fst rest = Return (mkResponse 403 (failure "Cannot change uploaded file!")))) in
  agree (post_json_rpc "consignment.post" pc (Some u) now s)
        (post_consignment_route (Some k) (Some u) s) /\
  agree (post_json_rpc "media.post" pm (Some u) now s)
        (post_media_route (Some a) (Some u) s).
Proof.
  intros Hk Ha agree. subst agree. cbv beta.
  pose proof (getBlindedUTXOParam_nonempty _ _ Hk) as Hk0.
  pose proof (getAttachmentIDParam_nonempty _ _ Ha) as Ha0.
  split.
  - destruct (findOne_blindedutxo k (ds s)) as [c|] eqn:Hc.
    + destruct (String.eqb_spec (filename c) (fingerprint (upload_content u)))
        as [Heq|Hne].
      * rewrite (rpc_consignment_post_same _ _ _ _ _ now Hk Hc Heq),
          (post_consignment_route_same _ _ _ _ Hk0 Hc Heq).
        split; [repeat split | left; exists false; split; reflexivity].
      * rewrite (rpc_consignment_post_conflict _ _ _ _ _ now Hk Hc Hne),
          (post_consignment_route_conflict _ _ _ _ Hk0 Hc Hne).
        split; [repeat split | right; split; reflexivity].
    + rewrite (rpc_consignment_post_created _ _ _ _ now Hk Hc),
        (post_consignment_route_created _ _ _ Hk0 Hc).
      split; [repeat split | left; exists true; split; reflexivity].
  - destruct (findOne_attachment_id a (ds s)) as [m|] eqn:Hm.
    + destruct (String.eqb_spec (media_filename m) (fingerprint (upload_content u)))
        as [Heq|Hne].
      * rewrite (rpc_media_post_same _ _ _ _ _ now Ha Hm Heq),
          (post_media_route_same _ _ _ _ Ha0 Hm Heq).
        split; [repeat split | left; exists false; split; reflexivity].
      * rewrite (rpc_media_post_conflict _ _ _ _ _ now Ha Hm Hne),
          (post_media_route_conflict _ _ _ _ Ha0 Hm Hne).
        split; [repeat split | right; split; reflexivity].
    + rewrite (rpc_media_post_created _ _ _ _ now Ha Hm),
        (post_media_route_created _ _ _ Ha0 Hm).
      split; [repeat split | left; exists true; split; reflexivity].
Qed.

(** X14.  The same content uploaded under two different keys that had no
    record gives two records that name one blob: the second upload
    returns [true], adds its record and leaves the consignment directory
    as the first upload left it, and a get with either key returns the
    content. *)
Theorem same_content_under_two_keys (p1 p2 : JSONRPCParams) (k1 k2 : string)
    (b : bytes) (t1 t2 : string) (now : Q) (s : Server) :
  getBlindedUTXOParam p1 = Return k1 ->
  getBlindedUTXOParam p2 = Return k2 ->
  k1 <> k2 ->
  findOne_blindedutxo k1 (ds s) = None ->
  findOne_blindedutxo k2 (ds s) = None ->
  exists s1 s2,
    post_json_rpc "consignment.post" p1 (Some (mkUpload t1 b)) now s =
      (Return (RpcSuccess (ResBool true)), s1) /\
    post_json_rpc "consignment.post" p2 (Some (mkUpload t2 b)) now s1 =
      (Return (RpcSuccess (ResBool true)), s2) /\
    consignmentDir s2 = consignmentDir s1 /\
    findOne_blindedutxo k1 (ds s2) = Some (undecided k1 (fingerprint b)) /\
    findOne_blindedutxo k2 (ds s2) = Some (undecided k2 (fingerprint b)) /\
    consignment_get p1 s2 = (Return (base64_encode b), s2) /\
    consignment_get p2 s2 = (Return (base64_encode b), s2).
Proof.
  intros H1 H2 Hne Hf1 Hf2.
  set (s1 := with_consignment (fingerprint b) k1 t1 b s).
  set (s2 := with_consignment (fingerprint b) k2 t2 b s1).
  assert (Hf2' : findOne_blindedutxo k2 (ds s1) = None)
    by (subst s1; rewrite with_consignment_other by congruence; exact Hf2).
  destruct (with_consignment_stored_once (fingerprint b) k1 t1 b s Hf1)
    as (_ & Hr1 & Hb1 & _).
  destruct (with_consignment_stored_once (fingerprint b) k2 t2 b s1 Hf2')
    as (_ & Hr2 & Hb2 & _).
  assert (Hr1' : findOne_blindedutxo k1 (ds s2) =
                 Some (undecided k1 (fingerprint b)))
    by (subst s2; rewrite with_consignment_other by exact Hne; exact Hr1).
  exists s1, s2. repeat apply conj.
  - exact (rpc_consignment_post_created p1 s k1 (mkUpload t1 b) now H1 Hf1).
  - exact (rpc_consignment_post_created p2 s1 k2 (mkUpload t2 b) now H2 Hf2').
  - simpl. apply insert_insert_eq.
  - exact Hr1'.
  - exact Hr2.
  - exact (consignment_get_found p1 s2 k1 _ b H1 Hr1' Hb2).
  - exact (consignment_get_found p2 s2 k2 _ b H2 Hr2 Hb2).
Qed.

(** X15.  Consignments and media do not meet, though they share the
    datastore: after a consignment has been stored under a key, a media
    get with the same key still fails with [NotFoundMedia] (404 on REST),
    and a media upload under that key, of any content, is a creation. *)
Theorem namespaces_are_separate (pc pm : JSONRPCParams) (k : string)
    (b b' : bytes) (t t' : string) (now : Q) (s : Server) :
  getBlindedUTXOParam pc = Return k ->
  getAttachmentIDParam pm = Return k ->
  findOne_blindedutxo k (ds s) = None ->
  findOne_attachment_id k (ds s) = None ->
  exists s1 s2,
    post_json_rpc "consignment.post" pc (Some (mkUpload t b)) now s =
      (Return (RpcSuccess (ResBool true)), s1) /\
    post_json_rpc "media.get" pm None now s1 =
      (Return (RpcError NotFoundMedia), s1) /\
    get_media_route (Some k) s1 =
      (Return (mkResponse 404 (failure "No media found!")), s1) /\
    post_json_rpc "media.post" pm (Some (mkUpload t' b')) now s1 =
      (Return (RpcSuccess (ResBool true)), s2) /\
    findOne_blindedutxo k (ds s2) = Some (undecided k (fingerprint b)) /\
    findOne_attachment_id k (ds s2) = Some (mkMedia (fingerprint b') k).
Proof.
  intros Hk Ha Hfc Hfm.
  set (s1 := with_consignment (fingerprint b) k t b s).
  assert (Hfm1 : findOne_attachment_id k (ds s1) = None).
  { subst s1. simpl. rewrite findOne_attachment_id_insert, Hfm. reflexivity. }
  destruct (with_consignment_stored_once (fingerprint b) k t b s Hfc)
    as (_ & Hr1 & _).
  destruct (with_media_stored_once (fingerprint b') k t' b' s1 Hfm1)
    as (_ & Hm2 & _).
  exists s1, (with_media (fingerprint b') k t' b' s1). repeat apply conj.
  - exact (rpc_consignment_post_created pc s k (mkUpload t b) now Hk Hfc).
  - erewrite rpc_without_part;
      [|rewrite call_media_get, fmap_run, (media_get_not_found _ _ _ Ha Hfm1);
        reflexivity].
    reflexivity.
  - exact (get_media_route_not_found s1 k
             (getAttachmentIDParam_nonempty _ _ Ha) Hfm1).
  - exact (rpc_media_post_created pm s1 k (mkUpload t' b') now Ha Hfm1).
  - change (ds (with_media (fingerprint b') k t' b' s1)) with
      (insert_doc (DocMedia (mkMedia (fingerprint b') k)) (ds s1)).
    rewrite findOne_blindedutxo_insert. subst s1. rewrite Hr1. reflexivity.
  - exact Hm2.
Qed.

(** ** The staging directory *)

Lemma consignment_post_tempDir (p : JSONRPCParams) (file : option string)
    (s : Server) :
  tempDir (snd (consignment_post p file s)) = tempDir s \/
  tempDir (snd (consignment_post p file s)) = tempDir (cleaned file s).
Proof.
  destruct (getBlindedUTXOParam p) as [k|e] eqn:Hk.
  2:{ rewrite (consignment_post_invalid _ _ _ _ Hk). auto. }
  destruct file as [f|].
  2:{ rewrite (consignment_post_no_file _ _ _ Hk). auto. }
  destruct (tempDir s !! f) as [b|] eqn:Hf.
  2:{ rewrite (consignment_post_enoent _ _ _ _ Hk Hf). auto. }
  destruct (findOne_blindedutxo k (ds s)) as [c|] eqn:Hc.
  - destruct (String.eqb_spec (filename c) (fingerprint b)) as [Heq|Hne].
    + rewrite (consignment_post_same _ _ _ _ _ _ Hk Hf Hc Heq). auto.
    + rewrite (consignment_post_conflict _ _ _ _ _ _ Hk Hf Hc Hne). auto.
  - rewrite (consignment_post_created _ _ _ _ _ Hk Hf Hc). auto.
Qed.

Lemma media_post_tempDir (p : JSONRPCParams) (file : option string)
    (s : Server) :
  tempDir (snd (media_post p file s)) = tempDir s \/
  tempDir (snd (media_post p file s)) = tempDir (cleaned file s).
Proof.
  destruct (getAttachmentIDParam p) as [k|e] eqn:Hk.
  2:{ rewrite (media_post_invalid _ _ _ _ Hk). auto. }
  destruct file as [f|].
  2:{ rewrite (media_post_no_file _ _ _ Hk). auto. }
  destruct (tempDir s !! f) as [b|] eqn:Hf.
  2:{ rewrite (media_post_enoent _ _ _ _ Hk Hf). auto. }
  destruct (findOne_attachment_id k (ds s)) as [m|] eqn:Hm.
  - destruct (String.eqb_spec (media_filename m) (fingerprint b)) as [Heq|Hne].
    + rewrite (media_post_same _ _ _ _ _ _ Hk Hf Hm Heq). auto.
    + rewrite (media_post_conflict _ _ _ _ _ _ Hk Hf Hm Hne). auto.
  - rewrite (media_post_created _ _ _ _ _ Hk Hf Hm). auto.
Qed.

Lemma ack_post_tempDir (p : JSONRPCParams) (s : Server) :
  tempDir (snd (ack_post p s)) = tempDir s.
Proof.
  unfold ack_post, getConsignment. unfold_monad.
  destruct (getBlindedUTXOParam p) as [k|e]; simpl; [|reflexivity].
  destruct (findOne_blindedutxo k (ds s)) as [c|]; simpl; [|reflexivity].
  destruct (getAckParam p) as [v|e]; simpl; [|reflexivity].
  destruct (ack c) as [current|]; simpl; [|reflexivity].
  destruct (Bool.eqb current v); reflexivity.
Qed.

Lemma call_method_tempDir (method : string) (p : JSONRPCParams)
    (file : option string) (now : Q) (s : Server) :
  tempDir (snd (call_method method p file now s)) = tempDir s \/
  tempDir (snd (call_method method p file now s)) = tempDir (cleaned file s).
Proof.
  unfold call_method.
  repeat match goal with
         | |- context [if String.eqb method ?m then _ else _] =>
             destruct (String.eqb method m)
         end;
    rewrite ?fmap_snd.
  - auto.
  - rewrite consignment_get_state. auto.
  - apply consignment_post_tempDir.
  - rewrite media_get_state. auto.
  - apply media_post_tempDir.
  - rewrite ack_get_state. auto.
  - rewrite ack_post_tempDir. auto.
  - auto.
Qed.

Lemma post_json_rpc_tempDir (method : string) (p : JSONRPCParams)
    (part : option Upload) (now : Q) (s : Server) :
  tempDir (snd (post_json_rpc method p part now s)) =
  match part with
  | Some u => delete (upload_filename u) (tempDir s)
  | None => tempDir s
  end.
Proof.
  pose proof (call_method_tempDir method p (upload_filename <$> part) now
                (staged part s)) as Htmp.
  destruct (call_method method p (upload_filename <$> part) now (staged part s))
    as [o s'] eqn:Hcall.
  rewrite (post_json_rpc_run _ _ _ _ _ _ _ Hcall). simpl in Htmp |- *.
  destruct part as [u|]; simpl in *.
  - destruct Htmp as [-> | ->].
    + apply delete_insert_eq.
    + rewrite delete_delete_eq. apply delete_insert_eq.
  - destruct Htmp as [-> | ->]; reflexivity.
Qed.


(** ** The REST routes on a missing field *)

(** X17.  A key field that is absent or empty is answered 400 by every
    legacy route that takes one, before anything is looked up: no record
    and no blob changes, and an uploaded part stays in the staging
    directory. *)
Theorem rest_missing_field (x : option string) (part : option Upload)
    (s : Server) :
  given x = None ->
  let missing field := mkResponse 400 (failure (field +:+ " missing!")) in
  get_consignment_route x s = (Return (missing "blindedutxo"), s) /\
  post_consignment_route x part s =
    (Return (missing "blindedutxo"), staged part s) /\
  get_media_route x s = (Return (missing "attachment_id"), s) /\
  post_media_route x part s =
    (Return (missing "attachment_id"), staged part s) /\
  post_ack_route x s = (Return (missing "blindedutxo"), s) /\
  post_nack_route x s = (Return (missing "blindedutxo"), s) /\
  get_ack_route x s = (Return (missing "blindedutxo"), s).
Proof.
  intros Hg missing. subst missing. repeat apply conj.
  - unfold get_consignment_route, or_500. unfold_monad. rewrite Hg. reflexivity.
  - apply (post_consignment_route_no_key _ _ _ Hg).
  - unfold get_media_route, or_500. unfold_monad. rewrite Hg. reflexivity.
  - apply (post_media_route_no_key _ _ _ Hg).
  - unfold post_ack_route, or_500. unfold_monad. rewrite Hg. reflexivity.
  - unfold post_nack_route, or_500. unfold_monad. rewrite Hg. reflexivity.
  - unfold get_ack_route, or_500. unfold_monad. rewrite Hg. reflexivity.
Qed.

(** X18.  A key that has no record is answered 404 by the legacy routes
    and changes nothing; [POST /nack] alone gives no error message. *)
Theorem rest_unknown_key (k : string) (s : Server) :
  k <> "" ->
  findOne_blindedutxo k (ds s) = None ->
  let not_found := mkResponse 404 (failure "No consignment found!") in
  get_consignment_route (Some k) s = (Return not_found, s) /\
  post_ack_route (Some k) s = (Return not_found, s) /\
  post_nack_route (Some k) s =
    (Return (mkResponse 404 [("success", JBool false)]), s) /\
  get_ack_route (Some k) s = (Return not_found, s) /\
  ack_get (blinded_utxo_params k) s = (Throw NotFoundConsignment, s) /\
  ack_post (ack_params k true) s = (Throw NotFoundConsignment, s).
Proof.
  intros Hk Hnone not_found. subst not_found. repeat apply conj.
  - apply (get_consignment_route_not_found _ _ Hk Hnone).
  - unfold post_ack_route, or_500. unfold_monad.
    rewrite (given_nonempty _ Hk), Hnone. reflexivity.
  - unfold post_nack_route, or_500. unfold_monad.
    rewrite (given_nonempty _ Hk), Hnone. reflexivity.
  - unfold get_ack_route, or_500. unfold_monad.
    rewrite (given_nonempty _ Hk), Hnone. reflexivity.
  - unfold ack_get. unfold_monad.
    rewrite (getConsignment_not_found _ _ _ (blinded_utxo_params_key k Hk) Hnone).
    reflexivity.
  - unfold ack_post. unfold_monad.
    rewrite (getConsignment_not_found _ _ _ (ack_params_key k true Hk) Hnone).
    reflexivity.
Qed.

(** ** The log lines *)

Lemma string_length_append (a b : string) :
  String.length (a +:+ b) = String.length a + String.length b.
Proof. induction a as [|x a IH]; simpl; [reflexivity | rewrite IH; reflexivity]. Qed.

Lemma string_append_nil_r (a : string) : a +:+ "" = a.
Proof.
  induction a as [|x a IH]; [reflexivity|].
  change (String x (a +:+ "") = String x a). f_equal. exact IH.
Qed.

Lemma string_append_assoc (a b c : string) : (a +:+ b) +:+ c = a +:+ (b +:+ c).
Proof.
  induction a as [|x a IH]; [reflexivity|].
  change (String x ((a +:+ b) +:+ c) = String x (a +:+ (b +:+ c))).
  f_equal. exact IH.
Qed.

Lemma substring_0_length (n : nat) (s : string) :
  n <= String.length s -> String.length (String.substring 0 n s) = n.
Proof.
  revert s. induction n as [|n IH]; intros s Hn.
  - destruct s; reflexivity.
  - destruct s as [|x s]; simpl in *; [lia|]. rewrite IH by lia. reflexivity.
Qed.

Lemma substring_0_append (a b : string) :
  String.substring 0 (String.length a) (a +:+ b) = a.
Proof.
  induction a as [|x a IH]; simpl.
  - destruct b; reflexivity.
  - rewrite IH. reflexivity.
Qed.

Lemma truncateText_short (content : string) (limit : nat) :
  String.length content <= limit -> truncateText content limit = content.
Proof.
  intros Hlen. unfold truncateText, truthy.
  destruct (String.eqb_spec content "") as [->|_]; simpl; [reflexivity|].
  destruct (Nat.leb_spec (String.length content) limit); [reflexivity | lia].
Qed.

Lemma truncateText_long (content : string) (limit : nat) :
  limit < String.length content ->
  truncateText content limit = String.substring 0 limit content +:+ "...".
Proof.
  intros Hlen. unfold truncateText, truthy.
  destruct (String.eqb_spec content "") as [->|_]; simpl in *; [lia|].
  destruct (Nat.leb_spec (String.length content) limit); [lia | reflexivity].
Qed.

Lemma truncateText_length (content : string) (limit : nat) :
  String.length (truncateText content limit) <= limit + 3.
Proof.
  destruct (Nat.le_gt_cases (String.length content) limit) as [Hle|Hgt].
  - rewrite (truncateText_short _ _ Hle). lia.
  - rewrite (truncateText_long _ _ Hgt), string_length_append,
      substring_0_length by lia. simpl. lia.
Qed.

Lemma substring_0_split (n : nat) (s : string) :
  n <= String.length s ->
  exists tail, s = String.substring 0 n s +:+ tail.
Proof.
  revert s. induction n as [|n IH]; intros s Hn.
  - exists s. destruct s; reflexivity.
  - destruct s as [|x s]; simpl in *; [lia|].
    destruct (IH s ltac:(lia)) as [tail Htail].
    exists tail. change (String x s = String x (String.substring 0 n s +:+ tail)).
    f_equal. exact Htail.
Qed.

(** X19.  [truncateText] leaves a content of at most [limit] characters as
    it is, and cuts a longer one after its first [limit] characters and
    puts three dots behind them (the result is then [limit + 3] characters
    long).  Either way the result is at most [limit + 3] characters and
    its first [limit] characters are those of the content. *)
Theorem truncateText_prefix_then_dots (content : string) (limit : nat) :
  (String.length content <= limit -> truncateText content limit = content) /\
  (limit < String.length content ->
   exists head tail,
     content = head +:+ tail /\
     String.length head = limit /\
     truncateText content limit = head +:+ "..." /\
     String.length (truncateText content limit) = limit + 3) /\
  String.length (truncateText content limit) <= limit + 3 /\
  String.substring 0 limit (truncateText content limit) =
  String.substring 0 limit content.
Proof.
  repeat apply conj.
  - apply truncateText_short.
  - intros Hgt.
    pose proof (substring_0_length limit content ltac:(lia)) as Hlen.
    destruct (substring_0_split limit content ltac:(lia)) as [tail Htail].
    exists (String.substring 0 limit content), tail.
    repeat apply conj; [exact Htail | exact Hlen | apply truncateText_long, Hgt |].
    rewrite (truncateText_long _ _ Hgt), string_length_append, Hlen.
    reflexivity.
  - apply truncateText_length.
  - destruct (Nat.le_gt_cases (String.length content) limit) as [Hle|Hgt].
    + rewrite (truncateText_short _ _ Hle). reflexivity.
    + rewrite (truncateText_long _ _ Hgt).
      pose proof (substring_0_length limit content ltac:(lia)) as Hlen.
      rewrite <- Hlen at 1. apply substring_0_append.
Qed.

(** X20.  Truncating twice is truncating once. *)
Theorem truncateText_idempotent (content : string) (limit : nat) :
  truncateText (truncateText content limit) limit = truncateText content limit.
Proof.
  destruct (Nat.le_gt_cases (String.length content) limit) as [Hle|Hgt].
  - rewrite (truncateText_short _ _ Hle). apply (truncateText_short _ _ Hle).
  - rewrite (truncateText_long _ _ Hgt).
    pose proof (substring_0_length limit content ltac:(lia)) as Hlen.
    rewrite truncateText_long
      by (rewrite string_length_append, Hlen; simpl; lia).
    f_equal. rewrite <- Hlen at 1. apply substring_0_append.
Qed.

Lemma joinEntries_fold (render_number : Z -> string)
    (entries : list (string * JValue)) (joined : string) :
  fold_left (joinEntries_step render_number) entries
    (joined, Z.of_nat (length entries)) =
  (joined +:+
   String.concat ", "
     (List.map (fun e => fst e +:+ ": " +:+ entry_value render_number (snd e))
        entries),
   0%Z).
Proof.
  revert joined. induction entries as [|[k v] entries IH]; intros joined.
  - simpl. rewrite string_append_nil_r. reflexivity.
  - cbn [fold_left length joinEntries_step].
    replace (Z.of_nat (S (length entries)) - 1)%Z
      with (Z.of_nat (length entries)) by lia.
    destruct entries as [|e entries].
    + reflexivity.
    + destruct (Z.ltb_spec 0 (Z.of_nat (length (e :: entries))));
        [|simpl in *; lia].
      rewrite IH. cbn [List.map String.concat fst snd].
      rewrite !string_append_assoc. reflexivity.
Qed.

(** The text of a value in the log: a string of at most 16 characters as
    it is, a longer one cut after 16 characters with three dots behind
    them, [null], [true], [false] and a number by name, an array or an
    object as the template literal converts it. *)
Lemma entry_value_shown (render_number : Z -> string) (v : JValue) :
  entry_value render_number v =
  match v with
  | JStr s =>
      if Nat.leb (String.length s) 16 then s
      else String.substring 0 16 s +:+ "..."
  | JNull => "null"
  | JBool b => if b then "true" else "false"
  | JNum n => render_number n
  | JArr _ | JObj _ => ToString render_number v
  end.
Proof.
  destruct v as [| b | n | s | l | o]; try reflexivity.
  change (truncateText s 16 =
          if Nat.leb (String.length s) 16 then s
          else String.substring 0 16 s +:+ "...").
  destruct (Nat.leb_spec (String.length s) 16) as [Hle|Hgt].
  - apply truncateText_short, Hle.
  - apply truncateText_long, Hgt.
Qed.



(** ** The clock *)

(** X23.  The uptime that [server.info] and [GET /getinfo] report for a
    clock reading that is not negative is the same whole number of
    seconds, the largest that is not above the reading. *)
Theorem uptime_is_whole_seconds (now : Q) (s : Server) :
  (0 <= now)%Q ->
  exists u : Z,
    server_info now s =
      (Return {| version := APP_VERSION; protocol_version := "0.1";
                 uptime := u |}, s) /\
    getinfo_route now s =
      (Return (mkResponse 200 [("version", JStr APP_VERSION);
                               ("uptime", JNum u)]), s) /\
    (inject_Z u <= now)%Q /\ (now < inject_Z (u + 1))%Q.
Proof.
  intros Hnow. exists (Math_trunc now).
  destruct (Math_trunc_nonneg now Hnow) as [Hle Hlt].
  repeat apply conj; [reflexivity | reflexivity | exact Hle | exact Hlt].
Qed.

(** ** A record whose file is gone *)

(** X24.  If the file a record names is not in its directory, a get of the
    key fails without changing anything.  For a consignment record:
    [consignment.get] fails with the file-system error and
    [GET /consignment/:blindedutxo] answers 500 without a message; for a
    media record: [media.get] and [GET /media/:attachment_id] do the
    same. *)
Theorem get_with_missing_file (s : Server) :
  (forall (pc : JSONRPCParams) (k : string) (c : Consignment),
     getBlindedUTXOParam pc = Return k ->
     findOne_blindedutxo k (ds s) = Some c ->
     consignmentDir s !! filename c = None ->
     consignment_get pc s = (Throw ENOENT, s) /\
     get_consignment_route (Some k) s =
       (Return (mkResponse 500 [("success", JBool false)]), s)) /\
  (forall (pm : JSONRPCParams) (a : string) (m : Media),
     getAttachmentIDParam pm = Return a ->
     findOne_attachment_id a (ds s) = Some m ->
     mediaDir s !! media_filename m = None ->
     media_get pm s = (Throw ENOENT, s) /\
     get_media_route (Some a) s =
       (Return (mkResponse 500 [("success", JBool false)]), s)).
Proof.
  split; [intros pc k c Hk Hc Hfc | intros pm a m Ha Hm Hfm].
  1: pose proof (getBlindedUTXOParam_nonempty _ _ Hk) as Hk0.
  2: pose proof (getAttachmentIDParam_nonempty _ _ Ha) as Ha0.
  all: split.
  - unfold consignment_get, readFileSync. unfold_monad.
    rewrite (getConsignment_found _ _ _ _ Hk Hc). simpl. rewrite Hfc.
    reflexivity.
  - unfold get_consignment_route, or_500, readFileSync. unfold_monad.
    rewrite (given_nonempty _ Hk0), Hc. simpl. rewrite Hfc. reflexivity.
  - unfold media_get, readFileSync. unfold_monad.
    rewrite Ha. simpl. rewrite Hm. simpl. rewrite Hfm. reflexivity.
  - unfold get_media_route, or_500, readFileSync. unfold_monad.
    rewrite (given_nonempty _ Ha0), Hm. simpl. rewrite Hfm. reflexivity.
Qed.

(** ** Serving a request again *)

Lemma store_unchanged_trans (s t u : Server) :
  store_unchanged s t -> store_unchanged t u -> store_unchanged s u.
Proof. intros (H1 & H2 & H3) (H4 & H5 & H6). repeat split; congruence. Qed.

Lemma store_unchanged_cleaned_both (f : option string) (s t : Server) :
  store_unchanged s t -> store_unchanged (cleaned f s) (cleaned f t).
Proof. intros H. destruct f; exact H. Qed.

Lemma consignment_post_twice (p : JSONRPCParams) (part : option Upload)
    (s : Server) :
  let f := upload_filename <$> part in
  let s1 := snd (consignment_post p f (staged part s)) in
  store_unchanged s1 (snd (consignment_post p f (staged part (cleaned f s1)))).
Proof.
  intros f s1. subst f s1.
  destruct (getBlindedUTXOParam p) as [k|e] eqn:Hk.
  2:{ rewrite !(consignment_post_invalid _ _ _ _ Hk).
      destruct part; repeat split. }
  destruct part as [u|]; simpl fmap.
  2:{ rewrite !(consignment_post_no_file _ _ _ Hk). repeat split. }
  change (upload_filename <$> Some u) with (Some (upload_filename u)).
  pose proof (staged_lookup u s) as Hf.
  destruct (findOne_blindedutxo k (ds s)) as [c|] eqn:Hc.
  - destruct (String.eqb_spec (filename c) (fingerprint (upload_content u)))
      as [Heq|Hne].
    + rewrite (consignment_post_same p (staged (Some u) s) _ _ _ _ Hk Hf Hc Heq).
      erewrite consignment_post_same;
        [repeat split | exact Hk | apply staged_lookup | exact Hc | exact Heq].
    + rewrite (consignment_post_conflict p (staged (Some u) s) _ _ _ _ Hk Hf Hc Hne).
      erewrite consignment_post_conflict;
        [repeat split | exact Hk | apply staged_lookup | exact Hc | exact Hne].
  - rewrite (consignment_post_created p (staged (Some u) s) _ _ _ Hk Hf Hc).
    destruct (with_consignment_stored_once (fingerprint (upload_content u)) k
                (upload_filename u) (upload_content u) (staged (Some u) s) Hc)
      as (_ & Hrec & _).
    erewrite consignment_post_same;
      [repeat split | exact Hk | apply staged_lookup | exact Hrec | reflexivity].
Qed.

Lemma media_post_twice (p : JSONRPCParams) (part : option Upload) (s : Server) :
  let f := upload_filename <$> part in
  let s1 := snd (media_post p f (staged part s)) in
  store_unchanged s1 (snd (media_post p f (staged part (cleaned f s1)))).
Proof.
  intros f s1. subst f s1.
  destruct (getAttachmentIDParam p) as [k|e] eqn:Hk.
  2:{ rewrite !(media_post_invalid _ _ _ _ Hk). destruct part; repeat split. }
  destruct part as [u|]; simpl fmap.
  2:{ rewrite !(media_post_no_file _ _ _ Hk). repeat split. }
  change (upload_filename <$> Some u) with (Some (upload_filename u)).
  pose proof (staged_lookup u s) as Hf.
  destruct (findOne_attachment_id k (ds s)) as [m|] eqn:Hm.
  - destruct (String.eqb_spec (media_filename m) (fingerprint (upload_content u)))
      as [Heq|Hne].
    + rewrite (media_post_same p (staged (Some u) s) _ _ _ _ Hk Hf Hm Heq).
      erewrite media_post_same;
        [repeat split | exact Hk | apply staged_lookup | exact Hm | exact Heq].
    + rewrite (media_post_conflict p (staged (Some u) s) _ _ _ _ Hk Hf Hm Hne).
      erewrite media_post_conflict;
        [repeat split | exact Hk | apply staged_lookup | exact Hm | exact Hne].
  - rewrite (media_post_created p (staged (Some u) s) _ _ _ Hk Hf Hm).
    destruct (with_media_stored_once (fingerprint (upload_content u)) k
                (upload_filename u) (upload_content u) (staged (Some u) s) Hm)
      as (_ & Hrec & _).
    erewrite media_post_same;
      [repeat split | exact Hk | apply staged_lookup | exact Hrec | reflexivity].
Qed.

Lemma ack_post_twice (p : JSONRPCParams) (part : option Upload) (s : Server) :
  let f := upload_filename <$> part in
  let s1 := snd (ack_post p (staged part s)) in
  store_unchanged s1 (snd (ack_post p (staged part (cleaned f s1)))).
Proof.
  intros f s1. subst f s1.
  destruct (getBlindedUTXOParam p) as [k|e] eqn:Hk.
  2:{ unfold ack_post. unfold_monad.
      rewrite !(getConsignment_invalid _ _ _ Hk). destruct part; repeat split. }
  destruct (findOne_blindedutxo k (ds s)) as [c|] eqn:Hc.
  2:{ unfold ack_post. unfold_monad.
      rewrite (getConsignment_not_found p (staged part s) k Hk)
        by (destruct part; exact Hc). simpl.
      rewrite (getConsignment_not_found p _ k Hk)
        by (destruct part; exact Hc).
      destruct part; repeat split. }
  assert (Hc0 : findOne_blindedutxo k (ds (staged part s)) = Some c)
    by (destruct part; exact Hc).
  destruct (getAckParam p) as [v|e] eqn:Hv.
  2:{ unfold ack_post. unfold_monad.
      rewrite (getConsignment_found p (staged part s) k c Hk Hc0), Hv. simpl.
      rewrite (getConsignment_found p _ k c Hk)
        by (destruct part; exact Hc).
      destruct part; repeat split. }
  destruct (ack c) as [current|] eqn:Hack.
  - rewrite (ack_post_decided _ _ _ _ _ _ Hk Hv Hc0 Hack). simpl.
    rewrite (ack_post_decided p _ k v current c Hk Hv)
      by (destruct part; assumption).
    destruct part; repeat split.
  - rewrite (ack_post_undecided _ _ _ _ _ Hk Hv Hc0 Hack). simpl.
    assert (Hc1 : findOne_blindedutxo k
              (update_blindedutxo k (set_ack v) (ds (staged part s))) =
              Some (set_ack v c))
      by (rewrite (findOne_update_same _ (set_ack_key v)), Hc0; reflexivity).
    rewrite (ack_post_decided p _ k v v (set_ack v c) Hk Hv)
      by (destruct part; simpl in *; auto).
    destruct part; repeat split.
Qed.

Lemma call_method_twice (method : string) (p : JSONRPCParams)
    (part : option Upload) (now : Q) (s : Server) :
  let f := upload_filename <$> part in
  let s1 := snd (call_method method p f now (staged part s)) in
  store_unchanged s1 (snd (call_method method p f now (staged part (cleaned f s1)))).
Proof.
  intros f s1. subst f s1. unfold call_method.
  repeat match goal with
         | |- context [if String.eqb method ?m then _ else _] =>
             destruct (String.eqb method m)
         end;
    rewrite ?fmap_snd.
  - destruct part; repeat split.
  - rewrite !consignment_get_state. destruct part; repeat split.
  - apply consignment_post_twice.
  - rewrite !media_get_state. destruct part; repeat split.
  - apply media_post_twice.
  - rewrite !ack_get_state. destruct part; repeat split.
  - apply ack_post_twice.
  - destruct part; repeat split.
Qed.

Lemma serve_json_rpc (method : string) (p : JSONRPCParams)
    (part : option Upload) (now : Q) (s : Server) :
  serve (JsonRpc method p part now) s =
  cleaned (upload_filename <$> part)
    (snd (call_method method p (upload_filename <$> part) now (staged part s))).
Proof.
  simpl serve.
  destruct (call_method method p (upload_filename <$> part) now (staged part s))
    as [o s'] eqn:Hcall.
  rewrite (post_json_rpc_run _ _ _ _ _ _ _ Hcall). reflexivity.
Qed.

Lemma post_consignment_route_twice (x : option string) (part : option Upload)
    (s : Server) :
  let s1 := snd (post_consignment_route x part s) in
  store_unchanged s1 (snd (post_consignment_route x part s1)).
Proof.
  intros s1. subst s1.
  destruct (given x) as [k|] eqn:Hg.
  2:{ rewrite (post_consignment_route_no_key _ _ _ Hg). cbn [snd].
      rewrite (post_consignment_route_no_key _ _ _ Hg).
      destruct part; repeat split. }
  apply given_Some in Hg as [-> Hk].
  destruct part as [u|].
  2:{ rewrite (post_consignment_route_no_file _ _ Hk). cbn [snd].
      rewrite (post_consignment_route_no_file _ _ Hk). repeat split. }
  destruct (findOne_blindedutxo k (ds s)) as [c|] eqn:Hc.
  - destruct (String.eqb_spec (filename c) (fingerprint (upload_content u)))
      as [Heq|Hne].
    + rewrite (post_consignment_route_same _ _ _ _ Hk Hc Heq). cbn [snd].
      rewrite (post_consignment_route_same (staged (Some u) s) _ _ _ Hk Hc Heq).
      repeat split.
    + rewrite (post_consignment_route_conflict _ _ _ _ Hk Hc Hne). cbn [snd].
      rewrite (post_consignment_route_conflict (staged (Some u) s) _ _ _ Hk Hc Hne).
      repeat split.
  - rewrite (post_consignment_route_created _ _ _ Hk Hc).
    destruct (with_consignment_stored_once (fingerprint (upload_content u)) k
                (upload_filename u) (upload_content u) s Hc) as (_ & Hrec & _).
    cbn [snd].
    rewrite (post_consignment_route_same _ _ _ _ Hk Hrec eq_refl). repeat split.
Qed.

Lemma post_media_route_twice (x : option string) (part : option Upload)
    (s : Server) :
  let s1 := snd (post_media_route x part s) in
  store_unchanged s1 (snd (post_media_route x part s1)).
Proof.
  intros s1. subst s1.
  destruct (given x) as [k|] eqn:Hg.
  2:{ rewrite (post_media_route_no_key _ _ _ Hg). cbn [snd].
      rewrite (post_media_route_no_key _ _ _ Hg). destruct part; repeat split. }
  apply given_Some in Hg as [-> Hk].
  destruct part as [u|].
  2:{ rewrite (post_media_route_no_file _ _ Hk). cbn [snd].
      rewrite (post_media_route_no_file _ _ Hk). repeat split. }
  destruct (findOne_attachment_id k (ds s)) as [m|] eqn:Hm.
  - destruct (String.eqb_spec (media_filename m) (fingerprint (upload_content u)))
      as [Heq|Hne].
    + rewrite (post_media_route_same _ _ _ _ Hk Hm Heq). cbn [snd].
      rewrite (post_media_route_same (staged (Some u) s) _ _ _ Hk Hm Heq).
      repeat split.
    + rewrite (post_media_route_conflict _ _ _ _ Hk Hm Hne). cbn [snd].
      rewrite (post_media_route_conflict (staged (Some u) s) _ _ _ Hk Hm Hne).
      repeat split.
  - rewrite (post_media_route_created _ _ _ Hk Hm).
    destruct (with_media_stored_once (fingerprint (upload_content u)) k
                (upload_filename u) (upload_content u) s Hm) as (_ & Hrec & _).
    cbn [snd].
    rewrite (post_media_route_same _ _ _ _ Hk Hrec eq_refl). repeat split.
Qed.

Lemma legacy_routes_twice (x : option string) (s : Server) :
  store_unchanged (snd (post_ack_route x s))
    (snd (post_ack_route x (snd (post_ack_route x s)))) /\
  store_unchanged (snd (post_nack_route x s))
    (snd (post_nack_route x (snd (post_nack_route x s)))).
Proof.
  destruct (given x) as [k|] eqn:Hg.
  2:{ unfold post_ack_route, post_nack_route, or_500. unfold_monad.
      rewrite Hg. split; repeat split. }
  destruct (findOne_blindedutxo k (ds s)) as [c|] eqn:Hc.
  2:{ unfold post_ack_route, post_nack_route, or_500. unfold_monad.
      rewrite Hg. repeat (rewrite Hc; simpl). split; repeat split. }
  apply given_Some in Hg as [-> Hk].
  destruct (decide (responded c = Some true)) as [Hr|Hr].
  - destruct (legacy_routes_already_responded s k c Hk Hc Hr) as [Ha Hn].
    repeat (first [rewrite Ha | rewrite Hn]; cbn [snd]). split; repeat split.
  - destruct (legacy_routes_not_responded s k c Hk Hc Hr) as [Ha Hn].
    rewrite Ha, Hn. cbn [snd]. split.
    + destruct (legacy_routes_already_responded
                  (set_ds (update_blindedutxo k (set_responded true false) (ds s)) s)
                  k (set_responded true false c) Hk) as [-> _];
        [simpl; rewrite (findOne_update_same _ (set_responded_key true false)), Hc;
         reflexivity | reflexivity | repeat split].
    + destruct (legacy_routes_already_responded
                  (set_ds (update_blindedutxo k (set_responded false true) (ds s)) s)
                  k (set_responded false true c) Hk) as [_ ->];
        [simpl; rewrite (findOne_update_same _ (set_responded_key false true)), Hc;
         reflexivity | reflexivity | repeat split].
Qed.

(** X25.  Serving a request a second time changes no record and no blob:
    whatever the request and the state, the records and the blobs after
    the request has been served twice are those after it has been served
    once. *)
Theorem serving_again_changes_nothing (r : Request) (s : Server) :
  store_unchanged (serve r s) (serve r (serve r s)).
Proof.
  destruct r as [method p part now | x | x part | x | x part | x | x | x | now].
  - rewrite !serve_json_rpc.
    apply store_unchanged_cleaned_both, call_method_twice.
  - simpl. rewrite !get_consignment_route_state. repeat split.
  - apply post_consignment_route_twice.
  - simpl. rewrite !get_media_route_state. repeat split.
  - apply post_media_route_twice.
  - apply legacy_routes_twice.
  - apply legacy_routes_twice.
  - simpl. rewrite !get_ack_route_state. repeat split.
  - repeat split.
Qed.

(** ** Where the acknowledgment does stay *)

Lemma answered_record_kept_step (s s' : Server) (k : string) (c : Consignment)
    (v : bool) :
  store_step s s' ->
  findOne_blindedutxo k (ds s) = Some c ->
  ack c = Some v ->
  responded c = Some true ->
  findOne_blindedutxo k (ds s') = Some c.
Proof.
  intros Hstep Hc Hack Hr.
  destruct Hstep as [(H1 & H2 & H3) | k0 b Hk Hnone H1 H2 H3
                    | k0 b Hk Hnone H1 H2 H3 | k0 c0 v0 Hc0 Hack0 H1 H2 H3
                    | k0 c0 v0 Hc0 Hr0 H1 H2 H3];
    rewrite H1.
  - exact Hc.
  - rewrite findOne_blindedutxo_insert, Hc. reflexivity.
  - rewrite findOne_blindedutxo_insert, Hc. reflexivity.
  - rewrite (findOne_update_other _ (set_ack_key v0)); [exact Hc|].
    intros ->. congruence.
  - rewrite (findOne_update_other _ (set_responded_key v0 (negb v0)));
      [exact Hc|].
    intros ->. congruence.
Qed.

(** X26.  A consignment record that a legacy route has answered is final
    on both surfaces: if its [ack] is set and its [responded] flag is
    [true], no sequence of requests changes any of its fields. *)
Theorem answered_record_is_final (rs : list Request) (s : Server) (k : string)
    (c : Consignment) (v : bool) :
  findOne_blindedutxo k (ds s) = Some c ->
  ack c = Some v ->
  responded c = Some true ->
  findOne_blindedutxo k (ds (serve_all rs s)) = Some c.
Proof.
  intros Hc Hack Hr.
  apply (serve_all_keeps (fun s' => findOne_blindedutxo k (ds s') = Some c));
    [|exact Hc].
  intros s1 s2 Hstep Hc1.
  exact (answered_record_kept_step _ _ _ _ _ Hstep Hc1 Hack Hr).
Qed.

Lemma consignment_post_ds (p : JSONRPCParams) (file : option string)
    (s : Server) :
  ds (snd (consignment_post p file s)) = ds s \/
  exists d, ds (snd (consignment_post p file s)) = insert_doc d (ds s).
Proof.
  destruct (getBlindedUTXOParam p) as [k|e] eqn:Hk.
  2:{ rewrite (consignment_post_invalid _ _ _ _ Hk). destruct file; auto. }
  destruct file as [f|].
  2:{ rewrite (consignment_post_no_file _ _ _ Hk). auto. }
  destruct (tempDir s !! f) as [b|] eqn:Hf.
  2:{ rewrite (consignment_post_enoent _ _ _ _ Hk Hf). auto. }
  destruct (findOne_blindedutxo k (ds s)) as [c|] eqn:Hc.
  - destruct (String.eqb_spec (filename c) (fingerprint b)) as [Heq|Hne].
    + rewrite (consignment_post_same _ _ _ _ _ _ Hk Hf Hc Heq). auto.
    + rewrite (consignment_post_conflict _ _ _ _ _ _ Hk Hf Hc Hne). auto.
  - rewrite (consignment_post_created _ _ _ _ _ Hk Hf Hc). right. eexists.
    reflexivity.
Qed.

Lemma media_post_ds (p : JSONRPCParams) (file : option string) (s : Server) :
  ds (snd (media_post p file s)) = ds s \/
  exists d, ds (snd (media_post p file s)) = insert_doc d (ds s).
Proof.
  destruct (getAttachmentIDParam p) as [k|e] eqn:Hk.
  2:{ rewrite (media_post_invalid _ _ _ _ Hk). destruct file; auto. }
  destruct file as [f|].
  2:{ rewrite (media_post_no_file _ _ _ Hk). auto. }
  destruct (tempDir s !! f) as [b|] eqn:Hf.
  2:{ rewrite (media_post_enoent _ _ _ _ Hk Hf). auto. }
  destruct (findOne_attachment_id k (ds s)) as [m|] eqn:Hm.
  - destruct (String.eqb_spec (media_filename m) (fingerprint b)) as [Heq|Hne].
    + rewrite (media_post_same _ _ _ _ _ _ Hk Hf Hm Heq). auto.
    + rewrite (media_post_conflict _ _ _ _ _ _ Hk Hf Hm Hne). auto.
  - rewrite (media_post_created _ _ _ _ _ Hk Hf Hm). right. eexists.
    reflexivity.
Qed.

Lemma call_method_keeps_ack (method : string) (p : JSONRPCParams)
    (file : option string) (now : Q) (s : Server) (k : string) (v : bool) :
  ack <$> findOne_blindedutxo k (ds s) = Some (Some v) ->
  ack <$> findOne_blindedutxo k (ds (snd (call_method method p file now s))) =
  Some (Some v).
Proof.
  intros Hack.
  assert (Hins : forall s', (ds s' = ds s \/ exists d, ds s' = insert_doc d (ds s)) ->
            ack <$> findOne_blindedutxo k (ds s') = Some (Some v)).
  { intros s' [-> | [d ->]]; [exact Hack|].
    rewrite findOne_blindedutxo_insert.
    destruct (findOne_blindedutxo k (ds s)); [exact Hack | discriminate]. }
  unfold call_method.
  repeat match goal with
         | |- context [if String.eqb method ?m then _ else _] =>
             destruct (String.eqb method m)
         end;
    rewrite ?fmap_snd.
  - exact Hack.
  - rewrite consignment_get_state. exact Hack.
  - apply Hins, consignment_post_ds.
  - rewrite media_get_state. exact Hack.
  - apply Hins, media_post_ds.
  - rewrite ack_get_state. exact Hack.
  - destruct (findOne_blindedutxo k (ds s)) as [c|] eqn:Hc; [|discriminate].
    apply (ack_post_keeps_decided p s k c v Hc). simpl in Hack. congruence.
  - exact Hack.
Qed.

(** X27.  Within JSON-RPC an acknowledgment, once set, stays: no sequence
    of JSON-RPC requests, whatever their methods, parameters and files,
    changes the [ack] of a record that has one. *)
Theorem json_rpc_keeps_decided_ack (rs : list Request) (s : Server)
    (k : string) (c : Consignment) (v : bool) :
  forallb is_json_rpc rs = true ->
  findOne_blindedutxo k (ds s) = Some c ->
  ack c = Some v ->
  ack <$> findOne_blindedutxo k (ds (serve_all rs s)) = Some (Some v).
Proof.
  intros Hrs Hc Hack.
  assert (H0 : ack <$> findOne_blindedutxo k (ds s) = Some (Some v))
    by (rewrite Hc; simpl; congruence).
  clear Hc Hack. revert s H0. unfold serve_all.
  induction rs as [|r rs IH]; intros s H0; [exact H0|].
  simpl in Hrs. apply andb_prop in Hrs as [Hr Hrs].
  simpl. apply (IH Hrs).
  destruct r as [method p part now| | | | | | | |]; try discriminate.
  rewrite serve_json_rpc.
  assert (Hstaged : ack <$> findOne_blindedutxo k (ds (staged part s)) =
                    Some (Some v)) by (destruct part; exact H0).
  pose proof (call_method_keeps_ack method p (upload_filename <$> part) now
                _ k v Hstaged) as Hkept.
  destruct (upload_filename <$> part); exact Hkept.
Qed.

End Handlers.

(** * Worked requests

    The handlers run on concrete requests, with [sample_fingerprint] for
    the digest. *)

Lemma ne_by_eqb (x y : string) : String.eqb x y = false -> x <> y.
Proof. apply String.eqb_neq. Qed.

Lemma upload_twice_created_then_noop_witness :
  exists s1 s2,
    post_json_rpc sample_fingerprint sample_version "consignment.post" (blinded_utxo_params "k1")
      (Some (mkUpload "tmp1" hello)) 0 empty_server =
      (Return (RpcSuccess (ResBool true)), s1) /\
    post_json_rpc sample_fingerprint sample_version "consignment.post" (blinded_utxo_params "k1")
      (Some (mkUpload "tmp2" hello)) 0 s1 =
      (Return (RpcSuccess (ResBool false)), s2) /\
    store_unchanged s1 s2 /\
    stored_once_consignment (sample_fingerprint hello) "k1" hello
      (consignmentDir empty_server) s2.
Proof.
  exact (proj1 (upload_twice_created_then_noop sample_fingerprint sample_version
                  empty_server "k1" "a1" hello "tmp1" "tmp2"
                  (blinded_utxo_params "k1") (attachment_id_params "a1") 0 0
                  eq_refl eq_refl eq_refl eq_refl)).
Defined.

(** On a server that holds one consignment and no media file, and on one
    that holds one media file and no consignment. *)
Lemma conflicting_upload_rejected_witness :
  (exists s',
     post_json_rpc sample_fingerprint sample_version "consignment.post"
       (blinded_utxo_params "k1") (Some (mkUpload "tmp1" world)) 0
       server_with_k1 =
       (Return (RpcError CannotChangeUploadedFile), s') /\
     store_unchanged server_with_k1 s' /\
     findOne_blindedutxo "k1" (ds s') = Some (undecided "k1" "hello") /\
     consignmentDir s' !! "hello" = consignmentDir server_with_k1 !! "hello") /\
  (exists s',
     post_media_route sample_fingerprint (Some "a1")
       (Some (mkUpload "tmp1" world)) server_with_a1 =
       (Return (mkResponse 403 (failure "Cannot change uploaded file!")), s') /\
     store_unchanged server_with_a1 s' /\
     findOne_attachment_id "a1" (ds s') = Some (mkMedia "hello" "a1") /\
     mediaDir s' !! "hello" = mediaDir server_with_a1 !! "hello").
Proof.
  split.
  - refine (proj1 (proj1 (conflicting_upload_rejected sample_fingerprint
                            sample_version server_with_k1
                            (mkUpload "tmp1" world) 0)
                     (blinded_utxo_params "k1") "k1" (undecided "k1" "hello")
                     eq_refl eq_refl _)).
    apply ne_by_eqb; reflexivity.
  - refine (proj2 (proj2 (conflicting_upload_rejected sample_fingerprint
                            sample_version server_with_a1
                            (mkUpload "tmp1" world) 0)
                     (attachment_id_params "a1") "a1" (mkMedia "hello" "a1")
                     eq_refl eq_refl _)).
    apply ne_by_eqb; reflexivity.
Defined.

Lemma upload_then_get_round_trip_witness :
  exists s1 encoded,
    post_json_rpc sample_fingerprint sample_version "consignment.post"
      (blinded_utxo_params "k1") (Some (mkUpload "tmp1" hello)) 0 empty_server =
      (Return (RpcSuccess (ResBool true)), s1) /\
    post_consignment_route sample_fingerprint (Some "k1")
      (Some (mkUpload "tmp1" hello)) empty_server =
      (Return (mkResponse 200 [("success", JBool true)]), s1) /\
    base64_decode encoded = Some hello /\
    post_json_rpc sample_fingerprint sample_version "consignment.get"
      (blinded_utxo_params "k1") None 0 s1 =
      (Return (RpcSuccess (ResString encoded)), s1) /\
    get_consignment_route (Some "k1") s1 =
      (Return (mkResponse 200 [("success", JBool true);
                               ("consignment", JStr encoded)]), s1) /\
    forall p' k',
      getBlindedUTXOParam p' = Return k' ->
      k' <> "k1" ->
      findOne_blindedutxo k' (ds empty_server) = None ->
      post_json_rpc sample_fingerprint sample_version "consignment.get"
        p' None 0 s1 =
        (Return (RpcError NotFoundConsignment), s1) /\
      get_consignment_route (Some k') s1 =
        (Return (mkResponse 404 (failure "No consignment found!")), s1).
Proof.
  exact (proj1 (upload_then_get_round_trip sample_fingerprint sample_version
                  empty_server "k1" "a1" hello "tmp1"
                  (blinded_utxo_params "k1") (attachment_id_params "a1") 0
                  eq_refl eq_refl eq_refl eq_refl)).
Defined.


(** ** Where the code departs from the claims *)


(** C1.  A consignment is uploaded under [k1], [ack.post] records [false]
    for it, and [POST /ack] then succeeds and stores [true]: the recorded
    value has changed. *)
Theorem ack_overwritten_by_legacy_route :
  post_json_rpc sample_fingerprint sample_version "consignment.post"
    (blinded_utxo_params "k1") (Some (mkUpload "tmp1" hello)) 0 empty_server =
    (Return (RpcSuccess (ResBool true)), server_with_k1) /\
  post_json_rpc sample_fingerprint sample_version "ack.post"
    (ack_params "k1" false) None 0 server_with_k1 =
    (Return (RpcSuccess (ResBool true)), decided_by_rpc false) /\
  ack <$> findOne_blindedutxo "k1" (ds (decided_by_rpc false)) = Some (Some false) /\
  post_ack_route (Some "k1") (decided_by_rpc false) =
    (Return (mkResponse 200 [("success", JBool true)]), decided_by_rest true) /\
  ack <$> findOne_blindedutxo "k1" (ds (decided_by_rest true)) = Some (Some true).
Proof. repeat split; vm_compute; reflexivity. Qed.

(** C2.  After a successful [ack.post] the record has [ack] set and neither
    [responded] nor [nack]: the legacy fields do not follow, and
    [GET /ack/k1] shows a refused consignment as [ack: false, nack: false].
    After [POST /nack] the three fields agree. *)
Theorem ack_post_leaves_legacy_fields :
  post_json_rpc sample_fingerprint sample_version "ack.post"
    (ack_params "k1" false) None 0 server_with_k1 =
    (Return (RpcSuccess (ResBool true)), decided_by_rpc false) /\
  findOne_blindedutxo "k1" (ds (decided_by_rpc false)) =
    Some (mkConsignment "hello" "k1" (Some false) None None) /\
  legacy_consistent (mkConsignment "hello" "k1" (Some false) None None) = false /\
  get_ack_route (Some "k1") (decided_by_rpc false) =
    (Return (mkResponse 200 [("success", JBool true); ("ack", JBool false);
                             ("nack", JBool false)]),
     decided_by_rpc false) /\
  post_nack_route (Some "k1") server_with_k1 =
    (Return (mkResponse 200 [("success", JBool true)]), decided_by_rest false) /\
  findOne_blindedutxo "k1" (ds (decided_by_rest false)) =
    Some (mkConsignment "hello" "k1" (Some false) (Some true) (Some true)) /\
  legacy_consistent (mkConsignment "hello" "k1" (Some false) (Some true) (Some true))
    = true.
Proof. repeat split; vm_compute; reflexivity. Qed.

(** C6.  A consignment decided through [ack.post] is not refused by the
    legacy routes: after [ack.post] has recorded [true], [POST /ack]
    (the same value) and [POST /nack] (the other one) both answer 200. *)
Theorem legacy_routes_accept_rpc_decision :
  post_json_rpc sample_fingerprint sample_version "ack.post"
    (ack_params "k1" true) None 0 server_with_k1 =
    (Return (RpcSuccess (ResBool true)), decided_by_rpc true) /\
  post_ack_route (Some "k1") (decided_by_rpc true) =
    (Return (mkResponse 200 [("success", JBool true)]), decided_by_rest true) /\
  post_nack_route (Some "k1") (decided_by_rpc true) =
    (Return (mkResponse 200 [("success", JBool true)]), decided_by_rest false).
Proof. repeat split; vm_compute; reflexivity. Qed.

(** C7.  On the REST upload route the staged file stays in [tempDir] when
    the content is already stored under the key (200), when other content
    is (403), and when the key field is missing (400). *)
Theorem rest_upload_leaves_staged_file :
  post_consignment_route sample_fingerprint (Some "k1")
    (Some (mkUpload "tmp2" hello)) server_with_k1 =
    (Return (mkResponse 200 [("success", JBool true)]),
     with_leftover "tmp2" hello server_with_k1) /\
  post_consignment_route sample_fingerprint (Some "k1")
    (Some (mkUpload "tmp3" world)) server_with_k1 =
    (Return (mkResponse 403 (failure "Cannot change uploaded file!")),
     with_leftover "tmp3" world server_with_k1) /\
  post_consignment_route sample_fingerprint None
    (Some (mkUpload "tmp4" hello)) server_with_k1 =
    (Return (mkResponse 400 (failure "blindedutxo missing!")),
     with_leftover "tmp4" hello server_with_k1) /\
  tempDir (with_leftover "tmp2" hello server_with_k1) !! "tmp2" = Some hello /\
  tempDir (snd (post_json_rpc sample_fingerprint sample_version "consignment.post"
                  (blinded_utxo_params "k1") (Some (mkUpload "tmp2" hello)) 0
                  server_with_k1)) !! "tmp2" = None.
Proof. repeat split; vm_compute; reflexivity. Qed.

(** ** The rest of the server, on the worked requests *)

(** On a server that holds a consignment only, and on one that holds a
    media file only. *)
Lemma records_never_removed_witness :
  (exists c',
     findOne_blindedutxo "k1"
       (ds (serve_all sample_fingerprint sample_version sample_requests
              server_with_k1)) = Some c' /\
     filename c' = "hello" /\ blindedutxo c' = "k1") /\
  findOne_attachment_id "a1"
    (ds (serve_all sample_fingerprint sample_version sample_requests
           server_with_a1)) = Some (mkMedia "hello" "a1").
Proof.
  split.
  - exact (proj1 (records_never_removed sample_fingerprint sample_version
                    sample_requests server_with_k1)
             "k1" (undecided "k1" "hello") eq_refl).
  - exact (proj2 (records_never_removed sample_fingerprint sample_version
                    sample_requests server_with_a1)
             "a1" (mkMedia "hello" "a1") eq_refl).
Defined.

Lemma blobs_never_removed_witness :
  is_Some (consignmentDir
             (serve_all sample_fingerprint sample_version sample_requests
                server_with_k1) !! "hello").
Proof.
  apply (blobs_never_removed sample_fingerprint sample_version sample_requests
           server_with_k1 ConsignmentDir "hello").
  - intros H. discriminate H.
  - exists hello. reflexivity.
Defined.

(** After the upload of one consignment and nothing else, and after the
    upload of one media file and nothing else. *)
Lemma stored_artifact_can_be_fetched_witness :
  (exists b,
     sample_fingerprint b = "hello" /\
     consignment_get (blinded_utxo_params "k1")
       (serve_all sample_fingerprint sample_version only_consignment
          empty_server) =
       (Return (base64_encode b),
        serve_all sample_fingerprint sample_version only_consignment
          empty_server) /\
     get_consignment_route (Some "k1")
       (serve_all sample_fingerprint sample_version only_consignment
          empty_server) =
       (Return (mkResponse 200 [("success", JBool true);
                                ("consignment", JStr (base64_encode b))]),
        serve_all sample_fingerprint sample_version only_consignment
          empty_server)) /\
  (exists b,
     sample_fingerprint b = "world" /\
     media_get (attachment_id_params "a1")
       (serve_all sample_fingerprint sample_version only_media empty_server) =
       (Return (base64_encode b),
        serve_all sample_fingerprint sample_version only_media empty_server) /\
     get_media_route (Some "a1")
       (serve_all sample_fingerprint sample_version only_media empty_server) =
       (Return (mkResponse 200 [("success", JBool true);
                                ("media", JStr (base64_encode b))]),
        serve_all sample_fingerprint sample_version only_media empty_server)).
Proof.
  split.
  - exact (proj1 (stored_artifact_can_be_fetched sample_fingerprint
                    sample_version only_consignment)
             (blinded_utxo_params "k1") "k1" (undecided "k1" "hello")
             eq_refl eq_refl).
  - exact (proj2 (stored_artifact_can_be_fetched sample_fingerprint
                    sample_version only_media)
             (attachment_id_params "a1") "a1" (mkMedia "world" "a1")
             eq_refl eq_refl).
Defined.

Lemma ack_post_then_ack_get_witness :
  post_json_rpc sample_fingerprint sample_version "ack.get"
    (ack_params "k1" true) None 0 server_with_k1 =
    (Return (RpcSuccess ResUndefined), server_with_k1) /\
  exists s1,
    post_json_rpc sample_fingerprint sample_version "ack.post"
      (ack_params "k1" true) None 0 server_with_k1 =
      (Return (RpcSuccess (ResBool true)), s1) /\
    post_json_rpc sample_fingerprint sample_version "ack.get"
      (ack_params "k1" true) None 0 s1 =
      (Return (RpcSuccess (ResBool true)), s1) /\
    post_json_rpc sample_fingerprint sample_version "ack.post"
      (ack_params "k1" true) None 0 s1 =
      (Return (RpcSuccess (ResBool false)), s1).
Proof.
  exact (ack_post_then_ack_get sample_fingerprint sample_version
           (ack_params "k1" true) server_with_k1 "k1" true
           (undecided "k1" "hello") 0 eq_refl eq_refl eq_refl eq_refl).
Defined.

Lemma legacy_answer_is_final_witness :
  exists s1,
    post_nack_route (Some "k1") server_with_k1 =
      (Return (mkResponse 200 [("success", JBool true)]), s1) /\
    get_ack_route (Some "k1") s1 =
      (Return (mkResponse 200 [("success", JBool true); ("ack", JBool false);
                               ("nack", JBool (negb false))]), s1) /\
    ack_get (blinded_utxo_params "k1") s1 = (Return (Some false), s1) /\
    post_ack_route (Some "k1") s1 =
      (Return (mkResponse 403 (failure "Already responded!")), s1) /\
    post_nack_route (Some "k1") s1 =
      (Return (mkResponse 403 (failure "Already responded!")), s1) /\
    ack_post (ack_params "k1" false) s1 = (Return false, s1) /\
    ack_post (ack_params "k1" (negb false)) s1 = (Throw CannotChangeAck, s1).
Proof.
  refine (legacy_answer_is_final server_with_k1 "k1" (undecided "k1" "hello")
            false _ eq_refl _).
  - apply ne_by_eqb. reflexivity.
  - intros H. discriminate H.
Defined.

Lemma first_ack_post_wins_witness :
  ack_posts "k1" [true; false; true] server_with_k1 =
    ([Return true; Throw CannotChangeAck; Return false], decided_by_rpc true) /\
  findOne_blindedutxo "k1" (ds (decided_by_rpc true)) =
    Some (set_ack true (undecided "k1" "hello")).
Proof.
  refine (first_ack_post_wins server_with_k1 "k1" (undecided "k1" "hello")
            true [false; true] _ eq_refl eq_refl).
  apply ne_by_eqb. reflexivity.
Defined.

Lemma upload_without_file_witness :
  post_json_rpc sample_fingerprint sample_version "consignment.post"
    (blinded_utxo_params "k1") None 0 server_with_k1 =
    (Return (RpcError MissingFile), server_with_k1).
Proof.
  exact (proj1 (upload_without_file sample_fingerprint sample_version
                  (blinded_utxo_params "k1") (attachment_id_params "a1")
                  "k1" "a1" 0 server_with_k1 eq_refl eq_refl)).
Defined.

Lemma upload_surfaces_agree_witness :
  store_unchanged
    (snd (post_json_rpc sample_fingerprint sample_version "consignment.post"
            (blinded_utxo_params "k1") (Some (mkUpload "tmp1" world)) 0
            server_with_k1))
    (snd (post_consignment_route sample_fingerprint (Some "k1")
            (Some (mkUpload "tmp1" world)) server_with_k1)).
Proof.
  exact (proj1 (proj1 (upload_surfaces_agree sample_fingerprint sample_version
                         (blinded_utxo_params "k1") (attachment_id_params "a1")
                         "k1" "a1" (mkUpload "tmp1" world) 0 server_with_k1
                         eq_refl eq_refl))).
Defined.

Lemma same_content_under_two_keys_witness :
  exists s1 s2,
    post_json_rpc sample_fingerprint sample_version "consignment.post"
      (blinded_utxo_params "k1") (Some (mkUpload "tmp1" hello)) 0 empty_server =
      (Return (RpcSuccess (ResBool true)), s1) /\
    post_json_rpc sample_fingerprint sample_version "consignment.post"
      (blinded_utxo_params "k2") (Some (mkUpload "tmp2" hello)) 0 s1 =
      (Return (RpcSuccess (ResBool true)), s2) /\
    consignmentDir s2 = consignmentDir s1 /\
    findOne_blindedutxo "k1" (ds s2) =
      Some (undecided "k1" (sample_fingerprint hello)) /\
    findOne_blindedutxo "k2" (ds s2) =
      Some (undecided "k2" (sample_fingerprint hello)) /\
    consignment_get (blinded_utxo_params "k1") s2 =
      (Return (base64_encode hello), s2) /\
    consignment_get (blinded_utxo_params "k2") s2 =
      (Return (base64_encode hello), s2).
Proof.
  refine (same_content_under_two_keys sample_fingerprint sample_version
            (blinded_utxo_params "k1") (blinded_utxo_params "k2") "k1" "k2"
            hello "tmp1" "tmp2" 0 empty_server eq_refl eq_refl _ eq_refl eq_refl).
  apply ne_by_eqb. reflexivity.
Defined.

Lemma namespaces_are_separate_witness :
  exists s1 s2,
    post_json_rpc sample_fingerprint sample_version "consignment.post"
      (blinded_utxo_params "k1") (Some (mkUpload "tmp1" hello)) 0 empty_server =
      (Return (RpcSuccess (ResBool true)), s1) /\
    post_json_rpc sample_fingerprint sample_version "media.get"
      (attachment_id_params "k1") None 0 s1 =
      (Return (RpcError NotFoundMedia), s1) /\
    get_media_route (Some "k1") s1 =
      (Return (mkResponse 404 (failure "No media found!")), s1) /\
    post_json_rpc sample_fingerprint sample_version "media.post"
      (attachment_id_params "k1") (Some (mkUpload "tmp2" world)) 0 s1 =
      (Return (RpcSuccess (ResBool true)), s2) /\
    findOne_blindedutxo "k1" (ds s2) =
      Some (undecided "k1" (sample_fingerprint hello)) /\
    findOne_attachment_id "k1" (ds s2) =
      Some (mkMedia (sample_fingerprint world) "k1").
Proof.
  exact (namespaces_are_separate sample_fingerprint sample_version
           (blinded_utxo_params "k1") (attachment_id_params "k1") "k1"
           hello world "tmp1" "tmp2" 0 empty_server
           eq_refl eq_refl eq_refl eq_refl).
Defined.

Lemma rest_missing_field_witness :
  post_consignment_route sample_fingerprint (Some "")
    (Some (mkUpload "tmp1" hello)) server_with_k1 =
    (Return (mkResponse 400 (failure "blindedutxo missing!")),
     staged (Some (mkUpload "tmp1" hello)) server_with_k1).
Proof.
  exact (proj1 (proj2 (rest_missing_field sample_fingerprint (Some "")
                         (Some (mkUpload "tmp1" hello)) server_with_k1
                         eq_refl))).
Defined.

Lemma rest_unknown_key_witness :
  post_nack_route (Some "k2") server_with_k1 =
    (Return (mkResponse 404 [("success", JBool false)]), server_with_k1).
Proof.
  refine (proj1 (proj2 (proj2 (rest_unknown_key "k2" server_with_k1 _ eq_refl)))).
  apply ne_by_eqb. reflexivity.
Defined.

Lemma uptime_is_whole_seconds_witness :
  exists u : Z,
    server_info sample_version (37 # 10) empty_server =
      (Return {| version := sample_version; protocol_version := "0.1";
                 uptime := u |}, empty_server) /\
    getinfo_route sample_version (37 # 10) empty_server =
      (Return (mkResponse 200 [("version", JStr sample_version);
                               ("uptime", JNum u)]), empty_server) /\
    (inject_Z u <= 37 # 10)%Q /\ (37 # 10 < inject_Z (u + 1))%Q.
Proof.
  apply (uptime_is_whole_seconds sample_version (37 # 10) empty_server).
  unfold Qle. simpl. lia.
Defined.

(** On a server whose media file is in place and whose consignment file
    is gone, and on one with both files gone. *)
Lemma get_with_missing_file_witness :
  (consignment_get (blinded_utxo_params "k1") consignment_file_gone =
     (Throw ENOENT, consignment_file_gone) /\
   get_consignment_route (Some "k1") consignment_file_gone =
     (Return (mkResponse 500 [("success", JBool false)]),
      consignment_file_gone)) /\
  (media_get (attachment_id_params "a1") server_without_files =
     (Throw ENOENT, server_without_files) /\
   get_media_route (Some "a1") server_without_files =
     (Return (mkResponse 500 [("success", JBool false)]),
      server_without_files)).
Proof.
  split.
  - exact (proj1 (get_with_missing_file consignment_file_gone)
             (blinded_utxo_params "k1") "k1" (undecided "k1" "hello")
             eq_refl eq_refl eq_refl).
  - exact (proj2 (get_with_missing_file server_without_files)
             (attachment_id_params "a1") "a1" (mkMedia "hello" "a1")
             eq_refl eq_refl eq_refl).
Defined.

Lemma answered_record_is_final_witness :
  findOne_blindedutxo "k1"
    (ds (serve_all sample_fingerprint sample_version sample_requests
           (decided_by_rest true))) =
  Some (mkConsignment "hello" "k1" (Some true) (Some false) (Some true)).
Proof.
  exact (answered_record_is_final sample_fingerprint sample_version
           sample_requests (decided_by_rest true) "k1"
           (mkConsignment "hello" "k1" (Some true) (Some false) (Some true))
           true eq_refl eq_refl eq_refl).
Defined.

Lemma json_rpc_keeps_decided_ack_witness :
  ack <$> findOne_blindedutxo "k1"
            (ds (serve_all sample_fingerprint sample_version
                   [JsonRpc "ack.post" (ack_params "k1" false) None 0;
                    JsonRpc "consignment.post" (blinded_utxo_params "k1")
                      (Some (mkUpload "tmp1" world)) 0]
                   (decided_by_rpc true))) =
  Some (Some true).
Proof.
  exact (json_rpc_keeps_decided_ack sample_fingerprint sample_version
           [JsonRpc "ack.post" (ack_params "k1" false) None 0;
            JsonRpc "consignment.post" (blinded_utxo_params "k1")
              (Some (mkUpload "tmp1" world)) 0]
           (decided_by_rpc true) "k1"
           (mkConsignment "hello" "k1" (Some true) None None) true
           eq_refl eq_refl eq_refl).
Defined.


Lemma truncateText_prefix_then_dots_witness :
  truncateText "blindedutxo" 16 = "blindedutxo" /\
  exists head tail,
    "abcdefghijklmnopqrstuvwxyz" = head +:+ tail /\
    String.length head = 16 /\
    truncateText "abcdefghijklmnopqrstuvwxyz" 16 = head +:+ "..." /\
    String.length (truncateText "abcdefghijklmnopqrstuvwxyz" 16) = 16 + 3.
Proof.
  split.
  - apply (proj1 (truncateText_prefix_then_dots "blindedutxo" 16)).
    simpl. lia.
  - apply (proj1 (proj2 (truncateText_prefix_then_dots
                           "abcdefghijklmnopqrstuvwxyz" 16))).
    simpl. lia.
Defined.
